(** * IoT telemetry ingestion and alerting (backend/app/api/api_v1/endpoints/iot.py)

    A shallow embedding of the sensor-reading ingestion endpoint, the reading
    classifier, the alert-type tagger and device registration, together with
    the SQLAlchemy rows they read and write (backend/app/models/iot.py).

    Python values are embedded as they reach the handlers: JSON payloads as a
    tagged union, numbers as [bool]/[int]/[float] with Python's exact mixed
    comparison, exceptions as a result type, and the database session as an
    explicit unit of work over the committed tables, whose rows hold what
    their SQLite columns keep. *)

From Stdlib Require Import ZArith List String Ascii Bool Lia.
From Stdlib Require Import SpecFloat DecimalString.
From Stdlib Require Import Sorted Permutation.
Import ListNotations.

Set Warnings "-register-all".

Local Open Scope Z_scope.
Local Open Scope string_scope.

(* ================================================================= *)
(** ** Python values *)

Module Py.

(** A Python float is an IEEE 754 binary64 value. *)
Definition float := spec_float.

(** The numbers [isinstance(x, (int, float))] accepts; [bool] is a subclass
    of [int]. *)
Inductive num : Type :=
| NBool (b : bool)
| NInt (z : Z)
| NFloat (f : float).

(** What a JSON document decodes to. *)
Inductive value : Type :=
| None_
| Bool (b : bool)
| Int (z : Z)
| Float (f : float)
| Str (s : string)
| List (l : list value)
| Dict (d : list (string * value)).

Inductive exn : Type :=
| HTTPException (status_code : Z) (detail : string)
| AttributeError
| TypeError
| OverflowError
| ValidationError
| SQLAlchemyError
| StatementError.

Inductive result (A : Type) : Type :=
| Ok (a : A)
| Raise (e : exn).
Arguments Ok {A} a.
Arguments Raise {A} e.

Definition of_num (n : num) : value :=
  match n with
  | NBool b => Bool b
  | NInt z => Int z
  | NFloat f => Float f
  end.

(** [isinstance(v, (int, float))], returning the number when it holds. *)
Definition as_num (v : value) : option num :=
  match v with
  | Bool b => Some (NBool b)
  | Int z => Some (NInt z)
  | Float f => Some (NFloat f)
  | _ => None
  end.

(** *** Exact numeric comparison

    Python compares [int] with [float] by mathematical value, without
    rounding the integer. Every number is read as [m * 2^e], an infinity or
    NaN. *)
Inductive xreal : Type :=
| XNaN
| XInf (negative : bool)
| XFin (m e : Z).

Definition xreal_of_float (f : float) : xreal :=
  match f with
  | S754_zero _ => XFin 0 0
  | S754_infinity s => XInf s
  | S754_nan => XNaN
  | S754_finite s m e => XFin (if s then Z.neg m else Z.pos m) e
  end.

Definition xreal_of_num (n : num) : xreal :=
  match n with
  | NBool b => XFin (if b then 1 else 0) 0
  | NInt z => XFin z 0
  | NFloat f => xreal_of_float f
  end.

(** [None] when either side is NaN (every ordered comparison is false). *)
Definition xcompare (a b : xreal) : option comparison :=
  match a, b with
  | XNaN, _ | _, XNaN => None
  | XInf s1, XInf s2 =>
      Some (match s1, s2 with
            | true, false => Lt
            | false, true => Gt
            | _, _ => Eq
            end)
  | XInf s, XFin _ _ => Some (if s then Lt else Gt)
  | XFin _ _, XInf s => Some (if s then Gt else Lt)
  | XFin m1 e1, XFin m2 e2 =>
      let e := Z.min e1 e2 in
      Some (Z.compare (m1 * 2 ^ (e1 - e)) (m2 * 2 ^ (e2 - e)))
  end.

Definition num_gt (a b : num) : bool :=
  match xcompare (xreal_of_num a) (xreal_of_num b) with
  | Some Gt => true
  | _ => false
  end.

Definition num_lt (a b : num) : bool :=
  match xcompare (xreal_of_num a) (xreal_of_num b) with
  | Some Lt => true
  | _ => false
  end.

(** [a > b] and [a < b] for a number against an arbitrary value: ordering a
    number against [None], a string, a list or a dict raises [TypeError]. *)
Definition gt (a : num) (b : value) : result bool :=
  match as_num b with
  | Some n => Ok (num_gt a n)
  | None => Raise TypeError
  end.

Definition lt (a : num) (b : value) : result bool :=
  match as_num b with
  | Some n => Ok (num_lt a n)
  | None => Raise TypeError
  end.

(** *** Truth value testing *)
Definition float_truthy (f : float) : bool :=
  match f with
  | S754_zero _ => false
  | _ => true
  end.

Definition num_truthy (n : num) : bool :=
  match n with
  | NBool b => b
  | NInt z => negb (Z.eqb z 0)
  | NFloat f => float_truthy f
  end.

(** The guard [... and value] on an optional number. *)
Definition opt_truthy (v : option num) : bool :=
  match v with
  | Some n => num_truthy n
  | None => false
  end.

Definition truthy (v : value) : bool :=
  match v with
  | None_ => false
  | Bool b => b
  | Int z => negb (Z.eqb z 0)
  | Float f => float_truthy f
  | Str s => negb (String.eqb s "")
  | List l => match l with [] => false | _ => true end
  | Dict d => match d with [] => false | _ => true end
  end.

(** [x == 0] on numbers. *)
Definition num_is_zero (n : num) : bool :=
  match xcompare (xreal_of_num n) (XFin 0 0) with
  | Some Eq => true
  | _ => false
  end.

(** *** [float(x)]

    An integer is rounded to the nearest binary64 value, ties to even; one
    that rounds past the largest finite float raises [OverflowError]. *)
Definition float_of_Z (z : Z) : result float :=
  match binary_normalize 53 1024 z 0 false with
  | S754_infinity _ => Raise OverflowError
  | f => Ok f
  end.

Definition to_float (n : num) : result float :=
  match n with
  | NBool b => float_of_Z (if b then 1 else 0)
  | NInt z => float_of_Z z
  | NFloat f => Ok f
  end.

(** Neither NaN nor an infinity. *)
Definition is_finite (f : float) : bool :=
  match f with
  | S754_zero _ | S754_finite _ _ _ => true
  | S754_infinity _ | S754_nan => false
  end.

(** *** Dictionaries *)
Fixpoint assoc {A : Type} (k : string) (d : list (string * A)) : option A :=
  match d with
  | [] => None
  | (k', v) :: d' => if String.eqb k k' then Some v else assoc k d'
  end.

(** [d.get(k)] on a value known to be a dict. *)
Definition get (d : list (string * value)) (k : string) : value :=
  match assoc k d with
  | Some v => v
  | None => None_
  end.

(** [v.get(k, default)] on an arbitrary value: only dicts have [get]. *)
Definition get_or (v : value) (k : string) (default : value) : result value :=
  match v with
  | Dict d => Ok (match assoc k d with
                  | Some x => x
                  | None => default
                  end)
  | _ => Raise AttributeError
  end.

(** [str(z)] for an [int]. *)
Definition str_of_Z (z : Z) : string := NilZero.string_of_int (Z.to_int z).

End Py.

Import Py.

(** The error monad of pure Python expressions. *)
Definition rbind {A B : Type} (r : result A) (k : A -> result B) : result B :=
  match r with
  | Ok a => k a
  | Raise e => Raise e
  end.

Notation "x <-? r ;; k" := (rbind r (fun x => k))
  (at level 61, r at next level, right associativity).

(* ================================================================= *)
(** ** Rows (backend/app/models/iot.py) *)

(** A [datetime] is the instant its date and time fields spell, counted in
    microseconds; the store keeps those fields and compares by them. A UTC
    offset sent with a caller's timestamp is not modelled. *)
Definition datetime := Z.

(** Every model inherits an integer primary key [id] from the declarative
    base class; it is [None] on a freshly constructed object and set by the
    store when the row is inserted. *)
Module SensorDevice.
Record t : Type := mk {
  id : option Z;
  patient_id : Z;
  device_type : string;
  device_name : string;
  manufacturer : option string;
  model : option string;
  device_id : string;
  mac_address : option string;
  is_active : bool;
  last_sync : datetime
}.

Definition with_id (pk : Z) (d : t) : t :=
  mk (Some pk) (patient_id d) (device_type d) (device_name d) (manufacturer d)
     (model d) (device_id d) (mac_address d) (is_active d) (last_sync d).

Definition with_last_sync (ts : datetime) (d : t) : t :=
  mk (id d) (patient_id d) (device_type d) (device_name d) (manufacturer d)
     (model d) (device_id d) (mac_address d) (is_active d) ts.

(** The UPDATE a changed [last_sync] is flushed as: it reaches the row whose
    primary key is that of the loaded object. *)
Definition touch (pk : option Z) (ts : datetime) (d : t) : t :=
  match pk, id d with
  | Some k, Some k' => if Z.eqb k k' then with_last_sync ts d else d
  | _, _ => d
  end.
End SensorDevice.

Module SensorReading.
Record t : Type := mk {
  id : option Z;
  device_id : option Z;
  patient_id : Z;
  reading_type : string;
  reading_timestamp : datetime;
  reading_data : list (string * Py.value);
  numeric_value : option Py.num;
  unit : Py.value;
  quality : string;
  is_alert : bool;
  alert_severity : option string;
  alert_message : option string
}.

Definition with_id (pk : Z) (r : t) : t :=
  mk (Some pk) (device_id r) (patient_id r) (reading_type r)
     (reading_timestamp r) (reading_data r) (numeric_value r) (unit r)
     (quality r) (is_alert r) (alert_severity r) (alert_message r).
End SensorReading.

Module AlertLog.
Record t : Type := mk {
  id : option Z;
  patient_id : Z;
  sensor_reading_id : option Z;
  alert_type : string;
  severity : option string;
  alert_message : option string;
  alert_timestamp : datetime;
  is_read : bool;
  is_acknowledged : bool;
  acknowledged_by : option string;
  acknowledged_at : option datetime
}.

(** The constructor call of the ingestion handler: the four status columns
    are not passed, so they take their column defaults ([False], [False],
    NULL, NULL). *)
Definition new (patient_id : Z) (sensor_reading_id : option Z)
    (alert_type : string) (severity alert_message : option string)
    (alert_timestamp : datetime) : t :=
  mk None patient_id sensor_reading_id alert_type severity alert_message
     alert_timestamp false false None None.

Definition with_id (pk : Z) (a : t) : t :=
  mk (Some pk) (patient_id a) (sensor_reading_id a) (alert_type a) (severity a)
     (alert_message a) (alert_timestamp a) (is_read a) (is_acknowledged a)
     (acknowledged_by a) (acknowledged_at a).
End AlertLog.

Module PatientMonitoringProfile.
Record t : Type := mk {
  id : option Z;
  patient_id : Z;
  is_monitoring_active : bool;
  monitoring_frequency : string;
  thresholds : Py.value;
  email_alerts : bool;
  sms_alerts : bool;
  push_notifications : bool
}.
End PatientMonitoringProfile.

(* ================================================================= *)
(** ** The store and the session *)

(** The committed tables. Of [patients] only the primary keys are read. *)
Record Database : Type := mkDatabase {
  sensor_devices : list SensorDevice.t;
  sensor_readings : list SensorReading.t;
  alert_logs : list AlertLog.t;
  monitoring_profiles : list PatientMonitoringProfile.t;
  patients : list Z
}.

(** Key allocation belongs to the store: the key given to a new row is one
    past the largest key of its table. *)
Definition next_id (ids : list (option Z)) : Z :=
  1 + fold_right (fun o acc => match o with
                               | Some k => Z.max k acc
                               | None => acc
                               end) 0 ids.

(** What a session holds between [add]/attribute assignment and [commit]. *)
Inductive pending_op : Type :=
| AddReading (r : SensorReading.t)
| AddAlert (a : AlertLog.t)
| AddDevice (d : SensorDevice.t)
| SetLastSync (pk : option Z) (ts : datetime).

(** *** What the columns keep

    The tables live in SQLite ([core/config.py] falls back to
    [sqlite:///./app/ckd.db]). A row holds what its columns keep, which for
    the two columns that receive untyped payload data, [numeric_value] and
    [unit], is not always the Python value that was assigned. *)

(** A real number as SQLite keeps it: NaN is written as NULL, and the sign
    of a zero is lost. *)
Definition real_column (f : Py.float) : option Py.float :=
  match f with
  | S754_nan => None
  | S754_zero _ => Some (S754_zero false)
  | _ => Some f
  end.

(** [Column(Float)]: the parameter is bound as [float(value)], so an [int]
    or [bool] is kept as a float; an integer [float] cannot represent fails
    the statement. *)
Definition float_column (v : option Py.num) : result (option Py.num) :=
  match v with
  | None => Ok None
  | Some n =>
      match Py.to_float n with
      | Ok f => Ok (option_map NFloat (real_column f))
      | Raise _ => Raise StatementError
      end
  end.

(** What the driver binds as a 64-bit integer. *)
Definition int64 (z : Z) : bool := Z.leb (- 2 ^ 63) z && Z.ltb z (2 ^ 63).

(** [Column(String)]: the parameter reaches the driver as it is. Text is
    kept; a number is kept as its text ([real_text] is how SQLite writes a
    real number), a [bool] being bound as the integer 1 or 0; NaN is NULL; an
    integer beyond 64 bits, a list or a dict cannot be bound. *)
Definition string_column (real_text : Py.float -> string) (v : Py.value)
    : result Py.value :=
  match v with
  | None_ => Ok None_
  | Str s => Ok (Str s)
  | Bool b => Ok (Str (if b then "1" else "0"))
  | Int z => if int64 z then Ok (Str (Py.str_of_Z z)) else Raise OverflowError
  | Float f =>
      match real_column f with
      | Some _ => Ok (Str (real_text f))
      | None => Ok None_
      end
  | List _ | Dict _ => Raise StatementError
  end.

(** The INSERT of a reading: the bind processors run first, then the driver
    binds the parameters; the other columns receive values of their own
    type. *)
Definition insert_reading (real_text : Py.float -> string)
    (r : SensorReading.t) : result SensorReading.t :=
  numeric_value <-? float_column (SensorReading.numeric_value r) ;;
  unit <-? string_column real_text (SensorReading.unit r) ;;
  Ok (SensorReading.mk (SensorReading.id r) (SensorReading.device_id r)
        (SensorReading.patient_id r) (SensorReading.reading_type r)
        (SensorReading.reading_timestamp r) (SensorReading.reading_data r)
        numeric_value unit (SensorReading.quality r)
        (SensorReading.is_alert r) (SensorReading.alert_severity r)
        (SensorReading.alert_message r)).

Definition flush_op (real_text : Py.float -> string) (db : Database)
    (o : pending_op) : result Database :=
  match o with
  | AddReading r =>
      row <-? insert_reading real_text r ;;
      let pk := next_id (map SensorReading.id (sensor_readings db)) in
      Ok (mkDatabase (sensor_devices db)
                     (sensor_readings db ++ [SensorReading.with_id pk row])
                     (alert_logs db) (monitoring_profiles db) (patients db))
  | AddAlert a =>
      let pk := next_id (map AlertLog.id (alert_logs db)) in
      Ok (mkDatabase (sensor_devices db) (sensor_readings db)
                     (alert_logs db ++ [AlertLog.with_id pk a])
                     (monitoring_profiles db) (patients db))
  | AddDevice d =>
      let pk := next_id (map SensorDevice.id (sensor_devices db)) in
      Ok (mkDatabase (sensor_devices db ++ [SensorDevice.with_id pk d])
                     (sensor_readings db) (alert_logs db)
                     (monitoring_profiles db) (patients db))
  | SetLastSync pk ts =>
      Ok (mkDatabase (map (SensorDevice.touch pk ts) (sensor_devices db))
                     (sensor_readings db) (alert_logs db)
                     (monitoring_profiles db) (patients db))
  end.

(** The statements of one unit of work, in turn, up to the first that
    fails. *)
Fixpoint flush (real_text : Py.float -> string) (db : Database)
    (ops : list pending_op) : result Database :=
  match ops with
  | [] => Ok db
  | o :: ops' =>
      db' <-? flush_op real_text db o ;; flush real_text db' ops'
  end.

(** The calls that reach the database and may therefore fail. Each commit
    ends a transaction of its own: [Commit n] is the [n]-th commit of the
    request. *)
Inductive store_call : Type :=
| QueryDevice
| QueryProfile
| QueryPatient
| Commit (nth : nat)
| Refresh.

(** The surroundings of one request: the clock ([utcnow_at n] is what the
    [n]-th call of [datetime.utcnow()] returns), which store calls fail, and
    how the store writes a real number as text. *)
Record Env : Type := mkEnv {
  utcnow_at : nat -> datetime;
  store_fails : store_call -> bool;
  real_text : Py.float -> string
}.

(** The state one request threads: the committed tables, the session's
    unit of work, the number of clock reads and the number of commits so
    far. *)
Record State : Type := mkState {
  store : Database;
  pending : list pending_op;
  clock_reads : nat;
  commits : nat
}.

Definition begin (db : Database) : State := mkState db [] 0 0.

(** Handlers: state passing with exceptions; the state survives a raise. *)
Definition M (A : Type) : Type := State -> State * result A.

Definition ret {A : Type} (a : A) : M A := fun s => (s, Ok a).

Definition raise {A : Type} (e : exn) : M A := fun s => (s, Raise e).

Definition bind {A B : Type} (m : M A) (k : A -> M B) : M B :=
  fun s => match m s with
           | (s', Ok a) => k a s'
           | (s', Raise e) => (s', Raise e)
           end.

Definition lift {A : Type} (r : result A) : M A := fun s => (s, r).

Definition try_except {A : Type} (body : M A) (handler : exn -> M A) : M A :=
  fun s => match body s with
           | (s', Ok a) => (s', Ok a)
           | (s', Raise e) => handler e s'
           end.

Notation "x <- m ;; k" := (bind m (fun x => k))
  (at level 61, m at next level, right associativity).
Notation "m ;;; k" := (bind m (fun _ => k))
  (at level 61, right associativity).

Section Session.

Variable env : Env.

Definition utcnow : M datetime :=
  fun s => (mkState (store s) (pending s) (S (clock_reads s)) (commits s),
            Ok (utcnow_at env (clock_reads s))).

(** A query: the rows are read from the committed tables (the session is
    created with [autoflush=False]). *)
Definition query {A : Type} (c : store_call) (f : Database -> A) : M A :=
  fun s => if store_fails env c then (s, Raise SQLAlchemyError)
           else (s, Ok (f (store s))).

Definition add (o : pending_op) : M unit :=
  fun s => (mkState (store s) (pending s ++ [o]) (clock_reads s)
                    (commits s), Ok tt).

(** [db.commit()]: the unit of work is flushed and committed in one
    transaction, or the transaction fails (the store fails, or a statement
    cannot be executed with its parameters) and the tables stay as they
    were. *)
Definition commit : M unit :=
  fun s =>
    let s' := mkState (store s) (pending s) (clock_reads s) (S (commits s)) in
    if store_fails env (Commit (commits s)) then (s', Raise SQLAlchemyError)
    else match flush (real_text env) (store s) (pending s) with
         | Ok db => (mkState db [] (clock_reads s) (S (commits s)), Ok tt)
         | Raise e => (s', Raise e)
         end.

Definition rollback : M unit :=
  fun s => (mkState (store s) [] (clock_reads s) (commits s), Ok tt).

End Session.

(* ================================================================= *)
(** ** Request and response models *)

Module SensorReadingCreate.
Record t : Type := mk {
  device_id : string;
  reading_type : string;
  reading_data : list (string * Py.value);
  reading_timestamp : option datetime
}.
End SensorReadingCreate.

Module SensorReadingResponse.
Record t : Type := mk {
  id : Z;
  device_name : string;
  reading_type : string;
  reading_timestamp : datetime;
  numeric_value : Py.float;
  unit : string;
  quality : string;
  is_alert : bool;
  alert_message : option string
}.

(** Construction validates the fields against their annotations:
    [id: int], [numeric_value: float] and [unit: str] are required and not
    optional, so [None] is rejected; an [int] given for a [float] is
    converted. The remaining arguments always have their declared type. *)
Definition validate (id : option Z) (device_name reading_type : string)
    (reading_timestamp : datetime) (numeric_value : option Py.num)
    (unit : Py.value) (quality : string) (is_alert : bool)
    (alert_message : option string) : result t :=
  match id, numeric_value, unit with
  | Some pk, Some n, Py.Str u =>
      match Py.to_float n with
      | Ok f => Ok (mk pk device_name reading_type reading_timestamp f u
                       quality is_alert alert_message)
      | Raise _ => Raise ValidationError
      end
  | _, _, _ => Raise ValidationError
  end.
End SensorReadingResponse.

Module DeviceRegistration.
Record t : Type := mk {
  patient_id : Z;
  device_type : string;
  device_name : string;
  manufacturer : option string;
  model : option string;
  device_id : string;
  mac_address : option string
}.
End DeviceRegistration.

Module DeviceResponse.
Record t : Type := mk {
  id : Z;
  device_type : string;
  device_name : string;
  manufacturer : string;
  model : string;
  device_id : string;
  is_active : bool;
  last_sync : datetime
}.

Definition validate (id : option Z) (device_type device_name manufacturer
    model device_id : string) (is_active : bool) (last_sync : datetime)
    : result t :=
  match id with
  | Some pk => Ok (mk pk device_type device_name manufacturer model device_id
                      is_active last_sync)
  | None => Raise ValidationError
  end.
End DeviceResponse.

(** What the client receives. A route declared without [status_code] answers
    200 on return; an [HTTPException] becomes its status and detail; any
    other exception leaving a handler is the framework's 500. The body is the
    value the handler returns: its encoding as JSON text is the framework's
    and is not part of this model. *)
Inductive http_response (A : Type) : Type :=
| Response (status_code : Z) (body : A)
| ErrorResponse (status_code : Z) (detail : string).
Arguments Response {A} status_code body.
Arguments ErrorResponse {A} status_code detail.

Definition respond {A : Type} (r : result A) : http_response A :=
  match r with
  | Ok a => Response 200 a
  | Raise (HTTPException c d) => ErrorResponse c d
  | Raise _ => ErrorResponse 500 "Internal Server Error"
  end.

(* ================================================================= *)
(** ** Helper functions and endpoints (endpoints/iot.py) *)

(** The tuple [_analyze_reading] returns:
    [(quality, is_alert, severity, message)]. *)
Definition analysis : Type := string * bool * option string * option string.

Definition good : analysis := ("good", false, None, None).

Definition alerting (level message : string) : analysis :=
  (level, true, Some level, Some message).

(** The literal of lines 323-328. *)
Definition default_thresholds : Py.value :=
  Dict [("blood_pressure", Dict [("systolic_max", Int 140);
                                 ("diastolic_max", Int 90)]);
        ("glucose", Dict [("max", Int 140); ("min", Int 70)]);
        ("weight", Dict [("change_percent_max", Int 5)]);
        ("heart_rate", Dict [("max", Int 100); ("min", Int 60)])].

(** [thresholds.get(reading_type, {}).get(key, default)]. *)
Definition threshold (thresholds : Py.value) (reading_type key : string)
    (default : Z) : result Py.value :=
  per_type <-? Py.get_or thresholds reading_type (Dict []) ;;
  Py.get_or per_type key (Int default).

Section Endpoints.

(** Two services of the Python runtime that the handlers call: [repr] of a
    float (what an f-string prints for it) and [str] of an exception. *)
Variable float_repr : Py.float -> string.
Variable exn_str : exn -> string.

Variable env : Env.

(** [f"{value}"]. *)
Definition format_value (v : Py.num) : string :=
  match v with
  | NBool b => if b then "True" else "False"
  | NInt z => Py.str_of_Z z
  | NFloat f => float_repr f
  end.

(** Lines 332-369: the rules applied to the thresholds in effect. A branch
    is entered only when [reading_type] matches and [value] is truthy. *)
Definition analyze_against (thresholds : Py.value) (reading_type : string)
    (value : option Py.num) : result analysis :=
  match value with
  | Some v =>
      if String.eqb reading_type "blood_pressure" && Py.num_truthy v then
        limit <-? threshold thresholds "blood_pressure" "systolic_max" 140 ;;
        high <-? Py.gt v limit ;;
        if high
        then Ok (alerting "warning" ("High blood pressure detected: "
                                       ++ format_value v ++ " mmHg"))
        else Ok good
      else if String.eqb reading_type "glucose" && Py.num_truthy v then
        upper <-? threshold thresholds "glucose" "max" 140 ;;
        high <-? Py.gt v upper ;;
        if high
        then Ok (alerting "critical" ("High glucose level: "
                                        ++ format_value v ++ " mg/dL"))
        else
          lower <-? threshold thresholds "glucose" "min" 70 ;;
          low <-? Py.lt v lower ;;
          if low
          then Ok (alerting "critical" ("Low glucose level: "
                                          ++ format_value v ++ " mg/dL"))
          else Ok good
      else if String.eqb reading_type "heart_rate" && Py.num_truthy v then
        upper <-? threshold thresholds "heart_rate" "max" 100 ;;
        high <-? Py.gt v upper ;;
        if high
        then Ok (alerting "warning" ("High heart rate: "
                                       ++ format_value v ++ " bpm"))
        else
          lower <-? threshold thresholds "heart_rate" "min" 60 ;;
          low <-? Py.lt v lower ;;
          if low
          then Ok (alerting "warning" ("Low heart rate: "
                                         ++ format_value v ++ " bpm"))
          else Ok good
      else Ok good
  | None => Ok good
  end.

(** Lines 321-330: the thresholds in effect for a looked-up profile. *)
Definition thresholds_of (profile : option PatientMonitoringProfile.t)
    : Py.value :=
  match profile with
  | None => default_thresholds
  | Some p => PatientMonitoringProfile.thresholds p
  end.

Definition profile_of (patient_id : Z) (db : Database)
    : option PatientMonitoringProfile.t :=
  find (fun p => Z.eqb (PatientMonitoringProfile.patient_id p) patient_id)
       (monitoring_profiles db).

Definition _analyze_reading (reading_type : string) (value : option Py.num)
    (patient_id : Z) : M analysis :=
  profile <- query env QueryProfile (profile_of patient_id) ;;
  lift (analyze_against (thresholds_of profile) reading_type value).

Definition _get_alert_type (reading_type : string) (value : option Py.num)
    : string :=
  let above (k : Z) :=
    match value with
    | Some v => Py.num_truthy v && Py.num_gt v (NInt k)
    | None => false
    end in
  let below (k : Z) :=
    match value with
    | Some v => Py.num_truthy v && Py.num_lt v (NInt k)
    | None => false
    end in
  let general := "general_" ++ reading_type in
  if String.eqb reading_type "blood_pressure" then
    if above 140 then "high_bp" else general
  else if String.eqb reading_type "glucose" then
    if above 140 then "high_glucose"
    else if below 70 then "low_glucose"
    else general
  else if String.eqb reading_type "heart_rate" then
    if above 100 then "high_heart_rate"
    else if below 60 then "low_heart_rate"
    else general
  else general.

Definition device_by_device_id (device_id : string) (db : Database)
    : option SensorDevice.t :=
  find (fun d => String.eqb (SensorDevice.device_id d) device_id)
       (sensor_devices db).

(** Lines 102-111: the number kept in [numeric_value]. *)
Definition extract_numeric_value (reading : SensorReadingCreate.t)
    : result (option Py.num) :=
  let data := SensorReadingCreate.reading_data reading in
  match Py.as_num (Py.get data "value") with
  | Some n => Ok (Some n)
  | None =>
      if String.eqb (SensorReadingCreate.reading_type reading) "blood_pressure"
      then match Py.as_num (Py.get data "systolic") with
           | Some n => f <-? Py.to_float n ;; Ok (Some (NFloat f))
           | None => Ok None
           end
      else Ok None
  end.

(** Line 129. *)
Definition extract_unit (reading : SensorReadingCreate.t) : Py.value :=
  let u := Py.get (SensorReadingCreate.reading_data reading) "unit" in
  if Py.truthy u then u
  else if String.eqb (SensorReadingCreate.reading_type reading)
                     "blood_pressure"
       then Str "mmHg"
       else None_.

(** [db.refresh(obj)] for the one object of its table the session inserted:
    the row is read back from the committed table, where [flush] put it
    last, with the values its columns keep. *)
Definition refresh_reading (obj : SensorReading.t) : M SensorReading.t :=
  query env Refresh (fun db => last (sensor_readings db) obj).

Definition refresh_device (obj : SensorDevice.t) : M SensorDevice.t :=
  query env Refresh (fun db => last (sensor_devices db) obj).

Definition create_sensor_reading (reading : SensorReadingCreate.t)
    : M SensorReadingResponse.t :=
  let reading_type := SensorReadingCreate.reading_type reading in
  try_except
    (device <- query env QueryDevice
                 (device_by_device_id (SensorReadingCreate.device_id reading)) ;;
     match device with
     | None => raise (HTTPException 404 "Device not found")
     | Some device =>
         if negb (SensorDevice.is_active device)
         then raise (HTTPException 400 "Device is inactive")
         else
           numeric_value <- lift (extract_numeric_value reading) ;;
           a <- _analyze_reading reading_type numeric_value
                  (SensorDevice.patient_id device) ;;
           let '(quality, is_alert, alert_severity, alert_message) := a in
           reading_timestamp <-
             match SensorReadingCreate.reading_timestamp reading with
             | Some ts => ret ts
             | None => utcnow env
             end ;;
           let db_reading :=
             SensorReading.mk None (SensorDevice.id device)
               (SensorDevice.patient_id device) reading_type reading_timestamp
               (SensorReadingCreate.reading_data reading) numeric_value
               (extract_unit reading) quality is_alert alert_severity
               alert_message in
           add (AddReading db_reading) ;;;
           (if is_alert
            then
              alert_timestamp <- utcnow env ;;
              add (AddAlert
                     (AlertLog.new (SensorDevice.patient_id device) None
                        (_get_alert_type reading_type numeric_value)
                        alert_severity alert_message alert_timestamp))
            else ret tt) ;;;
           now <- utcnow env ;;
           add (SetLastSync (SensorDevice.id device) now) ;;;
           commit env ;;;
           db_reading <- refresh_reading db_reading ;;
           lift (SensorReadingResponse.validate
                   (SensorReading.id db_reading)
                   (SensorDevice.device_name device)
                   (SensorReading.reading_type db_reading)
                   (SensorReading.reading_timestamp db_reading)
                   (SensorReading.numeric_value db_reading)
                   (SensorReading.unit db_reading)
                   (SensorReading.quality db_reading)
                   (SensorReading.is_alert db_reading)
                   (SensorReading.alert_message db_reading))
     end)
    (fun e =>
       match e with
       | HTTPException _ _ => raise e
       | _ =>
           rollback ;;;
           raise (HTTPException 500 ("Error creating reading: " ++ exn_str e))
       end).

Definition str_or_empty (s : option string) : string :=
  match s with
  | Some x => x
  | None => ""
  end.

Definition register_device (device : DeviceRegistration.t)
    : M DeviceResponse.t :=
  existing <- query env QueryDevice
                (device_by_device_id (DeviceRegistration.device_id device)) ;;
  match existing with
  | Some _ => raise (HTTPException 400 "Device already registered")
  | None =>
      patient <- query env QueryPatient
                   (fun db => find (Z.eqb (DeviceRegistration.patient_id device))
                                   (patients db)) ;;
      match patient with
      | None => raise (HTTPException 404 "Patient not found")
      | Some _ =>
          now <- utcnow env ;;
          let db_device :=
            SensorDevice.mk None
              (DeviceRegistration.patient_id device)
              (DeviceRegistration.device_type device)
              (DeviceRegistration.device_name device)
              (DeviceRegistration.manufacturer device)
              (DeviceRegistration.model device)
              (DeviceRegistration.device_id device)
              (DeviceRegistration.mac_address device)
              true now in
          add (AddDevice db_device) ;;;
          commit env ;;;
          db_device <- refresh_device db_device ;;
          lift (DeviceResponse.validate
                  (SensorDevice.id db_device)
                  (SensorDevice.device_type db_device)
                  (SensorDevice.device_name db_device)
                  (str_or_empty (SensorDevice.manufacturer db_device))
                  (str_or_empty (SensorDevice.model db_device))
                  (SensorDevice.device_id db_device)
                  (SensorDevice.is_active db_device)
                  (SensorDevice.last_sync db_device))
      end
  end.

(** One request against the committed tables [db]: the handler runs in a
    fresh session, which is closed afterwards (uncommitted work is dropped),
    and its outcome is turned into the HTTP answer. *)
Definition serve {A : Type} (handler : M A) (db : Database)
    : Database * http_response A :=
  let '(s, r) := handler (begin db) in (store s, respond r).

Definition post_readings (reading : SensorReadingCreate.t) (db : Database)
    : Database * http_response SensorReadingResponse.t :=
  serve (create_sensor_reading reading) db.

Definition post_devices (device : DeviceRegistration.t) (db : Database)
    : Database * http_response DeviceResponse.t :=
  serve (register_device device) db.

End Endpoints.

(* ================================================================= *)
(** ** The specification's side *)

Module Spec.

(** The bounds the classification table of section 4.3 reads, as resolved
    for one patient. *)
Record ThresholdSet : Type := mkThresholdSet {
  systolic_max : Py.num;
  glucose_max : Py.num;
  glucose_min : Py.num;
  heart_rate_max : Py.num;
  heart_rate_min : Py.num
}.

(** Section 4.3, default thresholds. *)
Definition defaults : ThresholdSet :=
  mkThresholdSet (NInt 140) (NInt 140) (NInt 70) (NInt 100) (NInt 60).

(** The rows of the table: the branch of the alerting policy that fires. *)
Inductive branch : Type :=
| HighBloodPressure
| HighGlucose
| LowGlucose
| HighHeartRate
| LowHeartRate.

Definition level (b : branch) : string :=
  match b with
  | HighBloodPressure => "warning"
  | HighGlucose | LowGlucose => "critical"
  | HighHeartRate | LowHeartRate => "warning"
  end.

Definition template (b : branch) (shown : string) : string :=
  match b with
  | HighBloodPressure => "High blood pressure detected: " ++ shown ++ " mmHg"
  | HighGlucose => "High glucose level: " ++ shown ++ " mg/dL"
  | LowGlucose => "Low glucose level: " ++ shown ++ " mg/dL"
  | HighHeartRate => "High heart rate: " ++ shown ++ " bpm"
  | LowHeartRate => "Low heart rate: " ++ shown ++ " bpm"
  end.

(** The directional tag of section 4.3 for each row. *)
Definition tag (b : branch) : string :=
  match b with
  | HighBloodPressure => "high_bp"
  | HighGlucose => "high_glucose"
  | LowGlucose => "low_glucose"
  | HighHeartRate => "high_heart_rate"
  | LowHeartRate => "low_heart_rate"
  end.

(** The table, read top to bottom; rules are evaluated only when a numeric
    value is present, and the first matching row wins. *)
Definition fired (readingType : string) (numericValue : option Py.num)
    (t : ThresholdSet) : option branch :=
  match numericValue with
  | None => None
  | Some v =>
      if String.eqb readingType "blood_pressure" then
        if Py.num_gt v (systolic_max t) then Some HighBloodPressure else None
      else if String.eqb readingType "glucose" then
        if Py.num_gt v (glucose_max t) then Some HighGlucose
        else if Py.num_lt v (glucose_min t) then Some LowGlucose
        else None
      else if String.eqb readingType "heart_rate" then
        if Py.num_gt v (heart_rate_max t) then Some HighHeartRate
        else if Py.num_lt v (heart_rate_min t) then Some LowHeartRate
        else None
      else None
  end.

(** [Classify(readingType, numericValue, thresholds)]; [show] renders the
    value inside the message. *)
Definition Classify (show : Py.num -> string) (readingType : string)
    (numericValue : option Py.num) (t : ThresholdSet) : analysis :=
  match fired readingType numericValue t, numericValue with
  | Some b, Some v => alerting (level b) (template b (show v))
  | _, _ => good
  end.

End Spec.

(** The thresholds document [thresholds] resolves to the bounds [t]: each
    lookup the classifier performs yields the corresponding bound. *)
Definition resolves_to (thresholds : Py.value) (t : Spec.ThresholdSet) : Prop :=
  threshold thresholds "blood_pressure" "systolic_max" 140
    = Ok (Py.of_num (Spec.systolic_max t)) /\
  threshold thresholds "glucose" "max" 140
    = Ok (Py.of_num (Spec.glucose_max t)) /\
  threshold thresholds "glucose" "min" 70
    = Ok (Py.of_num (Spec.glucose_min t)) /\
  threshold thresholds "heart_rate" "max" 100
    = Ok (Py.of_num (Spec.heart_rate_max t)) /\
  threshold thresholds "heart_rate" "min" 60
    = Ok (Py.of_num (Spec.heart_rate_min t)).

(** The lookups of lines 339-363: reading type, key and inline default. *)
Definition classifier_bounds : list (string * string * Z) :=
  [("blood_pressure", "systolic_max", 140);
   ("glucose", "max", 140); ("glucose", "min", 70);
   ("heart_rate", "max", 100); ("heart_rate", "min", 60)].

(** The projection of a stored reading that classification decides. *)
Definition alert_fields (r : SensorReading.t) : analysis :=
  (SensorReading.quality r, SensorReading.is_alert r,
   SensorReading.alert_severity r, SensorReading.alert_message r).

(* ================================================================= *)
(** ** Concrete surroundings for worked examples *)

Module Sample.

(** [repr] on the floats it is easy to print: a whole number below 10^16 is
    its digits followed by [.0]; zeros, infinities and NaN have fixed
    spellings. The empty string stands for every other float, whose shortest
    round-tripping decimal is not computed here. *)
Definition float_repr (f : Py.float) : string :=
  match f with
  | S754_zero s => if s then "-0.0" else "0.0"
  | S754_infinity s => if s then "-inf" else "inf"
  | S754_nan => "nan"
  | S754_finite s m e =>
      let n := if Z.leb 0 e then Z.pos m * 2 ^ e else Z.pos m / 2 ^ (- e) in
      let whole := if Z.leb 0 e then true
                   else Z.eqb (Z.pos m mod 2 ^ (- e)) 0 in
      if whole && Z.ltb n (10 ^ 16)
      then (if s then "-" else "") ++ Py.str_of_Z n ++ ".0"
      else ""
  end.

(** [str(e)] reduced to the class of the exception. *)
Definition exn_str (e : exn) : string :=
  match e with
  | HTTPException _ _ => "HTTPException"
  | AttributeError => "AttributeError"
  | TypeError => "TypeError"
  | OverflowError => "OverflowError"
  | ValidationError => "ValidationError"
  | SQLAlchemyError => "SQLAlchemyError"
  | StatementError => "StatementError"
  end.

(** The text SQLite writes for the real numbers that are easy to print: a
    whole number below 10^15 is its digits followed by [.0], and the
    infinities are [Inf] and [-Inf]. The empty string stands for every other
    real number. *)
Definition real_text (f : Py.float) : string :=
  match f with
  | S754_zero s => if s then "-0.0" else "0.0"
  | S754_infinity s => if s then "-Inf" else "Inf"
  | S754_nan => ""
  | S754_finite s m e =>
      let n := if Z.leb 0 e then Z.pos m * 2 ^ e else Z.pos m / 2 ^ (- e) in
      let whole := if Z.leb 0 e then true
                   else Z.eqb (Z.pos m mod 2 ^ (- e)) 0 in
      if whole && Z.ltb n (10 ^ 15)
      then (if s then "-" else "") ++ Py.str_of_Z n ++ ".0"
      else ""
  end.

(** A clock that advances by one at each read, and a store that works. *)
Definition env : Env :=
  mkEnv (fun n => 1000 + Z.of_nat n) (fun _ => false) real_text.

Definition glucometer : SensorDevice.t :=
  SensorDevice.mk (Some 1) 7 "glucose" "Glucometer" None None "D1" None true 5.

Definition cuff : SensorDevice.t :=
  SensorDevice.mk (Some 2) 7 "blood_pressure" "Cuff" None None "D2" None true 5.

Definition pulse : SensorDevice.t :=
  SensorDevice.mk (Some 3) 7 "heart_rate" "Pulse" None None "D3" None true 5.

Definition retired : SensorDevice.t :=
  SensorDevice.mk (Some 4) 7 "weight" "Scale" None None "D4" None false 5.

(** Patient 7 has no monitoring profile. *)
Definition db : Database :=
  mkDatabase [glucometer; cuff; pulse; retired] [] [] [] [7].

(** Patient 7 with a profile that moves the glucose band to 150..200. *)
Definition tight_profile : PatientMonitoringProfile.t :=
  PatientMonitoringProfile.mk (Some 1) 7 true "daily"
    (Dict [("glucose", Dict [("max", Int 200); ("min", Int 150)])])
    true false true.

Definition db_profiled : Database :=
  mkDatabase [glucometer; cuff; pulse; retired] [] [] [tight_profile] [7].

(** Scenario A, with a unit: glucose 180 through device D1. *)
Definition high_glucose : SensorReadingCreate.t :=
  SensorReadingCreate.mk "D1" "glucose"
    [("value", Int 180); ("unit", Str "mg/dL")] None.

(** A heart rate of zero through device D3. *)
Definition zero_pulse : SensorReadingCreate.t :=
  SensorReadingCreate.mk "D3" "heart_rate"
    [("value", Int 0); ("unit", Str "bpm")] None.

(** A payload without a numeric value through device D1. *)
Definition no_value : SensorReadingCreate.t :=
  SensorReadingCreate.mk "D1" "glucose" [("unit", Str "mg/dL")] None.

(** A reading through the deactivated device D4, and one through a device
    nobody registered. *)
Definition from_retired : SensorReadingCreate.t :=
  SensorReadingCreate.mk "D4" "weight"
    [("value", Int 70); ("unit", Str "kg")] None.

Definition from_unknown : SensorReadingCreate.t :=
  SensorReadingCreate.mk "D9" "glucose"
    [("value", Int 180); ("unit", Str "mg/dL")] None.

(** Glucose 145 for a patient whose profile puts the band at 150..200. *)
Definition below_own_band : SensorReadingCreate.t :=
  SensorReadingCreate.mk "D1" "glucose"
    [("value", Int 145); ("unit", Str "mg/dL")] None.

(** Registrations: a device id already taken, for a patient that does not
    exist; a new device id for that missing patient; a new device id for
    patient 7. *)
Definition duplicate : DeviceRegistration.t :=
  DeviceRegistration.mk 99 "glucose" "Spare" None None "D1" None.

Definition orphan : DeviceRegistration.t :=
  DeviceRegistration.mk 99 "glucose" "Spare" None None "D5" None.

Definition newcomer : DeviceRegistration.t :=
  DeviceRegistration.mk 7 "glucose" "Spare" (Some "Acme") None "D5" None.

(** One unacknowledged alert in the log. *)
Definition fresh_alert : AlertLog.t :=
  AlertLog.mk (Some 1) 7 None "high_glucose" (Some "critical")
    (Some "High glucose level: 180 mg/dL") 1001 false false None None.

Definition db_alerted : Database :=
  mkDatabase [glucometer; cuff; pulse; retired] [] [fresh_alert] [] [7].

(** Scenario A as section 8 gives it (no unit), and scenario B. *)
Definition scenario_A : SensorReadingCreate.t :=
  SensorReadingCreate.mk "D1" "glucose" [("value", Int 180)] None.

Definition scenario_B : SensorReadingCreate.t :=
  SensorReadingCreate.mk "D2" "blood_pressure" [("systolic", Int 150)] None.

Definition post_readings := post_readings float_repr exn_str env.

End Sample.

(* ================================================================= *)
(** ** Alert acknowledgment *)

Inductive ack_outcome : Type :=
| Acknowledged (a : AlertLog.t)
| NotFound.

Definition alert_has_id (alertId : Z) (a : AlertLog.t) : bool :=
  match AlertLog.id a with
  | Some k => Z.eqb k alertId
  | None => false
  end.

(** Modelled from the spec: no acknowledge operation is among the sources,
    which hold only the [AlertLog] columns it writes. Section 4.5: the
    transition sets acknowledged and read and records the actor and the
    acknowledgment time; every other column keeps its value. *)
Definition acknowledge (actor : string) (now : datetime) (a : AlertLog.t)
    : AlertLog.t :=
  AlertLog.mk (AlertLog.id a) (AlertLog.patient_id a)
    (AlertLog.sensor_reading_id a) (AlertLog.alert_type a)
    (AlertLog.severity a) (AlertLog.alert_message a)
    (AlertLog.alert_timestamp a) true true (Some actor) (Some now).

(** Modelled from the spec: the operation itself is missing from the sources.
    Section 4.5: [AcknowledgeAlert(alertId, actor)] returns the acknowledged
    alert, or fails with [NotFound] if no alert has that id; [now] is the
    acknowledgment time. *)
Definition AcknowledgeAlert (alertId : Z) (actor : string) (now : datetime)
    (db : Database) : Database * ack_outcome :=
  match find (alert_has_id alertId) (alert_logs db) with
  | None => (db, NotFound)
  | Some a =>
      (mkDatabase (sensor_devices db) (sensor_readings db)
         (map (fun x => if alert_has_id alertId x
                        then acknowledge actor now x else x)
              (alert_logs db))
         (monitoring_profiles db) (patients db),
       Acknowledged (acknowledge actor now a))
  end.

(** A thresholds document of the shape the profile column is meant to hold:
    a map from reading types to maps of bounds. *)
Definition nested_map (v : Py.value) : Prop :=
  exists m, v = Dict m /\
            forall k x, Py.assoc k m = Some x -> exists m', x = Dict m'.

(** A thresholds document on which the lookups for [reading_type] can be
    carried out: it is a map, and its entry for the reading type, if it has
    one, is a map. *)
Definition resolvable (thresholds : Py.value) (reading_type : string)
    : Prop :=
  exists m, thresholds = Dict m /\
            match Py.assoc reading_type m with
            | Some x => exists m', x = Dict m'
            | None => True
            end.

(** The patient has no threshold entry for [reading_type]: there is no
    profile at all, or the profile's threshold map lacks the key. *)
Definition no_entry (profile : option PatientMonitoringProfile.t)
    (reading_type : string) : Prop :=
  match profile with
  | None => True
  | Some p =>
      exists m, PatientMonitoringProfile.thresholds p = Dict m /\
                Py.assoc reading_type m = None
  end.

(** What the two payload columns keep of a reading whose extracted number is
    [nv], or the failure of its INSERT. *)
Definition kept (env : Env) (reading : SensorReadingCreate.t)
    (nv : option Py.num) : result (option Py.num * Py.value) :=
  x <-? float_column nv ;;
  u <-? string_column (real_text env) (extract_unit reading) ;;
  Ok (x, u).

(** Resolution as section 4.2 words it, for one profile snapshot and one
    reading type: it never fails, whatever the profile holds. *)
Definition resolution_never_fails
    (profile : option PatientMonitoringProfile.t) (reading_type : string)
    : Prop :=
  forall key d,
    In (reading_type, key, d) classifier_bounds ->
    exists v, threshold (thresholds_of profile) reading_type key d = Ok v.

(* ================================================================= *)
(** ** Describing what an ingestion leaves behind *)

(** The tables after one ingestion through [device]: the reading [r]
    appended, the alert [a] appended exactly when [r] is alerting, and the
    device's [last_sync] set to [now]; nothing else changes. *)
Definition after_ingest (db : Database) (device : SensorDevice.t)
    (r : SensorReading.t) (a : AlertLog.t) (now : datetime) : Database :=
  mkDatabase
    (map (SensorDevice.touch (SensorDevice.id device) now) (sensor_devices db))
    (sensor_readings db ++ [r])
    (alert_logs db ++ (if SensorReading.is_alert r then [a] else []))
    (monitoring_profiles db) (patients db).

(** The reading row written for [reading] arriving through [device], with
    the number [x] and the unit [u] as their columns keep them,
    classification [a] and effective timestamp [ts]. *)
Definition stored_reading (db : Database) (device : SensorDevice.t)
    (reading : SensorReadingCreate.t) (x : option Py.num) (u : Py.value)
    (a : analysis) (ts : datetime) : SensorReading.t :=
  let '(quality, is_alert, severity, message) := a in
  SensorReading.mk
    (Some (next_id (map SensorReading.id (sensor_readings db))))
    (SensorDevice.id device) (SensorDevice.patient_id device)
    (SensorReadingCreate.reading_type reading) ts
    (SensorReadingCreate.reading_data reading) x u
    quality is_alert severity message.

(** The alert row written next to it, stamped [ts]. *)
Definition stored_alert (db : Database) (device : SensorDevice.t)
    (reading : SensorReadingCreate.t) (nv : option Py.num) (a : analysis)
    (ts : datetime) : AlertLog.t :=
  let '(_, _, severity, message) := a in
  AlertLog.mk
    (Some (next_id (map AlertLog.id (alert_logs db))))
    (SensorDevice.patient_id device) None
    (_get_alert_type (SensorReadingCreate.reading_type reading) nv)
    severity message ts false false None None.

(** The summary returned for a stored reading. *)
Definition summary (device : SensorDevice.t) (r : SensorReading.t)
    : result SensorReadingResponse.t :=
  SensorReadingResponse.validate (SensorReading.id r)
    (SensorDevice.device_name device) (SensorReading.reading_type r)
    (SensorReading.reading_timestamp r) (SensorReading.numeric_value r)
    (SensorReading.unit r) (SensorReading.quality r)
    (SensorReading.is_alert r) (SensorReading.alert_message r).

(** The answer to an exception raised inside the handler's [try]: an
    [HTTPException] passes through, anything else is reported as a 500. *)
Definition failure (exn_str : exn -> string) (e : exn)
    : http_response SensorReadingResponse.t :=
  match e with
  | HTTPException c d => ErrorResponse c d
  | _ => ErrorResponse 500 ("Error creating reading: " ++ exn_str e)
  end.

(** No call to the store fails. *)
Definition store_up (env : Env) : Prop :=
  forall c, store_fails env c = false.

(** The ingestion contract as section 6 words it, for one request against an
    active device: the answer is 201 with the summary whenever the store
    works, and a 500 is answered only when a store call failed. *)
Definition answers_201_unless_store_fails
    (float_repr : Py.float -> string) (exn_str : exn -> string) (env : Env)
    (reading : SensorReadingCreate.t) (db : Database) : Prop :=
  forall device,
    device_by_device_id (SensorReadingCreate.device_id reading) db
      = Some device ->
    SensorDevice.is_active device = true ->
    let out := post_readings float_repr exn_str env reading db in
    (store_up env -> exists body, snd out = Response 201 body) /\
    (forall detail, snd out = ErrorResponse 500 detail ->
                    exists c, store_fails env c = true).

(** The consistency section 4.3 asks of the alert tag, for one classified
    value: when classification alerts, the tag is the directional tag of the
    row that fired. *)
Definition tag_follows_classification (float_repr : Py.float -> string)
    (thresholds : Py.value) (reading_type : string) (value : option Py.num)
    : Prop :=
  forall quality severity message,
    analyze_against float_repr thresholds reading_type value
      = Ok (quality, true, severity, message) ->
    exists b v,
      value = Some v /\
      message = Some (Spec.template b (format_value float_repr v)) /\
      _get_alert_type reading_type value = Spec.tag b.

(** Two alert rows agree on every column but the acknowledger and the
    acknowledgment time. *)
Definition same_but_acknowledger (a b : AlertLog.t) : Prop :=
  AlertLog.id a = AlertLog.id b /\
  AlertLog.patient_id a = AlertLog.patient_id b /\
  AlertLog.sensor_reading_id a = AlertLog.sensor_reading_id b /\
  AlertLog.alert_type a = AlertLog.alert_type b /\
  AlertLog.severity a = AlertLog.severity b /\
  AlertLog.alert_message a = AlertLog.alert_message b /\
  AlertLog.alert_timestamp a = AlertLog.alert_timestamp b /\
  AlertLog.is_read a = AlertLog.is_read b /\
  AlertLog.is_acknowledged a = AlertLog.is_acknowledged b.

(** The tables after a registration: one device row appended. *)
Definition after_registration (db : Database) (row : SensorDevice.t)
    : Database :=
  mkDatabase (sensor_devices db ++ [row]) (sensor_readings db)
             (alert_logs db) (monitoring_profiles db) (patients db).

(* ================================================================= *)
(** ** The listing endpoints (endpoints/iot.py, lines 174-233 and 284-308) *)

Module AlertResponse.
Record t : Type := mk {
  id : Z;
  patient_id : Z;
  alert_type : string;
  severity : string;
  alert_message : string;
  alert_timestamp : datetime;
  is_read : bool
}.

(** The alert rows returned by the handler are turned into the response
    model from their attributes; [severity: str] and [alert_message: str]
    reject [None]. *)
Definition validate (a : AlertLog.t) : result t :=
  match AlertLog.id a, AlertLog.severity a, AlertLog.alert_message a with
  | Some pk, Some sev, Some msg =>
      Ok (mk pk (AlertLog.patient_id a) (AlertLog.alert_type a) sev msg
             (AlertLog.alert_timestamp a) (AlertLog.is_read a))
  | _, _, _ => Raise ValidationError
  end.
End AlertResponse.

(** *** Interval arithmetic

    For [utcnow() - timedelta(hours=hours)] an instant is read as a count of
    microseconds since 1970-01-01. A [timedelta] holds at most 999999999
    days either way, and a [datetime] lies between year 1 and year 9999;
    both constructors raise [OverflowError] outside their range. *)
Definition timedelta_hours (hours : Z) : result Z :=
  let days := hours / 24 in
  if Z.leb (-999999999) days && Z.leb days 999999999
  then Ok (hours * 3600000000)
  else Raise OverflowError.

Definition datetime_min : datetime := -62135596800000000.
Definition datetime_max : datetime := 253402300799999999.

Definition datetime_minus (t : datetime) (delta : Z) : result datetime :=
  let r := t - delta in
  if Z.leb datetime_min r && Z.leb r datetime_max
  then Ok r
  else Raise OverflowError.

(** *** [ORDER BY ... DESC]

    Newest first. The queries name no second sort key, so the order of rows
    with equal timestamps is the store's choice: an ordering is whatever the
    store does, and [orders_desc] is all that is known of it. *)
Definition ordering : Type :=
  forall A : Type, (A -> datetime) -> list A -> list A.

Definition orders_desc (order_by_desc : ordering) : Prop :=
  forall (A : Type) (key : A -> datetime) (l : list A),
    Permutation (order_by_desc A key l) l /\
    StronglySorted (fun x y => key y <= key x) (order_by_desc A key l).

(** One such ordering, for the worked examples: rows with equal timestamps
    keep their table order. *)
Fixpoint insert_desc {A : Type} (key : A -> Z) (x : A) (l : list A) : list A :=
  match l with
  | [] => [x]
  | y :: l' =>
      if Z.ltb (key x) (key y) then y :: insert_desc key x l'
      else x :: y :: l'
  end.

Fixpoint table_order_desc (A : Type) (key : A -> Z) (l : list A) : list A :=
  match l with
  | [] => []
  | x :: l' => insert_desc key x (table_order_desc A key l')
  end.

(** A list built element by element, stopping at the first exception. *)
Fixpoint collect {A B : Type} (f : A -> result B) (l : list A)
    : result (list B) :=
  match l with
  | [] => Ok []
  | x :: l' => y <-? f x ;; ys <-? collect f l' ;; Ok (y :: ys)
  end.

(** The SELECTs of the listing handlers, each of which may fail;
    [SelectDeviceOf n] is the device lookup for the [n]-th reading of the
    loop. *)
Inductive select_call : Type :=
| SelectReadings
| SelectDeviceOf (position : nat)
| SelectAlerts
| SelectDevices.

Definition select {A : Type} (failed : bool) (f : Database -> A) : M A :=
  fun s => if failed then (s, Raise SQLAlchemyError)
           else (s, Ok (f (store s))).

(** [bool(s)] for an optional string parameter. *)
Definition given (s : option string) : bool :=
  match s with
  | Some x => negb (String.eqb x "")
  | None => false
  end.

(** The WHERE clause of [get_patient_readings]. *)
Definition reading_selected (patient_id : Z) (since_time : datetime)
    (reading_type : option string) (r : SensorReading.t) : bool :=
  Z.eqb (SensorReading.patient_id r) patient_id
  && Z.leb since_time (SensorReading.reading_timestamp r)
  && (if given reading_type
      then match reading_type with
           | Some ty => String.eqb (SensorReading.reading_type r) ty
           | None => true
           end
      else true).

Definition select_readings (order_by_desc : ordering) (patient_id : Z)
    (since_time : datetime) (reading_type : option string) (db : Database)
    : list SensorReading.t :=
  firstn 1000
    (order_by_desc _ SensorReading.reading_timestamp
       (filter (reading_selected patient_id since_time reading_type)
               (sensor_readings db))).

(** [SensorDevice.id == reading.device_id]: a NULL key matches no row. *)
Definition device_by_pk (pk : option Z) (db : Database)
    : option SensorDevice.t :=
  match pk with
  | Some k =>
      find (fun d => match SensorDevice.id d with
                     | Some k' => Z.eqb k' k
                     | None => false
                     end) (sensor_devices db)
  | None => None
  end.

(** The WHERE clause of [get_patient_alerts]. *)
Definition alert_selected (patient_id : Z) (unread_only : bool)
    (a : AlertLog.t) : bool :=
  Z.eqb (AlertLog.patient_id a) patient_id
  && (if unread_only then negb (AlertLog.is_read a) else true).

Definition select_alerts (order_by_desc : ordering) (patient_id : Z)
    (unread_only : bool) (db : Database) : list AlertLog.t :=
  firstn 100
    (order_by_desc _ AlertLog.alert_timestamp
       (filter (alert_selected patient_id unread_only) (alert_logs db))).

(** [get_patient_devices] has no ORDER BY; the rows come in table order. *)
Definition select_devices (patient_id : Z) (db : Database)
    : list SensorDevice.t :=
  filter (fun d => Z.eqb (SensorDevice.patient_id d) patient_id)
         (sensor_devices db).

(** One element of the list comprehension of [get_patient_devices]. *)
Definition device_response (d : SensorDevice.t) : result DeviceResponse.t :=
  DeviceResponse.validate (SensorDevice.id d) (SensorDevice.device_type d)
    (SensorDevice.device_name d) (str_or_empty (SensorDevice.manufacturer d))
    (str_or_empty (SensorDevice.model d)) (SensorDevice.device_id d)
    (SensorDevice.is_active d) (SensorDevice.last_sync d).

(** One element of the loop of [get_patient_readings], given the device the
    lookup returned. *)
Definition reading_response (device : option SensorDevice.t)
    (r : SensorReading.t) : result SensorReadingResponse.t :=
  SensorReadingResponse.validate (SensorReading.id r)
    (match device with
     | Some d => SensorDevice.device_name d
     | None => "Unknown"
     end)
    (SensorReading.reading_type r) (SensorReading.reading_timestamp r)
    (SensorReading.numeric_value r) (SensorReading.unit r)
    (SensorReading.quality r) (SensorReading.is_alert r)
    (SensorReading.alert_message r).

Section Listing.

Variable env : Env.
Variable select_fails : select_call -> bool.
Variable order_by_desc : ordering.

(** The loop of lines 198-211, from the [position]-th reading on. *)
Fixpoint summarize (position : nat) (readings : list SensorReading.t)
    : M (list SensorReadingResponse.t) :=
  match readings with
  | [] => ret []
  | reading :: rest =>
      device <- select (select_fails (SelectDeviceOf position))
                  (device_by_pk (SensorReading.device_id reading)) ;;
      item <- lift (reading_response device reading) ;;
      items <- summarize (S position) rest ;;
      ret (item :: items)
  end.

Definition get_patient_readings (patient_id : Z) (hours : Z)
    (reading_type : option string) : M (list SensorReadingResponse.t) :=
  now <- utcnow env ;;
  since_time <- lift (delta <-? timedelta_hours hours ;;
                      datetime_minus now delta) ;;
  readings <- select (select_fails SelectReadings)
                (select_readings order_by_desc patient_id since_time
                   reading_type) ;;
  summarize 0 readings.

(** The handler returns the rows; the route's [response_model] turns them
    into [AlertResponse] objects. *)
Definition get_patient_alerts (patient_id : Z) (unread_only : bool)
    : M (list AlertResponse.t) :=
  alerts <- select (select_fails SelectAlerts)
              (select_alerts order_by_desc patient_id unread_only) ;;
  lift (collect AlertResponse.validate alerts).

Definition get_patient_devices (patient_id : Z) : M (list DeviceResponse.t) :=
  devices <- select (select_fails SelectDevices)
               (select_devices patient_id) ;;
  lift (collect device_response devices).

(** The three GET routes, with the defaults of their query parameters. *)
Definition get_readings (patient_id : Z) (hours : option Z)
    (reading_type : option string) (db : Database)
    : Database * http_response (list SensorReadingResponse.t) :=
  serve (get_patient_readings patient_id
           (match hours with Some h => h | None => 24 end) reading_type) db.

Definition get_alerts (patient_id : Z) (unread_only : option bool)
    (db : Database) : Database * http_response (list AlertResponse.t) :=
  serve (get_patient_alerts patient_id
           (match unread_only with Some b => b | None => false end)) db.

Definition get_devices (patient_id : Z) (db : Database)
    : Database * http_response (list DeviceResponse.t) :=
  serve (get_patient_devices patient_id) db.

End Listing.

(** Every SELECT of the listing handlers succeeds. *)
Definition selects_up (select_fails : select_call -> bool) : Prop :=
  forall c, select_fails c = false.

(* ================================================================= *)
(** ** The clock reads of an accepted ingestion *)

(** The timestamp kept for the reading: the caller's if it sent one, else
    the first clock read. *)
Definition effective_timestamp (env : Env) (reading : SensorReadingCreate.t)
    : datetime :=
  match SensorReadingCreate.reading_timestamp reading with
  | Some ts => ts
  | None => utcnow_at env 0
  end.

Definition reads_for_timestamp (reading : SensorReadingCreate.t) : nat :=
  match SensorReadingCreate.reading_timestamp reading with
  | Some _ => 0
  | None => 1
  end.

(** The clock read that stamps the alert, and the one that becomes the
    device's [last_sync]. *)
Definition alert_instant (env : Env) (reading : SensorReadingCreate.t)
    : datetime :=
  utcnow_at env (reads_for_timestamp reading).

Definition sync_instant (env : Env) (reading : SensorReadingCreate.t)
    (is_alert : bool) : datetime :=
  utcnow_at env (reads_for_timestamp reading + (if is_alert then 1 else 0)).

Definition is_alert_of (a : analysis) : bool := snd (fst (fst a)).

(** Later clock reads are not earlier. *)
Definition clock_monotone (env : Env) : Prop :=
  forall m n, (m <= n)%nat -> utcnow_at env m <= utcnow_at env n.

(** All columns of a device row but [last_sync]. *)
Definition device_identity (d : SensorDevice.t) : SensorDevice.t :=
  SensorDevice.with_last_sync 0 d.

(** The reading reaches a branch of the classifier: its type is one of the
    three evaluated ones and its value is truthy. *)
Definition evaluated (reading_type : string) (value : option Py.num) : bool :=
  (String.eqb reading_type "blood_pressure"
   || String.eqb reading_type "glucose"
   || String.eqb reading_type "heart_rate")
  && Py.opt_truthy value.

(** The bound a branch compares against first. *)
Definition upper_bound (thresholds : Py.value) (reading_type : string)
    : result Py.value :=
  if String.eqb reading_type "blood_pressure"
  then threshold thresholds "blood_pressure" "systolic_max" 140
  else if String.eqb reading_type "glucose"
  then threshold thresholds "glucose" "max" 140
  else threshold thresholds "heart_rate" "max" 100.

(** The device row a successful registration writes. *)
Definition registered_row (env : Env) (db : Database)
    (device : DeviceRegistration.t) : SensorDevice.t :=
  SensorDevice.mk
    (Some (next_id (map SensorDevice.id (sensor_devices db))))
    (DeviceRegistration.patient_id device)
    (DeviceRegistration.device_type device)
    (DeviceRegistration.device_name device)
    (DeviceRegistration.manufacturer device)
    (DeviceRegistration.model device)
    (DeviceRegistration.device_id device)
    (DeviceRegistration.mac_address device)
    true (utcnow_at env 0).

(** No two device rows share a [device_id]. *)
Definition device_ids_unique (db : Database) : Prop :=
  NoDup (map SensorDevice.device_id (sensor_devices db)).

(** [utcnow() - timedelta(hours=hours)] at the first clock read. *)
Definition window_start (env : Env) (hours : Z) : result datetime :=
  delta <-? timedelta_hours hours ;; datetime_minus (utcnow_at env 0) delta.

(** What FastAPI answers when an exception other than [HTTPException]
    leaves a handler. *)
Definition internal_server_error {A : Type} : http_response A :=
  ErrorResponse 500 "Internal Server Error".

(* ================================================================= *)
(** ** The front end's client (frontend/api_client.py) *)

Module APIClient.

(** A decoded JSON body, as far as the client looks into it: a list of
    objects, one object, or the [{"detail": ...}] object of an error. *)
Inductive item : Type :=
| Device (d : DeviceResponse.t)
| Reading (r : SensorReadingResponse.t)
| Alert (a : AlertResponse.t).

Inductive json : Type :=
| JList (items : list item)
| JObject (o : item)
| JDetail (detail : string).

(** The requests the IoT methods send: method and path, with the query
    parameters or the JSON payload. *)
Inductive request : Type :=
| GET_devices (patient_id : Z)
| GET_readings (patient_id : Z) (hours : option Z)
    (reading_type : option string)
| GET_alerts (patient_id : Z) (unread_only : option bool)
| POST_devices (payload : DeviceRegistration.t).

(** What [requests.request] comes back with: an answer (status code, decoded
    body, body text) or one of the exceptions the client tells apart. *)
Inductive exchange : Type :=
| Answered (status_code : Z) (body : json) (text : string)
| ConnectionError
| Timeout
| OtherException (message : string).

(** What a method returns: the decoded body, or the dict [{"error": ...}]. *)
Inductive reply : Type :=
| Json (body : json)
| Error (message : string).

Definition _make_request (x : exchange) : reply :=
  match x with
  | Answered status_code body text =>
      if Z.eqb status_code 200 then Json body
      else if Z.eqb status_code 404 then Error "Resource not found"
      else if Z.eqb status_code 500 then Error "Server error"
      else Error ("HTTP " ++ Py.str_of_Z status_code ++ ": " ++ text)
  | ConnectionError => Error "Cannot connect to backend server"
  | Timeout => Error "Request timed out"
  | OtherException message => Error ("Request failed: " ++ message)
  end.

(** [result if isinstance(result, list) else []]. *)
Definition list_or_empty (r : reply) : list item :=
  match r with
  | Json (JList items) => items
  | _ => []
  end.

Section Methods.

(** The network and the server behind it. *)
Variable send : request -> exchange.

Definition get_iot_devices (patient_id : Z) : list item :=
  list_or_empty (_make_request (send (GET_devices patient_id))).

Definition get_iot_readings (patient_id : Z) (hours : Z)
    (reading_type : option string) : list item :=
  list_or_empty
    (_make_request
       (send (GET_readings patient_id (Some hours)
                (if given reading_type then reading_type else None)))).

Definition get_iot_alerts (patient_id : Z) (unread_only : bool) : list item :=
  list_or_empty
    (_make_request (send (GET_alerts patient_id (Some unread_only)))).

Definition register_iot_device (patient_id : Z)
    (device_type device_name manufacturer model device_id : string)
    (mac_address : option string) : reply :=
  _make_request
    (send (POST_devices
             (DeviceRegistration.mk patient_id device_type device_name
                (Some manufacturer) (Some model) device_id
                (if given mac_address then mac_address else None)))).

End Methods.

End APIClient.

(** *** The client in front of this backend

    The router mounts the IoT routes under [/api/v1/iot], which is where the
    client sends its requests; a request that is delivered is answered by
    the handler of its route. *)
Section Wiring.

Variable env : Env.
Variable select_fails : select_call -> bool.
Variable order_by_desc : ordering.

(** The text of a body as it travels. *)
Variable render : APIClient.json -> string.

Definition answer_of {A : Type} (encode : A -> APIClient.json)
    (r : http_response A) : APIClient.exchange :=
  match r with
  | Response c body =>
      APIClient.Answered c (encode body) (render (encode body))
  | ErrorResponse c detail =>
      APIClient.Answered c (APIClient.JDetail detail)
        (render (APIClient.JDetail detail))
  end.

Definition dispatch (req : APIClient.request) (db : Database)
    : Database * APIClient.exchange :=
  match req with
  | APIClient.GET_devices patient_id =>
      let '(db', r) := get_devices select_fails patient_id db in
      (db', answer_of (fun l => APIClient.JList (map APIClient.Device l)) r)
  | APIClient.GET_readings patient_id hours reading_type =>
      let '(db', r) :=
        get_readings env select_fails order_by_desc patient_id hours
          reading_type db in
      (db', answer_of (fun l => APIClient.JList (map APIClient.Reading l)) r)
  | APIClient.GET_alerts patient_id unread_only =>
      let '(db', r) :=
        get_alerts select_fails order_by_desc patient_id unread_only db in
      (db', answer_of (fun l => APIClient.JList (map APIClient.Alert l)) r)
  | APIClient.POST_devices payload =>
      let '(db', r) := post_devices env payload db in
      (db', answer_of (fun d => APIClient.JObject (APIClient.Device d)) r)
  end.

(** A network that delivers every request to the backend holding [db]. *)
Definition delivered (db : Database) (req : APIClient.request)
    : APIClient.exchange :=
  snd (dispatch req db).

End Wiring.

(* ================================================================= *)
(** ** More concrete surroundings *)

Module Scenario.

(** Every SELECT of the listing handlers works, and rows with equal
    timestamps come in table order. *)
Definition selects (c : select_call) : bool := false.

Definition order_by : ordering := table_order_desc.

(** A later request, whose clock reads 5000. *)
Definition later : Env :=
  mkEnv (fun _ => 5000) (fun _ => false) Sample.real_text.

(** Body texts are not inspected in the examples. *)
Definition render (j : APIClient.json) : string := "<body>".

(** Patient 7 with a profile whose thresholds document is JSON null, with
    one whose glucose entry is null, and with one whose glucose maximum is a
    string. *)
Definition null_profile : PatientMonitoringProfile.t :=
  PatientMonitoringProfile.mk (Some 1) 7 true "daily" None_ true false true.

Definition db_null_profile : Database :=
  mkDatabase [Sample.glucometer; Sample.cuff; Sample.pulse; Sample.retired]
             [] [] [null_profile] [7].

Definition null_entry_profile : PatientMonitoringProfile.t :=
  PatientMonitoringProfile.mk (Some 1) 7 true "daily"
    (Dict [("glucose", None_)]) true false true.

Definition worded_profile : PatientMonitoringProfile.t :=
  PatientMonitoringProfile.mk (Some 1) 7 true "daily"
    (Dict [("glucose", Dict [("max", Str "high")])]) true false true.

Definition db_worded_profile : Database :=
  mkDatabase [Sample.glucometer; Sample.cuff; Sample.pulse; Sample.retired]
             [] [] [worded_profile] [7].

(** A systolic value of [2 ** 1024] through the cuff. *)
Definition oversized : SensorReadingCreate.t :=
  SensorReadingCreate.mk "D2" "blood_pressure"
    [("systolic", Int (2 ^ 1024)); ("diastolic", Int 80)] None.

(** A heart rate of NaN, glucose 100 whose unit was sent as the number 5,
    and glucose [2 ** 1024]. *)
Definition nan_pulse : SensorReadingCreate.t :=
  SensorReadingCreate.mk "D3" "heart_rate"
    [("value", Float S754_nan); ("unit", Str "bpm")] None.

Definition numbered_unit : SensorReadingCreate.t :=
  SensorReadingCreate.mk "D1" "glucose"
    [("value", Int 100); ("unit", Int 5)] None.

Definition oversized_value : SensorReadingCreate.t :=
  SensorReadingCreate.mk "D1" "glucose"
    [("value", Int (2 ^ 1024)); ("unit", Str "mg/dL")] None.

(** Glucose 100 whose unit was sent as a list. *)
Definition listed_unit : SensorReadingCreate.t :=
  SensorReadingCreate.mk "D1" "glucose"
    [("value", Int 100); ("unit", List [Str "mg"; Str "dL"])] None.

(** The tables after glucose 180 was accepted, and after the payload
    without a value was committed. *)
Definition db_after_glucose : Database :=
  Eval vm_compute in
    fst (Sample.post_readings Sample.high_glucose Sample.db).

Definition db_after_no_value : Database :=
  Eval vm_compute in fst (Sample.post_readings Sample.no_value Sample.db).

End Scenario.

(* ================================================================= *)
(** ** Facts about Python numbers *)

Lemma as_num_of_num (n : Py.num) : Py.as_num (Py.of_num n) = Some n.
Proof. destruct n; reflexivity. Qed.

Lemma gt_of_num (a b : Py.num) : Py.gt a (Py.of_num b) = Ok (Py.num_gt a b).
Proof. unfold Py.gt. now rewrite as_num_of_num. Qed.

Lemma lt_of_num (a b : Py.num) : Py.lt a (Py.of_num b) = Ok (Py.num_lt a b).
Proof. unfold Py.lt. now rewrite as_num_of_num. Qed.

Lemma pow2_shift_pos (e1 e2 : Z) : 0 < 2 ^ (e1 - Z.min e1 e2).
Proof. apply Z.pow_pos_nonneg; lia. Qed.

(** A number equal to zero is falsy: [0], [0.0], [-0.0] and [False]. *)
Lemma zero_is_falsy (v : Py.num) :
  Py.num_is_zero v = true -> Py.num_truthy v = false.
Proof.
  unfold Py.num_is_zero.
  destruct v as [b | z | f]; cbn.
  - destruct b; cbn; [discriminate | reflexivity].
  - destruct (Z.compare_spec (z * 1) 0) as [E | L | G];
      try discriminate.
    intros _. replace z with 0 by lia. reflexivity.
  - destruct f as [s | s | | s m e]; cbn; try reflexivity.
    + destruct s; discriminate.
    + discriminate.
    + pose proof (pow2_shift_pos e 0) as P.
      destruct s;
        match goal with
        | |- context [Z.compare ?a ?b] =>
            destruct (Z.compare_spec a b) as [E | L | G]
        end; try discriminate; nia.
Qed.

(** Conversely, a falsy number is equal to zero. *)
Lemma falsy_is_zero (v : Py.num) :
  Py.num_truthy v = false -> Py.num_is_zero v = true.
Proof.
  unfold Py.num_is_zero.
  destruct v as [b | z | f]; cbn.
  - intros ->. reflexivity.
  - intros H. apply negb_false_iff, Z.eqb_eq in H. subst z. reflexivity.
  - destruct f; cbn; try discriminate. reflexivity.
Qed.

(* ================================================================= *)
(** ** Threshold resolution *)

(** The patient has no entry for [reading_type]: there is no profile at all,
    or its thresholds map lacks the key. *)
Lemma threshold_absent_entry (m : list (string * Py.value))
    (reading_type key : string) (d : Z) :
  Py.assoc reading_type m = None ->
  threshold (Dict m) reading_type key d = Ok (Int d).
Proof.
  intros H. unfold threshold. cbn. rewrite H. reflexivity.
Qed.

Lemma threshold_defaults (reading_type key : string) (d : Z) :
  In (reading_type, key, d) classifier_bounds ->
  threshold default_thresholds reading_type key d = Ok (Int d).
Proof.
  unfold classifier_bounds. cbn [In].
  intros H.
  repeat (destruct H as [H | H]; [inversion H; subst; reflexivity | ]).
  destruct H.
Qed.

Lemma threshold_total_on_nested_map (thresholds : Py.value)
    (reading_type key : string) (d : Z) :
  nested_map thresholds ->
  exists v, threshold thresholds reading_type key d = Ok v.
Proof.
  intros (m & -> & Hall). unfold threshold. cbn [Py.get_or rbind].
  destruct (Py.assoc reading_type m) as [x | ] eqn:Hx.
  - destruct (Hall _ _ Hx) as [m' ->]. cbn. eauto.
  - cbn. eauto.
Qed.

Lemma default_thresholds_nested : nested_map default_thresholds.
Proof.
  eexists. split; [reflexivity | ].
  intros k x. cbn [Py.assoc].
  repeat match goal with
         | |- (if ?c then _ else _) = _ -> _ =>
             destruct c; [intros [= <-]; eauto | ]
         end.
  discriminate.
Qed.

Lemma nested_map_resolvable (thresholds : Py.value) (reading_type : string) :
  nested_map thresholds -> resolvable thresholds reading_type.
Proof.
  intros (m & -> & Hall). exists m. split; [reflexivity | ].
  destruct (Py.assoc reading_type m) as [x | ] eqn:Hx; [ | exact I].
  exact (Hall _ _ Hx).
Qed.

Lemma threshold_on_resolvable (thresholds : Py.value)
    (reading_type key : string) (d : Z) :
  resolvable thresholds reading_type ->
  exists v, threshold thresholds reading_type key d = Ok v.
Proof.
  intros (m & -> & Hentry). unfold threshold. cbn [Py.get_or rbind].
  destruct (Py.assoc reading_type m) as [x | ].
  - destruct Hentry as [m' ->]. cbn. eauto.
  - cbn. eauto.
Qed.

Lemma threshold_off_resolvable (thresholds : Py.value)
    (reading_type key : string) (d : Z) :
  ~ resolvable thresholds reading_type ->
  threshold thresholds reading_type key d = Raise AttributeError.
Proof.
  intros Hno. unfold threshold.
  destruct thresholds as [ | b | z | f | t | l | m]; try reflexivity.
  cbn [Py.get_or rbind].
  destruct (Py.assoc reading_type m) as [x | ] eqn:Hx.
  - destruct x as [ | b | z | f | t | l | m']; try reflexivity.
    elim Hno. exists m. rewrite Hx. split; [reflexivity | now exists m'].
  - elim Hno. exists m. rewrite Hx. now split.
Qed.

(** C8, amended. Threshold resolution falls back to the system defaults.
    For a patient without a monitoring profile, or whose profile's threshold
    map has no entry for the reading type, every bound the classifier looks
    up resolves to its hardcoded default; with no profile the glucose entry
    is exactly [{max: 140, min: 70}]. Resolution returns a value whenever
    the thresholds document is a map whose entry for the reading type, if
    present, is a map, and raises [AttributeError] otherwise. The outcome
    is a function of the profile and the reading type alone. *)
Theorem threshold_resolution_falls_back
    (profile : option PatientMonitoringProfile.t)
    (reading_type key : string) (d : Z) :
  In (reading_type, key, d) classifier_bounds ->
  (no_entry profile reading_type ->
   threshold (thresholds_of profile) reading_type key d = Ok (Int d)) /\
  (profile = None ->
   Py.get_or (thresholds_of profile) "glucose" (Dict [])
     = Ok (Dict [("max", Int 140); ("min", Int 70)])) /\
  (resolvable (thresholds_of profile) reading_type ->
   exists v, threshold (thresholds_of profile) reading_type key d = Ok v) /\
  (~ resolvable (thresholds_of profile) reading_type ->
   threshold (thresholds_of profile) reading_type key d
     = Raise AttributeError).
Proof.
  intros Hin. split; [ | split; [ | split ] ].
  - intros Habsent. destruct profile as [p | ]; cbn in *.
    + destruct Habsent as (m & Hm & Hnone). rewrite Hm.
      now apply threshold_absent_entry.
    + now apply threshold_defaults.
  - intros ->. reflexivity.
  - apply threshold_on_resolvable.
  - apply threshold_off_resolvable.
Qed.

Lemma threshold_resolution_falls_back_witness :
  threshold (thresholds_of (Some Sample.tight_profile)) "heart_rate" "min" 60
    = Ok (Int 60) /\
  threshold (thresholds_of None) "glucose" "max" 140 = Ok (Int 140) /\
  exists v,
    threshold (thresholds_of (Some Sample.tight_profile)) "glucose" "max" 140
      = Ok v.
Proof.
  split; [ | split ].
  - apply (threshold_resolution_falls_back (Some Sample.tight_profile)
             "heart_rate" "min" 60).
    + cbn. tauto.
    + cbn. eexists. split; reflexivity.
  - apply (threshold_resolution_falls_back None "glucose" "max" 140).
    + cbn. tauto.
    + exact I.
  - apply (threshold_resolution_falls_back (Some Sample.tight_profile)
             "glucose" "max" 140).
    + cbn. tauto.
    + eexists. split; [reflexivity | ]. cbn. now eexists.
Defined.

(** C8, counterexample. Resolution can fail. For a patient whose profile
    holds JSON null as its thresholds document, and for one whose profile
    holds null as its glucose entry, the lookup of the glucose maximum
    raises [AttributeError] instead of returning a bound. *)
Lemma resolution_can_fail :
  ~ resolution_never_fails (Some Scenario.null_profile) "glucose" /\
  ~ resolution_never_fails (Some Scenario.null_entry_profile) "glucose".
Proof.
  split; intros H;
    destruct (H "max" 140) as [v Hv];
    try (cbn; tauto); discriminate.
Qed.

(* ================================================================= *)
(** ** Classification *)

Section Classification.

Variable float_repr : Py.float -> string.
Variable env : Env.

Local Abbreviation classify := (analyze_against float_repr).
Local Abbreviation show := (format_value float_repr).

(** Without a number no branch is entered. *)
Lemma analyze_absent_value (thresholds : Py.value) (reading_type : string) :
  classify thresholds reading_type None = Ok good.
Proof. reflexivity. Qed.

Lemma analyze_falsy_value (thresholds : Py.value) (reading_type : string)
    (v : Py.num) :
  Py.num_truthy v = false ->
  classify thresholds reading_type (Some v) = Ok good.
Proof.
  intros H. unfold analyze_against.
  rewrite H, !andb_false_r. reflexivity.
Qed.

(** On a truthy value the code follows the table of section 4.3, applied to
    the bounds its lookups resolve to. *)
Lemma analyze_truthy_matches_table (thresholds : Py.value)
    (t : Spec.ThresholdSet) (reading_type : string) (v : Py.num) :
  resolves_to thresholds t ->
  Py.num_truthy v = true ->
  classify thresholds reading_type (Some v)
    = Ok (Spec.Classify show reading_type (Some v) t).
Proof.
  intros (Hbp & Hgmax & Hgmin & Hhmax & Hhmin) Hv.
  unfold analyze_against, Spec.Classify, Spec.fired.
  rewrite Hv, !andb_true_r.
  destruct (String.eqb reading_type "blood_pressure").
  { rewrite Hbp. cbn [rbind]. rewrite gt_of_num. cbn [rbind].
    destruct (Py.num_gt v (Spec.systolic_max t)); reflexivity. }
  destruct (String.eqb reading_type "glucose").
  { rewrite Hgmax. cbn [rbind]. rewrite gt_of_num. cbn [rbind].
    destruct (Py.num_gt v (Spec.glucose_max t)); [reflexivity | ].
    rewrite Hgmin. cbn [rbind]. rewrite lt_of_num. cbn [rbind].
    destruct (Py.num_lt v (Spec.glucose_min t)); reflexivity. }
  destruct (String.eqb reading_type "heart_rate").
  { rewrite Hhmax. cbn [rbind]. rewrite gt_of_num. cbn [rbind].
    destruct (Py.num_gt v (Spec.heart_rate_max t)); [reflexivity | ].
    rewrite Hhmin. cbn [rbind]. rewrite lt_of_num. cbn [rbind].
    destruct (Py.num_lt v (Spec.heart_rate_min t)); reflexivity. }
  reflexivity.
Qed.

(** At most one row of the table fires, and the result is alerting exactly
    when one does. *)
Lemma analyze_one_branch (thresholds : Py.value) (reading_type : string)
    (value : option Py.num) (a : analysis) :
  classify thresholds reading_type value = Ok a ->
  a = good \/
  exists b v, value = Some v /\
              a = alerting (Spec.level b) (Spec.template b (show v)).
Proof.
  unfold analyze_against.
  destruct value as [v | ]; [ | intros [= <-]; now left].
  repeat match goal with
         | |- context [if ?c && Py.num_truthy v then _ else _] =>
             destruct (c && Py.num_truthy v)
         | |- rbind ?r _ = _ -> _ =>
             destruct r as [? | ?]; cbn [rbind]; [ | discriminate]
         | |- (if ?c then _ else _) = _ -> _ => destruct c
         end;
    intros [= <-]; try (now left); right.
  - now exists Spec.HighBloodPressure, v.
  - now exists Spec.HighGlucose, v.
  - now exists Spec.LowGlucose, v.
  - now exists Spec.HighHeartRate, v.
  - now exists Spec.LowHeartRate, v.
Qed.

(** C9. A reading whose numeric value equals zero is classified good with
    no alert, whatever the reading type and the thresholds in effect: every
    branch is guarded by the truthiness of the value. The same holds through
    [_analyze_reading], which only adds the profile query. *)
Theorem zero_value_never_alerts (profile : option PatientMonitoringProfile.t)
    (reading_type : string) (v : Py.num) (patient_id : Z) (s : State) :
  Py.num_is_zero v = true ->
  classify (thresholds_of profile) reading_type (Some v) = Ok good /\
  _analyze_reading float_repr env reading_type (Some v) patient_id s
    = (s, if store_fails env QueryProfile
          then Raise SQLAlchemyError else Ok good).
Proof.
  intros Hz. apply zero_is_falsy in Hz. split.
  - now apply analyze_falsy_value.
  - unfold _analyze_reading, bind, query, lift.
    destruct (store_fails env QueryProfile); [reflexivity | ].
    f_equal. now apply analyze_falsy_value.
Qed.

End Classification.

Lemma zero_value_never_alerts_witness :
  analyze_against Sample.float_repr default_thresholds "heart_rate"
    (Some (NFloat (S754_zero true))) = Ok good.
Proof.
  apply (zero_value_never_alerts Sample.float_repr Sample.env None
           "heart_rate" (NFloat (S754_zero true)) 7 (begin Sample.db)).
  reflexivity.
Defined.

(* ================================================================= *)
(** ** The ingestion endpoint *)

Section Ingestion.

Variable float_repr : Py.float -> string.
Variable exn_str : exn -> string.
Variable env : Env.

Local Abbreviation post := (post_readings float_repr exn_str env).
Local Abbreviation classify := (analyze_against float_repr).
Local Abbreviation failed := (failure exn_str).

(** Symbolic execution of a handler: expose the monad and reduce. *)
Ltac run_handler :=
  unfold post_readings, serve, create_sensor_reading,
    _analyze_reading, refresh_reading, try_except, bind, query, lift, raise,
    ret, utcnow, add, commit, rollback, begin;
  cbv beta iota zeta; cbn [store pending clock_reads commits app negb].

Ltac simpl_rows :=
  cbn [SensorReading.id SensorReading.device_id SensorReading.patient_id
       SensorReading.reading_type SensorReading.reading_timestamp
       SensorReading.reading_data SensorReading.numeric_value
       SensorReading.unit SensorReading.quality SensorReading.is_alert
       SensorReading.alert_severity SensorReading.alert_message
       AlertLog.id AlertLog.patient_id AlertLog.sensor_reading_id
       AlertLog.alert_type AlertLog.severity AlertLog.alert_message
       AlertLog.alert_timestamp AlertLog.is_read AlertLog.is_acknowledged
       AlertLog.acknowledged_by AlertLog.acknowledged_at].

Ltac step_with H :=
  rewrite H; cbv beta iota zeta;
  cbn [store pending clock_reads commits app negb].

(** The INSERT of the row the handler builds, in terms of what the two
    payload columns keep. *)
Lemma insert_reading_kept (reading : SensorReadingCreate.t)
    (pk : option Z) (patient_id : Z) (ts : datetime) (nv : option Py.num)
    (q : string) (ia : bool) (sev msg : option string) :
  insert_reading (real_text env)
    (SensorReading.mk None pk patient_id
       (SensorReadingCreate.reading_type reading) ts
       (SensorReadingCreate.reading_data reading) nv (extract_unit reading)
       q ia sev msg)
  = p <-? kept env reading nv ;;
    Ok (SensorReading.mk None pk patient_id
          (SensorReadingCreate.reading_type reading) ts
          (SensorReadingCreate.reading_data reading) (fst p) (snd p)
          q ia sev msg).
Proof.
  unfold insert_reading, kept. simpl_rows.
  destruct (float_column nv) as [x | e]; cbn [rbind]; [ | reflexivity].
  destruct (string_column (real_text env) (extract_unit reading))
    as [u | e]; reflexivity.
Qed.

Lemma kept_raises (reading : SensorReadingCreate.t) (nv : option Py.num)
    (e : exn) :
  kept env reading nv = Raise e -> e = StatementError \/ e = OverflowError.
Proof.
  unfold kept, float_column, string_column.
  destruct nv as [n | ]; cbn [rbind].
  - destruct (Py.to_float n) as [f | ]; cbn [rbind];
      [ | intros [= <-]; now left].
    destruct (extract_unit reading) as [ | b | z | g | s | l | d];
      cbn [rbind]; try discriminate;
      try (intros [= <-]; now left).
    + destruct (int64 z); [discriminate | intros [= <-]; now right].
    + destruct (real_column g); discriminate.
  - destruct (extract_unit reading) as [ | b | z | g | s | l | d];
      cbn [rbind]; try discriminate;
      try (intros [= <-]; now left).
    + destruct (int64 z); [discriminate | intros [= <-]; now right].
    + destruct (real_column g); discriminate.
Qed.

Lemma lookup_failure_leaves_store (reading : SensorReadingCreate.t)
    (db : Database) :
  store_fails env QueryDevice = true ->
  post reading db = (db, failed SQLAlchemyError).
Proof. intros H. run_handler. step_with H. reflexivity. Qed.

Lemma unknown_device_rejected (reading : SensorReadingCreate.t)
    (db : Database) :
  store_fails env QueryDevice = false ->
  device_by_device_id (SensorReadingCreate.device_id reading) db = None ->
  post reading db = (db, ErrorResponse 404 "Device not found").
Proof.
  intros Hq Hd. run_handler. step_with Hq. step_with Hd. reflexivity.
Qed.

Lemma inactive_device_rejected (reading : SensorReadingCreate.t)
    (db : Database) (device : SensorDevice.t) :
  store_fails env QueryDevice = false ->
  device_by_device_id (SensorReadingCreate.device_id reading) db
    = Some device ->
  SensorDevice.is_active device = false ->
  post reading db = (db, ErrorResponse 400 "Device is inactive").
Proof.
  intros Hq Hd Ha. run_handler. step_with Hq. step_with Hd. step_with Ha.
  reflexivity.
Qed.

Section ActiveDevice.

Variable reading : SensorReadingCreate.t.
Variable db : Database.
Variable device : SensorDevice.t.

Hypothesis lookup_ok : store_fails env QueryDevice = false.
Hypothesis found :
  device_by_device_id (SensorReadingCreate.device_id reading) db = Some device.
Hypothesis active : SensorDevice.is_active device = true.

Let reading_type := SensorReadingCreate.reading_type reading.
Let thresholds :=
  thresholds_of (profile_of (SensorDevice.patient_id device) db).

Lemma extraction_failure_leaves_store (e : exn) :
  extract_numeric_value reading = Raise e ->
  post reading db = (db, failed e).
Proof.
  intros He. run_handler. step_with lookup_ok. step_with found.
  step_with active. step_with He. destruct e; reflexivity.
Qed.

Lemma profile_failure_leaves_store (nv : option Py.num) :
  extract_numeric_value reading = Ok nv ->
  store_fails env QueryProfile = true ->
  post reading db = (db, failed SQLAlchemyError).
Proof.
  intros He Hp. run_handler. step_with lookup_ok. step_with found.
  step_with active. step_with He. step_with Hp. reflexivity.
Qed.

Lemma analysis_failure_leaves_store (nv : option Py.num) (e : exn) :
  extract_numeric_value reading = Ok nv ->
  store_fails env QueryProfile = false ->
  classify thresholds reading_type nv = Raise e ->
  post reading db = (db, failed e).
Proof.
  intros He Hp Han. run_handler. step_with lookup_ok. step_with found.
  step_with active. step_with He. step_with Hp.
  unfold thresholds, reading_type in Han. step_with Han.
  destruct e; reflexivity.
Qed.

Lemma commit_failure_leaves_store (nv : option Py.num) (a : analysis) :
  extract_numeric_value reading = Ok nv ->
  store_fails env QueryProfile = false ->
  classify thresholds reading_type nv = Ok a ->
  store_fails env (Commit 0) = true ->
  post reading db = (db, failed SQLAlchemyError).
Proof.
  intros He Hp Han Hc. run_handler. step_with lookup_ok. step_with found.
  step_with active. step_with He. step_with Hp.
  unfold thresholds, reading_type in Han. step_with Han.
  destruct a as [[[q ia] sev] msg].
  destruct (SensorReadingCreate.reading_timestamp reading), ia;
    cbv beta iota zeta; cbn [store pending clock_reads commits app];
    step_with Hc; reflexivity.
Qed.

(** A reading whose values cannot be bound to their columns fails the
    commit: nothing is written. *)
Lemma binding_failure_leaves_store (nv : option Py.num) (a : analysis)
    (e : exn) :
  extract_numeric_value reading = Ok nv ->
  store_fails env QueryProfile = false ->
  classify thresholds reading_type nv = Ok a ->
  store_fails env (Commit 0) = false ->
  kept env reading nv = Raise e ->
  post reading db = (db, failed e).
Proof.
  intros He Hp Han Hc Hk. run_handler. step_with lookup_ok. step_with found.
  step_with active. step_with He. step_with Hp.
  unfold thresholds, reading_type in Han. step_with Han.
  destruct a as [[[q ia] sev] msg].
  destruct (kept_raises _ _ _ Hk) as [-> | ->];
    destruct (SensorReadingCreate.reading_timestamp reading), ia;
    cbv beta iota zeta; cbn [store pending clock_reads commits app];
    step_with Hc; cbn [flush flush_op];
    rewrite insert_reading_kept, Hk; reflexivity.
Qed.

(** Once the commit goes through, the three writes are in the tables, each
    with the clock read taken for it; what is answered then depends only on
    the refresh and on building the summary. *)
Lemma accepted_request_commits (nv : option Py.num) (a : analysis)
    (x : option Py.num) (u : Py.value) :
  extract_numeric_value reading = Ok nv ->
  store_fails env QueryProfile = false ->
  classify thresholds reading_type nv = Ok a ->
  store_fails env (Commit 0) = false ->
  kept env reading nv = Ok (x, u) ->
  let r := stored_reading db device reading x u a
             (effective_timestamp env reading) in
  post reading db
    = (after_ingest db device r
         (stored_alert db device reading nv a (alert_instant env reading))
         (sync_instant env reading (is_alert_of a)),
       if store_fails env Refresh then failed SQLAlchemyError
       else match summary device r with
            | Ok body => Response 200 body
            | Raise e => failed e
            end).
Proof.
  intros He Hp Han Hc Hk. run_handler. step_with lookup_ok. step_with found.
  step_with active. step_with He. step_with Hp.
  unfold thresholds, reading_type in Han. step_with Han.
  destruct a as [[[q ia] sev] msg].
  unfold effective_timestamp, alert_instant, sync_instant,
    reads_for_timestamp, is_alert_of.
  destruct (SensorReadingCreate.reading_timestamp reading) as [t | ], ia;
    cbv beta iota zeta;
    cbn [store pending clock_reads commits app fst snd Nat.add];
    step_with Hc; cbn [flush flush_op];
    rewrite insert_reading_kept, Hk;
    cbn [rbind fst snd flush flush_op sensor_devices sensor_readings
         alert_logs monitoring_profiles patients];
    cbv beta iota zeta; cbn [store pending clock_reads commits];
    unfold after_ingest, stored_reading, stored_alert, summary;
    unfold SensorReading.with_id, AlertLog.with_id, AlertLog.new;
    simpl_rows;
    rewrite ?app_nil_r;
    (destruct (store_fails env Refresh);
     [ reflexivity
     | cbn [sensor_readings]; rewrite last_last; cbv beta iota zeta;
       simpl_rows ]);
    match goal with
    | |- context [SensorReadingResponse.validate ?a ?b ?c ?d ?e ?f ?g ?h ?i] =>
        destruct (SensorReadingResponse.validate a b c d e f g h i)
          as [body | []]
    end; reflexivity.
Qed.

End ActiveDevice.

Lemma failure_not_response (e : exn) (c : Z) (body : SensorReadingResponse.t) :
  failed e <> Response c body.
Proof. destruct e; discriminate. Qed.

(** Every request ends in one of two ways: an error answer with the tables
    untouched, or the accepted path. *)
Lemma ingestion_cases (reading : SensorReadingCreate.t) (db : Database) :
  (exists answer, post reading db = (db, answer) /\
                  forall c body, answer <> Response c body) \/
  (exists device nv a x u,
     store_fails env QueryDevice = false /\
     device_by_device_id (SensorReadingCreate.device_id reading) db
       = Some device /\
     SensorDevice.is_active device = true /\
     extract_numeric_value reading = Ok nv /\
     store_fails env QueryProfile = false /\
     classify (thresholds_of (profile_of (SensorDevice.patient_id device) db))
       (SensorReadingCreate.reading_type reading) nv = Ok a /\
     store_fails env (Commit 0) = false /\
     kept env reading nv = Ok (x, u)).
Proof.
  destruct (store_fails env QueryDevice) eqn:Hq.
  { left. eexists. split; [now apply lookup_failure_leaves_store | ].
    intros; apply failure_not_response. }
  destruct (device_by_device_id (SensorReadingCreate.device_id reading) db)
    as [device | ] eqn:Hd.
  2: { left. eexists. split; [now apply unknown_device_rejected | ].
       discriminate. }
  destruct (SensorDevice.is_active device) eqn:Ha.
  2: { left. eexists.
       split; [exact (inactive_device_rejected reading db device Hq Hd Ha) | ].
       discriminate. }
  destruct (extract_numeric_value reading) as [nv | e] eqn:He.
  2: { left. eexists.
       split; [exact (extraction_failure_leaves_store reading db device Hq Hd
                       Ha e He) | ].
       intros; apply failure_not_response. }
  destruct (store_fails env QueryProfile) eqn:Hp.
  { left. eexists.
    split; [exact (profile_failure_leaves_store reading db device Hq Hd Ha nv
                    He Hp) | ].
    intros; apply failure_not_response. }
  destruct (classify
              (thresholds_of (profile_of (SensorDevice.patient_id device) db))
              (SensorReadingCreate.reading_type reading) nv)
    as [a | e] eqn:Han.
  2: { left. eexists.
       split; [exact (analysis_failure_leaves_store reading db device Hq Hd
                       Ha nv e He Hp Han) | ].
       intros; apply failure_not_response. }
  destruct (store_fails env (Commit 0)) eqn:Hc.
  { left. eexists.
    split; [exact (commit_failure_leaves_store reading db device Hq Hd Ha nv
                    a He Hp Han Hc) | ].
    intros; apply failure_not_response. }
  destruct (kept env reading nv) as [[x u] | e] eqn:Hk.
  2: { left. eexists.
       split; [exact (binding_failure_leaves_store reading db device Hq Hd
                       Ha nv a e He Hp Han Hc Hk) | ].
       intros; apply failure_not_response. }
  right. exists device, nv, a, x, u. repeat split; assumption.
Qed.

(** C3. Ingestion is atomic. Whatever the request, the tables and the
    failing store calls (each commit failing or not on its own): either the
    tables are left exactly as they were and the answer is an error, or the
    tables hold, together, the new reading stamped with its effective
    timestamp, its alert exactly when the reading is alerting, stamped with
    the clock read taken for it, and the device's [last_sync] set to the
    last clock read of the request. No path leaves a reading without its
    alert, an alert or a last-contact update without the reading, or any
    other partial write; a store failure after the commit changes the
    answer, not the tables. *)
Theorem ingestion_is_atomic (reading : SensorReadingCreate.t) (db : Database) :
  let out := post reading db in
  (fst out = db /\ forall c body, snd out <> Response c body) \/
  (exists device nv a x u,
     device_by_device_id (SensorReadingCreate.device_id reading) db
       = Some device /\
     SensorDevice.is_active device = true /\
     extract_numeric_value reading = Ok nv /\
     classify (thresholds_of (profile_of (SensorDevice.patient_id device) db))
       (SensorReadingCreate.reading_type reading) nv = Ok a /\
     kept env reading nv = Ok (x, u) /\
     fst out = after_ingest db device
                 (stored_reading db device reading x u a
                    (effective_timestamp env reading))
                 (stored_alert db device reading nv a
                    (alert_instant env reading))
                 (sync_instant env reading (is_alert_of a))).
Proof.
  cbv zeta.
  destruct (ingestion_cases reading db)
    as [(answer & Hrun & Hno)
       | (device & nv & a & x & u & Hq & Hd & Ha & He & Hp & Han & Hc & Hk)].
  - left. rewrite Hrun. split; [reflexivity | exact Hno].
  - right. exists device, nv, a, x, u.
    rewrite (accepted_request_commits reading db device Hq Hd Ha nv a x u
               He Hp Han Hc Hk).
    repeat (split; [assumption | ]). reflexivity.
Qed.

(** C4. A reading sent through a device whose activation flag is false is
    answered 400 "Device is inactive", and one sent under an unregistered
    device id is answered 404 "Device not found"; in both cases the tables
    are left exactly as they were (no reading, no alert, no last-contact
    update). *)
Theorem rejected_device_leaves_no_trace (reading : SensorReadingCreate.t)
    (db : Database) :
  store_fails env QueryDevice = false ->
  (forall device,
     device_by_device_id (SensorReadingCreate.device_id reading) db
       = Some device ->
     SensorDevice.is_active device = false ->
     post reading db = (db, ErrorResponse 400 "Device is inactive")) /\
  (device_by_device_id (SensorReadingCreate.device_id reading) db = None ->
   post reading db = (db, ErrorResponse 404 "Device not found")).
Proof.
  intros Hq. split.
  - intros device Hd Ha. now apply inactive_device_rejected with device.
  - intros Hd. now apply unknown_device_rejected.
Qed.

(** Even when the device lookup itself fails, such a request writes
    nothing. *)
Lemma rejected_device_never_writes (reading : SensorReadingCreate.t)
    (db : Database) :
  match device_by_device_id (SensorReadingCreate.device_id reading) db with
  | Some device => SensorDevice.is_active device = false
  | None => True
  end ->
  fst (post reading db) = db.
Proof.
  intros H.
  destruct (store_fails env QueryDevice) eqn:Hq.
  { now rewrite lookup_failure_leaves_store. }
  destruct (device_by_device_id (SensorReadingCreate.device_id reading) db)
    as [device | ] eqn:Hd.
  - now rewrite (inactive_device_rejected reading db device).
  - now rewrite unknown_device_rejected.
Qed.

(** The alert written by an accepted request mirrors the reading's alert
    fields and starts unread and unacknowledged; its [sensor_reading_id] is
    left NULL. *)
Lemma alert_mirrors_reading (db : Database) (device : SensorDevice.t)
    (reading : SensorReadingCreate.t) (nv x : option Py.num) (u : Py.value)
    (a : analysis) (ts ta : datetime) :
  let r := stored_reading db device reading x u a ts in
  let alert := stored_alert db device reading nv a ta in
  alert_fields r = a /\
  AlertLog.severity alert = SensorReading.alert_severity r /\
  AlertLog.alert_message alert = SensorReading.alert_message r /\
  AlertLog.patient_id alert = SensorReading.patient_id r /\
  AlertLog.is_read alert = false /\
  AlertLog.is_acknowledged alert = false /\
  AlertLog.sensor_reading_id alert = None.
Proof. destruct a as [[[q ia] sev] msg]. cbn. repeat split. Qed.

(** C5, amended. A reading through an active device whose numeric value the
    store keeps as a finite real number [f] (so not NaN, not an infinity and
    not an integer beyond the range of a float), whose unit the store keeps
    as the text [u], and whose classification raises nothing, is answered
    200 with the summary of the stored reading, carrying [f] and [u],
    whenever no store call fails; and whatever the store does, such a
    request is answered with an error only if some store call failed. *)
Theorem accepted_reading_answered_200 (reading : SensorReadingCreate.t)
    (db : Database) (device : SensorDevice.t) (n : Py.num) (f : Py.float)
    (u : string) (a : analysis) :
  device_by_device_id (SensorReadingCreate.device_id reading) db
    = Some device ->
  SensorDevice.is_active device = true ->
  extract_numeric_value reading = Ok (Some n) ->
  kept env reading (Some n) = Ok (Some (NFloat f), Str u) ->
  Py.is_finite f = true ->
  classify
    (thresholds_of (profile_of (SensorDevice.patient_id device) db))
    (SensorReadingCreate.reading_type reading) (Some n) = Ok a ->
  let out := post reading db in
  let r := stored_reading db device reading (Some (NFloat f)) (Str u) a
             (effective_timestamp env reading) in
  (store_up env ->
   exists body,
     out = (after_ingest db device r
              (stored_alert db device reading (Some n) a
                 (alert_instant env reading))
              (sync_instant env reading (is_alert_of a)),
            Response 200 body) /\
     alert_fields r = a /\
     summary device r = Ok body /\
     SensorReadingResponse.numeric_value body = f /\
     SensorReadingResponse.unit body = u) /\
  (forall c detail, snd out = ErrorResponse c detail ->
                    exists call, store_fails env call = true).
Proof.
  intros Hd Ha He Hk Hfin Han. cbv zeta.
  assert (Hsum : forall ts,
             summary device
               (stored_reading db device reading (Some (NFloat f)) (Str u) a
                  ts)
             = Ok (SensorReadingResponse.mk
                     (next_id (map SensorReading.id (sensor_readings db)))
                     (SensorDevice.device_name device)
                     (SensorReadingCreate.reading_type reading) ts f u
                     (fst (fst (fst a))) (snd (fst (fst a))) (snd a))).
  { intros ts. destruct a as [[[q ia] sev] msg]. reflexivity. }
  split.
  - intros Hup.
    rewrite (accepted_request_commits reading db device (Hup QueryDevice)
               Hd Ha (Some n) a _ _ He (Hup QueryProfile) Han
               (Hup (Commit 0)) Hk).
    rewrite (Hup Refresh), Hsum.
    eexists. split; [reflexivity | ].
    split; [apply (alert_mirrors_reading db device reading (Some n));
            exact 0 | ].
    split; [reflexivity | split; reflexivity].
  - intros c detail Hans.
    destruct (store_fails env QueryDevice) eqn:Hq; [now exists QueryDevice | ].
    destruct (store_fails env QueryProfile) eqn:Hp;
      [now exists QueryProfile | ].
    destruct (store_fails env (Commit 0)) eqn:Hc; [now exists (Commit 0) | ].
    destruct (store_fails env Refresh) eqn:Hr; [now exists Refresh | ].
    exfalso.
    rewrite (accepted_request_commits reading db device Hq Hd Ha (Some n) a
               _ _ He Hp Han Hc Hk) in Hans.
    rewrite Hr, Hsum in Hans. discriminate.
Qed.

End Ingestion.

Lemma rejected_device_leaves_no_trace_witness :
  Sample.post_readings Sample.from_retired Sample.db
    = (Sample.db, ErrorResponse 400 "Device is inactive") /\
  Sample.post_readings Sample.from_unknown Sample.db
    = (Sample.db, ErrorResponse 404 "Device not found").
Proof.
  split.
  - apply (proj1 (rejected_device_leaves_no_trace Sample.float_repr
                    Sample.exn_str Sample.env Sample.from_retired Sample.db
                    eq_refl) Sample.retired); reflexivity.
  - apply (proj2 (rejected_device_leaves_no_trace Sample.float_repr
                    Sample.exn_str Sample.env Sample.from_unknown Sample.db
                    eq_refl)); reflexivity.
Defined.

Lemma accepted_reading_answered_200_witness :
  exists body,
    snd (Sample.post_readings Sample.high_glucose Sample.db)
      = Response 200 body /\
    SensorReadingResponse.quality body = "critical".
Proof.
  destruct (accepted_reading_answered_200 Sample.float_repr Sample.exn_str
              Sample.env Sample.high_glucose Sample.db Sample.glucometer
              (NInt 180) (S754_finite false 6333186975989760 (-45)) "mg/dL"
              (alerting "critical" "High glucose level: 180 mg/dL")
              eq_refl eq_refl eq_refl eq_refl eq_refl eq_refl) as [Hup _].
  destruct (Hup (fun _ => eq_refl)) as (body & Hout & _).
  exists body. unfold Sample.post_readings. rewrite Hout.
  split; [reflexivity | ].
  vm_compute in Hout. now inversion Hout.
Defined.

(** C5, counterexample. With the store working, glucose 180 mg/dL through
    the active device D1 is answered 200, not 201; and a payload without a
    numeric value through the same device is answered 500 although no store
    call failed. *)
Lemma answers_201_refuted :
  ~ answers_201_unless_store_fails Sample.float_repr Sample.exn_str Sample.env
      Sample.high_glucose Sample.db /\
  ~ answers_201_unless_store_fails Sample.float_repr Sample.exn_str Sample.env
      Sample.no_value Sample.db.
Proof.
  split; intros H.
  - destruct (H Sample.glucometer eq_refl eq_refl) as [Hup _].
    destruct (Hup (fun _ => eq_refl)) as [body Hbody].
    vm_compute in Hbody. discriminate.
  - destruct (H Sample.glucometer eq_refl eq_refl) as [_ H500].
    destruct (H500 "Error creating reading: ValidationError" eq_refl)
      as [c Hc].
    destruct c; discriminate.
Qed.

(** C1, failing input. A heart rate of exactly 0 through the active device
    D3, for a patient without a profile: the thresholds in effect are the
    defaults, under which the table of section 4.3 gives a "Low heart rate"
    warning (0 < 60), yet the stored reading is good with no alert. *)
Theorem zero_heart_rate_stored_as_good :
  resolves_to (thresholds_of (profile_of 7 Sample.db)) Spec.defaults /\
  Spec.Classify (format_value Sample.float_repr) "heart_rate"
    (Some (NInt 0)) Spec.defaults
    = alerting "warning" "Low heart rate: 0 bpm" /\
  map alert_fields
    (sensor_readings (fst (Sample.post_readings Sample.zero_pulse Sample.db)))
    = [good].
Proof.
  split; [ | split ].
  - repeat split.
  - reflexivity.
  - reflexivity.
Qed.

(** C2, failing input. Glucose 180 through the active device D1: one
    reading (key 1, alerting) and one alert are written; the alert carries
    the reading's severity and message and is unread and unacknowledged, but
    its [sensor_reading_id] is NULL, so it does not reference the reading. *)
Theorem alert_does_not_reference_reading :
  let db' := fst (Sample.post_readings Sample.high_glucose Sample.db) in
  map (fun r => (SensorReading.id r, SensorReading.is_alert r))
      (sensor_readings db') = [(Some 1, true)] /\
  map (fun a => (AlertLog.sensor_reading_id a, AlertLog.severity a,
                 AlertLog.alert_message a, AlertLog.is_read a,
                 AlertLog.is_acknowledged a))
      (alert_logs db')
    = [(None, Some "critical", Some "High glucose level: 180 mg/dL",
        false, false)].
Proof. split; reflexivity. Qed.

(* ================================================================= *)
(** ** Worked scenarios *)

(** Scenario B: the systolic reading is converted with [float], so the
    message shows [150.0]; the unit defaults to mmHg and the answer is 200. *)
Example scenario_B_runs :
  let out := Sample.post_readings Sample.scenario_B Sample.db in
  map alert_fields (sensor_readings (fst out))
    = [alerting "warning" "High blood pressure detected: 150.0 mmHg"] /\
  map AlertLog.alert_type (alert_logs (fst out)) = ["high_bp"] /\
  exists body, snd out = Response 200 body.
Proof. repeat split. eexists. reflexivity. Qed.

(** Scenario A without a unit: the reading and its [high_glucose] alert are
    committed, then building the summary fails on the missing unit. *)
Example scenario_A_runs :
  let out := Sample.post_readings Sample.scenario_A Sample.db in
  map alert_fields (sensor_readings (fst out))
    = [alerting "critical" "High glucose level: 180 mg/dL"] /\
  map AlertLog.alert_type (alert_logs (fst out)) = ["high_glucose"] /\
  snd out = ErrorResponse 500 "Error creating reading: ValidationError".
Proof. repeat split. Qed.

(** What the columns keep decides the answer. A NaN heart rate is committed
    with a NULL [numeric_value] and then answered 500; a unit sent as the
    number 5 comes back as the text "5" in a 200; glucose [2 ** 1024] alerts,
    but cannot be bound to the float column, so nothing is written. *)
Example nan_reading_is_stored_as_null :
  let out := Sample.post_readings Scenario.nan_pulse Sample.db in
  map SensorReading.numeric_value (sensor_readings (fst out)) = [None] /\
  snd out = ErrorResponse 500 "Error creating reading: ValidationError".
Proof. split; reflexivity. Qed.

Example scalar_unit_is_kept_as_text :
  exists body,
    snd (Sample.post_readings Scenario.numbered_unit Sample.db)
      = Response 200 body /\
    SensorReadingResponse.unit body = "5" /\
    SensorReadingResponse.numeric_value body
      = S754_finite false 7036874417766400 (-46).
Proof. eexists. split; [reflexivity | split; reflexivity]. Qed.

Example oversized_value_is_not_stored :
  Sample.post_readings Scenario.oversized_value Sample.db
  = (Sample.db, ErrorResponse 500 "Error creating reading: StatementError").
Proof. reflexivity. Qed.

(* ================================================================= *)
(** ** The alert tag *)

Section AlertTag.

Variable float_repr : Py.float -> string.

Local Abbreviation classify := (analyze_against float_repr).
Local Abbreviation show := (format_value float_repr).

Lemma alert_type_general_when_falsy (reading_type : string)
    (value : option Py.num) :
  Py.opt_truthy value = false ->
  _get_alert_type reading_type value = "general_" ++ reading_type.
Proof.
  intros H. unfold _get_alert_type.
  destruct value as [v | ]; cbn in H; [rewrite H | ]; cbn [andb];
    repeat match goal with
           | |- context [String.eqb reading_type ?k] =>
               destruct (String.eqb reading_type k)
           end; reflexivity.
Qed.

(** C7, amended. When the bounds in effect are the system defaults (no
    profile, or a profile that resolves to them), the tag agrees with the
    classification: classification never fails; if it alerts, the reading's
    quality, severity and message are those of one row of the table and the
    tag is that row's directional tag; if it does not alert, the tag is the
    fallback [general_{readingType}]. *)
Theorem alert_type_consistent_under_defaults (thresholds : Py.value)
    (reading_type : string) (value : option Py.num) :
  resolves_to thresholds Spec.defaults ->
  exists a,
    classify thresholds reading_type value = Ok a /\
    match a with
    | (_, true, _, _) =>
        exists b v,
          value = Some v /\
          a = alerting (Spec.level b) (Spec.template b (show v)) /\
          _get_alert_type reading_type value = Spec.tag b
    | (_, false, _, _) =>
        a = good /\
        _get_alert_type reading_type value = "general_" ++ reading_type
    end.
Proof.
  intros Hres.
  destruct value as [v | ].
  2: { exists good. split; [reflexivity | ].
       split; [reflexivity | now apply alert_type_general_when_falsy]. }
  destruct (Py.num_truthy v) eqn:Hv.
  2: { exists good. split; [now apply analyze_falsy_value | ].
       split; [reflexivity | now apply alert_type_general_when_falsy]. }
  eexists. split.
  { apply (analyze_truthy_matches_table float_repr thresholds Spec.defaults);
      assumption. }
  unfold Spec.Classify, Spec.fired, _get_alert_type.
  rewrite Hv. cbn [andb Spec.systolic_max Spec.glucose_max Spec.glucose_min
                   Spec.heart_rate_max Spec.heart_rate_min Spec.defaults].
  destruct (String.eqb reading_type "blood_pressure").
  { destruct (Py.num_gt v (NInt 140)).
    - exists Spec.HighBloodPressure, v. repeat split.
    - split; reflexivity. }
  destruct (String.eqb reading_type "glucose").
  { destruct (Py.num_gt v (NInt 140)).
    - exists Spec.HighGlucose, v. repeat split.
    - destruct (Py.num_lt v (NInt 70)).
      + exists Spec.LowGlucose, v. repeat split.
      + split; reflexivity. }
  destruct (String.eqb reading_type "heart_rate").
  { destruct (Py.num_gt v (NInt 100)).
    - exists Spec.HighHeartRate, v. repeat split.
    - destruct (Py.num_lt v (NInt 60)).
      + exists Spec.LowHeartRate, v. repeat split.
      + split; reflexivity. }
  split; reflexivity.
Qed.

End AlertTag.

Lemma alert_type_consistent_under_defaults_witness :
  exists a,
    analyze_against Sample.float_repr default_thresholds "glucose"
      (Some (NInt 180)) = Ok a /\
    _get_alert_type "glucose" (Some (NInt 180)) = "high_glucose".
Proof.
  destruct (alert_type_consistent_under_defaults Sample.float_repr
              default_thresholds "glucose" (Some (NInt 180)))
    as (a & Ha & _).
  - repeat split.
  - exists a. split; [exact Ha | reflexivity].
Defined.

(** C7, counterexample. For the patient whose profile sets the glucose band
    to 150..200, a value of 145 is classified as "Low glucose level", while
    the tag, computed against the fixed bounds 140 and 70, is
    [high_glucose]. *)
Lemma tag_contradicts_classification :
  ~ tag_follows_classification Sample.float_repr
      (thresholds_of (profile_of 7 Sample.db_profiled)) "glucose"
      (Some (NInt 145)).
Proof.
  intros H.
  destruct (H "critical" (Some "critical")
              (Some "Low glucose level: 145 mg/dL") eq_refl)
    as (b & v & Hv & Hmsg & Htag).
  injection Hv as <-.
  destruct b; vm_compute in Htag; discriminate.
Qed.

(* ================================================================= *)
(** ** Device registration *)

Section Registration.

Variable env : Env.

Ltac run_registration :=
  unfold post_devices, serve, register_device, refresh_device, bind, query,
    lift, raise, ret, utcnow, add, commit, begin;
  cbv beta iota zeta; cbn [store pending clock_reads commits app].

Ltac reg_step H :=
  rewrite H; cbv beta iota zeta;
  cbn [store pending clock_reads commits app flush flush_op rbind];
  cbv beta iota zeta; cbn [store pending clock_reads commits].

Lemma patient_lookup (pid : Z) (ids : list Z) :
  (exists k, find (Z.eqb pid) ids = Some k) <-> In pid ids.
Proof.
  split.
  - intros [k Hk]. apply find_some in Hk as [Hin Heq].
    apply Z.eqb_eq in Heq. now subst k.
  - intros Hin. destruct (find (Z.eqb pid) ids) as [k | ] eqn:Hf.
    + now exists k.
    + apply (find_none _ _ Hf) in Hin. rewrite Z.eqb_refl in Hin.
      discriminate.
Qed.

(** C10. Registration looks for the device id before it looks for the
    patient. A device id already registered is answered 400 "Device already
    registered" whether or not the patient exists; the patient check is
    reached only for a new device id, where a missing patient is answered 404
    "Patient not found"; otherwise one device row is written, active, with
    [last_sync] set to the time of registration. *)
Theorem registration_checks_device_first (device : DeviceRegistration.t)
    (db : Database) :
  store_fails env QueryDevice = false ->
  let out := post_devices env device db in
  let known :=
    device_by_device_id (DeviceRegistration.device_id device) db in
  let pid := DeviceRegistration.patient_id device in
  (known <> None ->
   out = (db, ErrorResponse 400 "Device already registered")) /\
  (forall detail, snd out = ErrorResponse 404 detail -> known = None) /\
  (known = None -> store_fails env QueryPatient = false ->
   ~ In pid (patients db) ->
   out = (db, ErrorResponse 404 "Patient not found")) /\
  (known = None -> store_up env -> In pid (patients db) ->
   exists row body,
     out = (after_registration db row, Response 200 body) /\
     SensorDevice.device_id row = DeviceRegistration.device_id device /\
     SensorDevice.patient_id row = pid /\
     SensorDevice.is_active row = true /\
     SensorDevice.last_sync row = utcnow_at env 0 /\
     DeviceResponse.is_active body = true /\
     DeviceResponse.last_sync body = utcnow_at env 0).
Proof.
  intros Hq. cbv zeta.
  assert (Hdup : device_by_device_id (DeviceRegistration.device_id device) db
                 <> None ->
                 post_devices env device db
                 = (db, ErrorResponse 400 "Device already registered")).
  { intros Hk. run_registration. reg_step Hq.
    destruct (device_by_device_id (DeviceRegistration.device_id device) db);
      [reflexivity | contradiction]. }
  split; [exact Hdup | ]. split; [ | split ].
  - intros detail H404.
    destruct (device_by_device_id (DeviceRegistration.device_id device) db)
      eqn:Hk; [ | reflexivity].
    rewrite Hdup in H404 by discriminate. discriminate.
  - intros Hk Hp Hno. run_registration. reg_step Hq. reg_step Hk. reg_step Hp.
    destruct (find (Z.eqb (DeviceRegistration.patient_id device))
                   (patients db)) as [k | ] eqn:Hf; [ | reflexivity].
    exfalso. apply Hno. apply patient_lookup. now exists k.
  - intros Hk Hup Hin. apply patient_lookup in Hin as [k Hf].
    run_registration. reg_step Hq. reg_step Hk. reg_step (Hup QueryPatient).
    reg_step Hf. reg_step (Hup (Commit 0)). reg_step (Hup Refresh).
    cbn [sensor_devices]. rewrite last_last.
    do 2 eexists. split; [reflexivity | ]. repeat split.
Qed.

End Registration.

Lemma registration_checks_device_first_witness :
  post_devices Sample.env Sample.duplicate Sample.db
    = (Sample.db, ErrorResponse 400 "Device already registered") /\
  post_devices Sample.env Sample.orphan Sample.db
    = (Sample.db, ErrorResponse 404 "Patient not found") /\
  exists row body,
    post_devices Sample.env Sample.newcomer Sample.db
      = (after_registration Sample.db row, Response 200 body) /\
    SensorDevice.is_active row = true /\
    SensorDevice.last_sync row = 1000.
Proof.
  split; [ | split ].
  - apply (registration_checks_device_first Sample.env Sample.duplicate
             Sample.db eq_refl). discriminate.
  - apply (registration_checks_device_first Sample.env Sample.orphan
             Sample.db eq_refl); [reflexivity | reflexivity | ].
    cbn. intros [H | []]. discriminate.
  - destruct (registration_checks_device_first Sample.env Sample.newcomer
                Sample.db eq_refl) as (_ & _ & _ & Hnew).
    destruct Hnew as (row & body & Hout & _ & _ & Hact & Hsync & _).
    + reflexivity.
    + intros c. reflexivity.
    + cbn. now left.
    + exists row, body. repeat split; assumption.
Defined.

(* ================================================================= *)
(** ** Acknowledging an alert *)

Lemma acknowledge_keeps_id (alertId : Z) (actor : string) (now : datetime)
    (a : AlertLog.t) :
  alert_has_id alertId (acknowledge actor now a) = alert_has_id alertId a.
Proof. reflexivity. Qed.

Lemma find_after_acknowledge (alertId : Z) (actor : string) (now : datetime)
    (l : list AlertLog.t) :
  find (alert_has_id alertId)
       (map (fun x => if alert_has_id alertId x
                      then acknowledge actor now x else x) l)
  = option_map (acknowledge actor now) (find (alert_has_id alertId) l).
Proof.
  induction l as [ | x l IH]; [reflexivity | ].
  cbn [map find].
  destruct (alert_has_id alertId x) eqn:Hx.
  - rewrite acknowledge_keeps_id, Hx. reflexivity.
  - rewrite Hx. exact IH.
Qed.

Lemma acknowledge_last_writer (alertId : Z) (actor1 actor2 : string)
    (now1 now2 : datetime) (l : list AlertLog.t) :
  map (fun x => if alert_has_id alertId x
                then acknowledge actor2 now2 x else x)
      (map (fun x => if alert_has_id alertId x
                     then acknowledge actor1 now1 x else x) l)
  = map (fun x => if alert_has_id alertId x
                  then acknowledge actor2 now2 x else x) l.
Proof.
  rewrite map_map. apply map_ext. intros x.
  destruct (alert_has_id alertId x) eqn:Hx.
  - rewrite acknowledge_keeps_id, Hx. reflexivity.
  - rewrite Hx. reflexivity.
Qed.

(** C6. Acknowledging an alert that exists returns it acknowledged and
    read, with the actor and the acknowledgment time recorded and every other
    column kept, and stores it so; an unknown alert id fails with NotFound
    and changes nothing. Acknowledging again never fails: it returns the same
    alert with only the acknowledger and the time replaced by the latest
    caller's, and leaves the tables as a single acknowledgment by that caller
    would. *)
Theorem acknowledge_alert_contract (alertId : Z) (actor : string)
    (now : datetime) (db : Database) :
  let out := AcknowledgeAlert alertId actor now db in
  (find (alert_has_id alertId) (alert_logs db) = None ->
   out = (db, NotFound)) /\
  (forall a,
     find (alert_has_id alertId) (alert_logs db) = Some a ->
     exists a',
       snd out = Acknowledged a' /\
       AlertLog.is_acknowledged a' = true /\
       AlertLog.is_read a' = true /\
       AlertLog.acknowledged_by a' = Some actor /\
       AlertLog.acknowledged_at a' = Some now /\
       AlertLog.id a' = Some alertId /\
       find (alert_has_id alertId) (alert_logs (fst out)) = Some a' /\
       forall actor2 now2,
         let again := AcknowledgeAlert alertId actor2 now2 (fst out) in
         exists a'',
           snd again = Acknowledged a'' /\
           same_but_acknowledger a' a'' /\
           AlertLog.acknowledged_by a'' = Some actor2 /\
           AlertLog.acknowledged_at a'' = Some now2 /\
           fst again = fst (AcknowledgeAlert alertId actor2 now2 db)).
Proof.
  cbv zeta. unfold AcknowledgeAlert. split.
  - intros ->. reflexivity.
  - intros a Ha. rewrite Ha. cbn [fst snd alert_logs].
    exists (acknowledge actor now a).
    assert (Hid : AlertLog.id a = Some alertId).
    { apply find_some in Ha as [_ Hid]. unfold alert_has_id in Hid.
      destruct (AlertLog.id a) as [k | ]; [ | discriminate].
      apply Z.eqb_eq in Hid. now subst k. }
    repeat (split; [first [reflexivity | exact Hid] | ]).
    split.
    { rewrite find_after_acknowledge, Ha. reflexivity. }
    intros actor2 now2.
    rewrite find_after_acknowledge, Ha. cbn [option_map fst snd].
    exists (acknowledge actor2 now2 (acknowledge actor now a)).
    split; [reflexivity | ].
    split; [repeat split | ].
    split; [reflexivity | ].
    split; [reflexivity | ].
    cbn [sensor_devices sensor_readings alert_logs monitoring_profiles
         patients].
    now rewrite acknowledge_last_writer.
Qed.

Lemma acknowledge_alert_contract_witness :
  snd (AcknowledgeAlert 2 "dr-lee" 2000 Sample.db_alerted) = NotFound /\
  exists a',
    snd (AcknowledgeAlert 1 "dr-lee" 2000 Sample.db_alerted)
      = Acknowledged a' /\
    AlertLog.is_read a' = true.
Proof.
  split.
  - rewrite (proj1 (acknowledge_alert_contract 2 "dr-lee" 2000
                      Sample.db_alerted) eq_refl). reflexivity.
  - destruct (proj2 (acknowledge_alert_contract 1 "dr-lee" 2000
                       Sample.db_alerted) Sample.fresh_alert eq_refl)
      as (a' & Hout & _ & Hread & _).
    exists a'. split; assumption.
Defined.

(* ================================================================= *)
(** ** More about classification *)

Lemma num_gt_int (a b : Z) : Py.num_gt (NInt a) (NInt b) = Z.ltb b a.
Proof.
  unfold Py.num_gt. cbn. rewrite !Z.mul_1_r.
  rewrite Z.ltb_compare, (Z.compare_antisym a b).
  destruct (Z.compare a b); reflexivity.
Qed.

Lemma num_lt_int (a b : Z) : Py.num_lt (NInt a) (NInt b) = Z.ltb a b.
Proof.
  unfold Py.num_lt. cbn. rewrite !Z.mul_1_r.
  rewrite Z.ltb_compare. destruct (Z.compare a b); reflexivity.
Qed.

Section MoreClassification.

Variable float_repr : Py.float -> string.

Local Abbreviation classify := (analyze_against float_repr).

(** X1. Integer readings against integer bounds: classification never
    fails, and it alerts exactly when the value is not zero and lies
    strictly above the upper bound or, for glucose and heart rate, strictly
    below the lower bound. A value equal to a bound does not alert, blood
    pressure has no lower bound, and reading types other than the three
    never alert. *)
Theorem integer_reading_alerts_iff_outside_band (thresholds : Py.value)
    (bp ghi glo hhi hlo : Z) (reading_type : string) (z : Z) :
  resolves_to thresholds
    (Spec.mkThresholdSet (NInt bp) (NInt ghi) (NInt glo) (NInt hhi)
       (NInt hlo)) ->
  exists a,
    classify thresholds reading_type (Some (NInt z)) = Ok a /\
    (is_alert_of a = true <->
     z <> 0 /\
     ((reading_type = "blood_pressure" /\ bp < z) \/
      (reading_type = "glucose" /\ (ghi < z \/ z < glo)) \/
      (reading_type = "heart_rate" /\ (hhi < z \/ z < hlo)))).
Proof.
  intros Hres.
  destruct (Z.eq_dec z 0) as [-> | Hz].
  { exists good. split; [now apply analyze_falsy_value | ].
    split; [discriminate | intros [H _]; now elim H]. }
  assert (Hv : Py.num_truthy (NInt z) = true).
  { cbn. now apply negb_true_iff, Z.eqb_neq. }
  eexists. split.
  { apply (analyze_truthy_matches_table float_repr _ _ _ _ Hres Hv). }
  unfold Spec.Classify, Spec.fired.
  cbn [Spec.systolic_max Spec.glucose_max Spec.glucose_min
       Spec.heart_rate_max Spec.heart_rate_min].
  rewrite !num_gt_int, !num_lt_int.
  destruct (String.eqb_spec reading_type "blood_pressure") as [-> | Nbp].
  { destruct (Z.ltb_spec bp z) as [L | L]; cbn; split; intros K;
      try discriminate; try reflexivity.
    - split; [assumption | left; now split].
    - destruct K as [_ [[_ K] | [[E _] | [E _]]]];
        [lia | discriminate E | discriminate E]. }
  destruct (String.eqb_spec reading_type "glucose") as [-> | Ngl].
  { destruct (Z.ltb_spec ghi z) as [L | L];
      [ | destruct (Z.ltb_spec z glo) as [L' | L']]; cbn;
      split; intros K; try discriminate; try reflexivity.
    - split; [assumption | right; left; split; [reflexivity | now left]].
    - split; [assumption | right; left; split; [reflexivity | now right]].
    - destruct K as [_ [[E _] | [[_ K] | [E _]]]];
        [discriminate E | lia | discriminate E]. }
  destruct (String.eqb_spec reading_type "heart_rate") as [-> | Nhr].
  { destruct (Z.ltb_spec hhi z) as [L | L];
      [ | destruct (Z.ltb_spec z hlo) as [L' | L']]; cbn;
      split; intros K; try discriminate; try reflexivity.
    - split; [assumption | right; right; split; [reflexivity | now left]].
    - split; [assumption | right; right; split; [reflexivity | now right]].
    - destruct K as [_ [[E _] | [[E _] | [_ K]]]];
        [discriminate E | discriminate E | lia]. }
  cbn. split; [discriminate | ].
  intros [_ [[E _] | [[E _] | [E _]]]]; contradiction.
Qed.

(** X2. A NaN reading never alerts: for every reading type and every
    thresholds document whose five bounds are numbers, a value of NaN is
    classified good (every ordered comparison with NaN is false). *)
Theorem nan_reading_never_alerts (thresholds : Py.value)
    (t : Spec.ThresholdSet) (reading_type : string) :
  resolves_to thresholds t ->
  classify thresholds reading_type (Some (NFloat S754_nan)) = Ok good.
Proof.
  intros Hres.
  rewrite (analyze_truthy_matches_table float_repr _ t) by
      (assumption || reflexivity).
  unfold Spec.Classify, Spec.fired, Py.num_gt, Py.num_lt. cbn.
  repeat match goal with
         | |- context [String.eqb reading_type ?k] =>
             destruct (String.eqb reading_type k)
         end; reflexivity.
Qed.

End MoreClassification.

Lemma default_thresholds_resolve :
  resolves_to default_thresholds Spec.defaults.
Proof. repeat split. Qed.

Lemma integer_reading_alerts_iff_outside_band_witness :
  exists a,
    analyze_against Sample.float_repr default_thresholds "glucose"
      (Some (NInt 140)) = Ok a /\
    is_alert_of a = false.
Proof.
  destruct (integer_reading_alerts_iff_outside_band Sample.float_repr
              default_thresholds 140 140 70 100 60 "glucose" 140
              default_thresholds_resolve) as (a & Ha & Hiff).
  exists a. split; [exact Ha | ].
  destruct (is_alert_of a); [ | reflexivity].
  destruct (proj1 Hiff eq_refl) as [_ [[E _] | [[_ H] | [E _]]]];
    [discriminate E | lia | discriminate E].
Defined.

Lemma nan_reading_never_alerts_witness :
  analyze_against Sample.float_repr default_thresholds "heart_rate"
    (Some (NFloat S754_nan)) = Ok good.
Proof.
  apply (nan_reading_never_alerts Sample.float_repr default_thresholds
           Spec.defaults "heart_rate" default_thresholds_resolve).
Defined.

(* ================================================================= *)
(** ** When classification fails *)

Section ClassificationErrors.

Variable float_repr : Py.float -> string.
Variable exn_str : exn -> string.
Variable env : Env.

Local Abbreviation classify := (analyze_against float_repr).
Local Abbreviation post := (post_readings float_repr exn_str env).

Lemma threshold_not_a_map (thresholds : Py.value) (reading_type key : string)
    (d : Z) :
  (forall m, thresholds <> Dict m) ->
  threshold thresholds reading_type key d = Raise AttributeError.
Proof.
  intros H. destruct thresholds; try reflexivity. now elim (H d0).
Qed.

Lemma classify_not_a_map (thresholds : Py.value) (reading_type : string)
    (value : option Py.num) :
  (forall m, thresholds <> Dict m) ->
  classify thresholds reading_type value
    = if evaluated reading_type value then Raise AttributeError else Ok good.
Proof.
  intros H. unfold analyze_against, evaluated.
  destruct value as [v | ]; [ | now rewrite andb_false_r].
  cbn [Py.opt_truthy].
  destruct (Py.num_truthy v); [ | now rewrite !andb_false_r].
  rewrite !andb_true_r.
  destruct (String.eqb reading_type "blood_pressure");
    [now rewrite threshold_not_a_map | ].
  destruct (String.eqb reading_type "glucose");
    [now rewrite threshold_not_a_map | ].
  destruct (String.eqb reading_type "heart_rate");
    [now rewrite threshold_not_a_map | reflexivity].
Qed.

(** X3. A profile whose thresholds document is not a map (for instance JSON
    null, a list or a number) makes classification raise [AttributeError]
    for exactly the readings that reach a branch, that is a truthy value of
    type blood_pressure, glucose or heart_rate; every other reading is
    classified good. At the endpoint such a reading is answered 500 and
    nothing is written. *)
Theorem malformed_profile_fails_evaluated_readings
    (reading : SensorReadingCreate.t) (db : Database)
    (device : SensorDevice.t) (p : PatientMonitoringProfile.t)
    (nv : option Py.num) :
  (forall m, PatientMonitoringProfile.thresholds p <> Dict m) ->
  profile_of (SensorDevice.patient_id device) db = Some p ->
  (forall reading_type value,
     classify (PatientMonitoringProfile.thresholds p) reading_type value
       = if evaluated reading_type value
         then Raise AttributeError else Ok good) /\
  (store_fails env QueryDevice = false ->
   store_fails env QueryProfile = false ->
   device_by_device_id (SensorReadingCreate.device_id reading) db
     = Some device ->
   SensorDevice.is_active device = true ->
   extract_numeric_value reading = Ok nv ->
   evaluated (SensorReadingCreate.reading_type reading) nv = true ->
   post reading db
     = (db, ErrorResponse 500
              ("Error creating reading: " ++ exn_str AttributeError))).
Proof.
  intros Hbad Hp. split.
  - intros. now apply classify_not_a_map.
  - intros Hq Hqp Hd Ha He Hev.
    rewrite (analysis_failure_leaves_store float_repr exn_str env reading db
               device Hq Hd Ha nv AttributeError He Hqp); [reflexivity | ].
    rewrite Hp. cbn [thresholds_of].
    rewrite classify_not_a_map by assumption. now rewrite Hev.
Qed.

(** X4. A bound that is not a number (for instance [null] or a string
    stored under [max]) makes every truthy reading of its type raise
    [TypeError]: the reading is answered 500 and nothing is written. *)
Theorem non_numeric_bound_fails_reading (reading : SensorReadingCreate.t)
    (db : Database) (device : SensorDevice.t) (v : Py.num) (x : Py.value) :
  let reading_type := SensorReadingCreate.reading_type reading in
  let thresholds :=
    thresholds_of (profile_of (SensorDevice.patient_id device) db) in
  store_fails env QueryDevice = false ->
  store_fails env QueryProfile = false ->
  device_by_device_id (SensorReadingCreate.device_id reading) db
    = Some device ->
  SensorDevice.is_active device = true ->
  extract_numeric_value reading = Ok (Some v) ->
  evaluated reading_type (Some v) = true ->
  upper_bound thresholds reading_type = Ok x ->
  Py.as_num x = None ->
  classify thresholds reading_type (Some v) = Raise TypeError /\
  post reading db
    = (db, ErrorResponse 500
             ("Error creating reading: " ++ exn_str TypeError)).
Proof.
  intros reading_type thresholds Hq Hqp Hd Ha He Hev Hub Hx.
  assert (Hraise : classify thresholds reading_type (Some v)
                   = Raise TypeError).
  { unfold evaluated in Hev. apply andb_true_iff in Hev as [Hty Hv].
    cbn [Py.opt_truthy] in Hv.
    unfold analyze_against, upper_bound in *. rewrite Hv, !andb_true_r.
    destruct (String.eqb reading_type "blood_pressure").
    { rewrite Hub. cbn [rbind]. unfold Py.gt. now rewrite Hx. }
    destruct (String.eqb reading_type "glucose").
    { rewrite Hub. cbn [rbind]. unfold Py.gt. now rewrite Hx. }
    cbn [orb] in Hty. rewrite Hty, Hub. cbn [rbind]. unfold Py.gt.
    now rewrite Hx. }
  split; [exact Hraise | ].
  now rewrite (analysis_failure_leaves_store float_repr exn_str env reading db
                 device Hq Hd Ha (Some v) TypeError He Hqp).
Qed.

End ClassificationErrors.

(* ================================================================= *)
(** ** More about ingestion *)

Lemma extraction_raises_overflow_only (reading : SensorReadingCreate.t)
    (e : exn) :
  extract_numeric_value reading = Raise e -> e = OverflowError.
Proof.
  unfold extract_numeric_value.
  destruct (Py.as_num (Py.get (SensorReadingCreate.reading_data reading)
                         "value")); [discriminate | ].
  destruct (String.eqb (SensorReadingCreate.reading_type reading)
              "blood_pressure"); [ | discriminate].
  destruct (Py.as_num (Py.get (SensorReadingCreate.reading_data reading)
                         "systolic")) as [n | ]; [ | discriminate].
  unfold Py.to_float, Py.float_of_Z.
  destruct n as [b | z | f]; cbn [rbind];
    repeat match goal with
           | |- context [match ?x with _ => _ end] => destruct x
           end; cbn [rbind]; congruence.
Qed.

Lemma find_map_invariant {A : Type} (p : A -> bool) (f : A -> A)
    (l : list A) :
  (forall x, p (f x) = p x) ->
  find p (map f l) = option_map f (find p l).
Proof.
  intros H. induction l as [ | x l IH]; [reflexivity | ].
  cbn [map find]. rewrite H. destruct (p x); [reflexivity | exact IH].
Qed.

Lemma touch_keeps_identity (pk : option Z) (ts : datetime)
    (d : SensorDevice.t) :
  device_identity (SensorDevice.touch pk ts d) = device_identity d.
Proof.
  unfold SensorDevice.touch.
  destruct pk as [k | ]; [ | reflexivity].
  destruct (SensorDevice.id d) as [k' | ]; [ | reflexivity].
  destruct (Z.eqb k k'); reflexivity.
Qed.

Lemma touch_keeps_device_id (pk : option Z) (ts : datetime)
    (d : SensorDevice.t) :
  SensorDevice.device_id (SensorDevice.touch pk ts d)
    = SensorDevice.device_id d.
Proof.
  change (SensorDevice.device_id (device_identity (SensorDevice.touch pk ts d))
          = SensorDevice.device_id (device_identity d)).
  now rewrite touch_keeps_identity.
Qed.

Section IngestionProperties.

Variable float_repr : Py.float -> string.
Variable exn_str : exn -> string.
Variable env : Env.

Local Abbreviation post := (post_readings float_repr exn_str env).
Local Abbreviation classify := (analyze_against float_repr).

(** X5. Ingestion only appends. Whatever the request and whichever store
    calls fail, the readings and alerts already stored are kept unchanged
    and in place, with at most one row added to each table; profiles and
    patients are untouched; and no device is added, removed or changed in
    any column other than [last_sync]. *)
Theorem ingestion_is_append_only (reading : SensorReadingCreate.t)
    (db : Database) :
  let db' := fst (post reading db) in
  (exists l, sensor_readings db' = (sensor_readings db ++ l)%list /\
             (List.length l <= 1)%nat) /\
  (exists l, alert_logs db' = (alert_logs db ++ l)%list /\
             (List.length l <= 1)%nat) /\
  monitoring_profiles db' = monitoring_profiles db /\
  patients db' = patients db /\
  map device_identity (sensor_devices db')
    = map device_identity (sensor_devices db).
Proof.
  cbv zeta.
  destruct (ingestion_cases float_repr exn_str env reading db)
    as [(answer & Hrun & _)
       | (device & nv & a & x & u & Hq & Hd & Ha & He & Hp & Han & Hc & Hk)].
  - rewrite Hrun. cbn [fst].
    repeat split; try (exists []; rewrite app_nil_r; split;
                       [reflexivity | cbn; lia]).
  - rewrite (accepted_request_commits float_repr exn_str env reading db
               device Hq Hd Ha nv a x u He Hp Han Hc Hk).
    unfold after_ingest.
    cbn [fst sensor_readings alert_logs monitoring_profiles patients
         sensor_devices].
    split; [eexists; split; [reflexivity | cbn; lia] | ].
    split.
    { eexists; split; [reflexivity | ].
      destruct (SensorReading.is_alert _); cbn; lia. }
    repeat split.
    rewrite map_map. apply map_ext. intros d. apply touch_keeps_identity.
Qed.

(** X6. The stamps of an accepted reading. For a reading that is committed
    (its values can be bound to their columns), the stored reading carries
    the caller's timestamp if one was sent and the first clock read
    otherwise; looking the device up again afterwards returns it with
    [last_sync] set to the last clock read of the request, whether or not
    the reading alerted; and if the clock does not run backwards, a
    server-stamped reading is not later than its alert stamp, which is not
    later than the new [last_sync]. *)
Theorem accepted_ingestion_stamps (reading : SensorReadingCreate.t)
    (db : Database) (device : SensorDevice.t) (nv x : option Py.num)
    (u : Py.value) (a : analysis) (k : Z) :
  store_fails env QueryDevice = false ->
  device_by_device_id (SensorReadingCreate.device_id reading) db
    = Some device ->
  SensorDevice.is_active device = true ->
  extract_numeric_value reading = Ok nv ->
  store_fails env QueryProfile = false ->
  classify (thresholds_of (profile_of (SensorDevice.patient_id device) db))
    (SensorReadingCreate.reading_type reading) nv = Ok a ->
  store_fails env (Commit 0) = false ->
  kept env reading nv = Ok (x, u) ->
  SensorDevice.id device = Some k ->
  let db' := fst (post reading db) in
  let synced := sync_instant env reading (is_alert_of a) in
  (exists r,
     sensor_readings db' = (sensor_readings db ++ [r])%list /\
     SensorReading.reading_timestamp r
       = match SensorReadingCreate.reading_timestamp reading with
         | Some ts => ts
         | None => utcnow_at env 0
         end) /\
  device_by_device_id (SensorReadingCreate.device_id reading) db'
    = Some (SensorDevice.with_last_sync synced device) /\
  (clock_monotone env ->
   SensorReadingCreate.reading_timestamp reading = None ->
   utcnow_at env 0 <= alert_instant env reading /\
   alert_instant env reading <= synced).
Proof.
  intros Hq Hd Ha He Hp Han Hc Hkept Hk. cbv zeta.
  rewrite (accepted_request_commits float_repr exn_str env reading db
             device Hq Hd Ha nv a x u He Hp Han Hc Hkept).
  unfold after_ingest. cbn [fst sensor_readings sensor_devices].
  split; [ | split ].
  - eexists. split; [reflexivity | ].
    destruct a as [[[q ia] sev] msg]. reflexivity.
  - unfold device_by_device_id in *. cbn [sensor_devices].
    rewrite find_map_invariant
      by (intros d; now rewrite touch_keeps_device_id).
    rewrite Hd. cbn [option_map]. f_equal.
    unfold SensorDevice.touch. rewrite Hk, Z.eqb_refl. reflexivity.
  - intros Hmono Hnone.
    unfold alert_instant, sync_instant, reads_for_timestamp.
    rewrite Hnone. split; apply Hmono; lia.
Qed.

(** X7. A reading that cannot be summarised is stored all the same. When
    the store keeps no number for the reading (the payload yields none, or
    yields NaN) or no unit (none was sent for a type other than
    blood_pressure, or NaN was sent), an otherwise accepted request commits
    the reading (its alert and the device's last contact with it) and is
    then answered 500, although no store call failed. *)
Theorem unsummarisable_reading_is_committed_then_500
    (reading : SensorReadingCreate.t) (db : Database)
    (device : SensorDevice.t) (nv x : option Py.num) (u : Py.value)
    (a : analysis) :
  store_up env ->
  device_by_device_id (SensorReadingCreate.device_id reading) db
    = Some device ->
  SensorDevice.is_active device = true ->
  extract_numeric_value reading = Ok nv ->
  classify (thresholds_of (profile_of (SensorDevice.patient_id device) db))
    (SensorReadingCreate.reading_type reading) nv = Ok a ->
  kept env reading nv = Ok (x, u) ->
  x = None \/ u = None_ ->
  let out := post reading db in
  snd out = ErrorResponse 500
              ("Error creating reading: " ++ exn_str ValidationError) /\
  exists r,
    sensor_readings (fst out) = (sensor_readings db ++ [r])%list /\
    SensorReading.numeric_value r = x /\
    SensorReading.unit r = u /\
    alert_fields r = a.
Proof.
  intros Hup Hd Ha He Han Hk Hbad. cbv zeta.
  rewrite (accepted_request_commits float_repr exn_str env reading db
             device (Hup QueryDevice) Hd Ha nv a x u He (Hup QueryProfile)
             Han (Hup (Commit 0)) Hk).
  rewrite (Hup Refresh). unfold after_ingest. cbn [fst snd sensor_readings].
  split.
  - destruct a as [[[q ia] sev] msg].
    unfold summary, stored_reading, SensorReadingResponse.validate.
    cbn [SensorReading.id SensorReading.numeric_value SensorReading.unit].
    destruct Hbad as [-> | ->]; [reflexivity | ].
    destruct x as [n | ]; reflexivity.
  - eexists. split; [reflexivity | ].
    destruct a as [[[q ia] sev] msg]. repeat split.
Qed.

(** X8. A systolic value too large for a float is refused without a trace.
    For a blood_pressure reading without a numeric [value] whose [systolic]
    is an integer that [float] cannot represent, extraction raises
    [OverflowError]; the request is answered 500 and nothing is written. *)
Theorem oversized_systolic_is_refused (reading : SensorReadingCreate.t)
    (db : Database) (device : SensorDevice.t) (z : Z) :
  store_fails env QueryDevice = false ->
  device_by_device_id (SensorReadingCreate.device_id reading) db
    = Some device ->
  SensorDevice.is_active device = true ->
  SensorReadingCreate.reading_type reading = "blood_pressure" ->
  Py.as_num (Py.get (SensorReadingCreate.reading_data reading) "value")
    = None ->
  Py.get (SensorReadingCreate.reading_data reading) "systolic" = Int z ->
  Py.float_of_Z z = Raise OverflowError ->
  post reading db
    = (db, ErrorResponse 500
             ("Error creating reading: " ++ exn_str OverflowError)).
Proof.
  intros Hq Hd Ha Hty Hval Hsys Hover.
  apply (extraction_failure_leaves_store float_repr exn_str env reading db
           device Hq Hd Ha OverflowError).
  unfold extract_numeric_value. rewrite Hval, Hty, Hsys.
  cbn [String.eqb Ascii.eqb Bool.eqb Py.as_num Py.to_float].
  rewrite Hover. reflexivity.
Qed.

(** X24. A reading that cannot be bound to its columns is refused without a
    trace. When the number extracted for the reading is an integer beyond
    the range of a float, or its unit is a list, a map or an integer beyond
    64 bits, the commit raises while binding the INSERT: the request is
    answered 500 and no reading, alert or last-contact update is written,
    although the device was accepted and classification succeeded. *)
Theorem unbindable_reading_is_refused (reading : SensorReadingCreate.t)
    (db : Database) (device : SensorDevice.t) (nv : option Py.num)
    (a : analysis) :
  store_fails env QueryDevice = false ->
  device_by_device_id (SensorReadingCreate.device_id reading) db
    = Some device ->
  SensorDevice.is_active device = true ->
  extract_numeric_value reading = Ok nv ->
  store_fails env QueryProfile = false ->
  classify (thresholds_of (profile_of (SensorDevice.patient_id device) db))
    (SensorReadingCreate.reading_type reading) nv = Ok a ->
  store_fails env (Commit 0) = false ->
  (exists z, nv = Some (NInt z) /\ Py.float_of_Z z = Raise OverflowError) \/
  (exists l, extract_unit reading = List l) \/
  (exists d, extract_unit reading = Dict d) \/
  (exists z, extract_unit reading = Int z /\ int64 z = false) ->
  exists e,
    kept env reading nv = Raise e /\
    post reading db
      = (db, ErrorResponse 500 ("Error creating reading: " ++ exn_str e)).
Proof.
  intros Hq Hd Ha He Hp Han Hc Hbad.
  assert (Hk : exists e, kept env reading nv = Raise e /\
                         (e = StatementError \/ e = OverflowError)).
  { destruct (kept env reading nv) as [[x u] | e] eqn:Hk.
    - exfalso. unfold kept, float_column, string_column in Hk.
      destruct Hbad as [(z & -> & Hz) | [(l & Hu) | [(d & Hu) | (z & Hu & Hz)]]].
      + cbn [Py.to_float] in Hk. rewrite Hz in Hk. discriminate.
      + rewrite Hu in Hk.
        destruct nv as [n | ]; [destruct (Py.to_float n) | ];
          discriminate.
      + rewrite Hu in Hk.
        destruct nv as [n | ]; [destruct (Py.to_float n) | ];
          discriminate.
      + rewrite Hu, Hz in Hk.
        destruct nv as [n | ]; [destruct (Py.to_float n) | ];
          discriminate.
    - exists e. split; [reflexivity | ].
      now apply (kept_raises env reading nv). }
  destruct Hk as (e & Hk & Hcls). exists e. split; [exact Hk | ].
  rewrite (binding_failure_leaves_store float_repr exn_str env reading db
             device Hq Hd Ha nv a e He Hp Han Hc Hk).
  destruct Hcls as [-> | ->]; reflexivity.
Qed.

End IngestionProperties.

(* ================================================================= *)
(** ** More about registration *)

Lemma device_lookup_none_iff (device_id : string) (db : Database) :
  device_by_device_id device_id db = None <->
  ~ In device_id (map SensorDevice.device_id (sensor_devices db)).
Proof.
  unfold device_by_device_id. split.
  - intros Hnone Hin. apply in_map_iff in Hin as (d & Hid & Hd).
    apply (find_none _ _ Hnone) in Hd. rewrite Hid, String.eqb_refl in Hd.
    discriminate.
  - intros Hnot.
    destruct (find _ (sensor_devices db)) as [d | ] eqn:Hf; [ | reflexivity].
    apply find_some in Hf as [Hin Heq]. apply String.eqb_eq in Heq.
    elim Hnot. apply in_map_iff. now exists d.
Qed.

Lemma device_lookup_after_append (device_id : string) (db : Database)
    (row : SensorDevice.t) :
  device_by_device_id device_id db = None ->
  SensorDevice.device_id row = device_id ->
  device_by_device_id device_id (after_registration db row) = Some row.
Proof.
  unfold device_by_device_id, after_registration. cbn [sensor_devices].
  intros Hnone Hid.
  induction (sensor_devices db) as [ | d l IH]; cbn [find app] in *.
  - now rewrite Hid, String.eqb_refl.
  - destruct (String.eqb (SensorDevice.device_id d) device_id);
      [discriminate | now apply IH].
Qed.

Section RegistrationRuns.

Variable env : Env.

Ltac run_register :=
  unfold post_devices, serve, register_device, refresh_device, bind, query,
    lift, raise, ret, utcnow, add, commit, begin;
  cbv beta iota zeta; cbn [store pending clock_reads commits app].

Ltac register_step H :=
  rewrite H; cbv beta iota zeta;
  cbn [store pending clock_reads commits app flush flush_op rbind];
  cbv beta iota zeta; cbn [store pending clock_reads commits].

(** The body returned for the row a registration writes. *)
Lemma registration_succeeds (device : DeviceRegistration.t) (db : Database)
    (k : Z) :
  store_up env ->
  device_by_device_id (DeviceRegistration.device_id device) db = None ->
  find (Z.eqb (DeviceRegistration.patient_id device)) (patients db)
    = Some k ->
  exists body,
    device_response (registered_row env db device) = Ok body /\
    post_devices env device db
      = (after_registration db (registered_row env db device),
         Response 200 body).
Proof.
  intros Hup Hk Hf. eexists. split; [reflexivity | ].
  run_register. register_step (Hup QueryDevice). register_step Hk.
  register_step (Hup QueryPatient). register_step Hf.
  register_step (Hup (Commit 0)). register_step (Hup Refresh).
  cbn [sensor_devices]. rewrite last_last.
  reflexivity.
Qed.

(** A registration either leaves the tables alone and answers an error, or
    appends the one row for a device id that was not there. *)
Lemma registration_cases (device : DeviceRegistration.t) (db : Database) :
  (fst (post_devices env device db) = db /\
   forall c body, snd (post_devices env device db) <> Response c body) \/
  (device_by_device_id (DeviceRegistration.device_id device) db = None /\
   fst (post_devices env device db)
     = after_registration db (registered_row env db device)).
Proof.
  run_register.
  destruct (store_fails env QueryDevice); [left; split; easy | ].
  cbv beta iota zeta. cbn [store].
  destruct (device_by_device_id (DeviceRegistration.device_id device) db)
    eqn:Hk; [left; split; easy | ].
  cbv beta iota zeta. cbn [store].
  destruct (store_fails env QueryPatient); [left; split; easy | ].
  cbv beta iota zeta. cbn [store].
  destruct (find (Z.eqb (DeviceRegistration.patient_id device)) (patients db));
    [ | left; split; easy].
  cbv beta iota zeta. cbn [store pending clock_reads commits app].
  destruct (store_fails env (Commit 0)); [left; split; easy | ].
  cbn [flush flush_op rbind]. cbv beta iota zeta.
  cbn [store pending clock_reads commits app].
  right. split; [reflexivity | ].
  destruct (store_fails env Refresh); reflexivity.
Qed.

(** X9. Registration keeps device ids unique. If no two stored devices
    share a [device_id], the same holds after any registration request,
    whatever store calls fail: the duplicate check of the handler does not
    rely on the column's unique constraint. *)
Theorem registration_keeps_device_ids_unique (device : DeviceRegistration.t)
    (db : Database) :
  device_ids_unique db ->
  device_ids_unique (fst (post_devices env device db)).
Proof.
  intros Huniq.
  destruct (registration_cases device db) as [[-> _] | [Hnone ->]];
    [assumption | ].
  unfold device_ids_unique, after_registration in *. cbn [sensor_devices].
  rewrite map_app. cbn [map].
  apply (Permutation_NoDup
           (l := DeviceRegistration.device_id device
                 :: map SensorDevice.device_id (sensor_devices db))).
  - apply Permutation_cons_append.
  - constructor; [now apply device_lookup_none_iff | assumption].
Qed.

(** X10. Registering the same device id again is refused. After a
    registration that succeeded, any further registration under the same
    [device_id] (for whatever patient) is answered 400 "Device already
    registered" and changes nothing, as long as its device lookup itself
    works. *)
Theorem second_registration_is_refused (first second : DeviceRegistration.t)
    (db : Database) (env2 : Env) :
  store_up env ->
  device_by_device_id (DeviceRegistration.device_id first) db = None ->
  In (DeviceRegistration.patient_id first) (patients db) ->
  DeviceRegistration.device_id second = DeviceRegistration.device_id first ->
  store_fails env2 QueryDevice = false ->
  let db1 := fst (post_devices env first db) in
  post_devices env2 second db1
    = (db1, ErrorResponse 400 "Device already registered").
Proof.
  intros Hup Hnone Hin Hsame Hq2. cbv zeta.
  assert (Hf : exists k, find (Z.eqb (DeviceRegistration.patient_id first))
                           (patients db) = Some k).
  { destruct (find _ (patients db)) as [k | ] eqn:Hf; [now exists k | ].
    apply (find_none _ _ Hf) in Hin. rewrite Z.eqb_refl in Hin.
    discriminate. }
  destruct Hf as [k Hf].
  destruct (registration_succeeds first db k Hup Hnone Hf)
    as (body & _ & Hrun).
  rewrite Hrun. cbn [fst].
  unfold post_devices, serve, register_device, bind, query, raise, begin.
  cbv beta iota zeta. cbn [store]. rewrite Hq2. cbv beta iota zeta.
  cbn [store]. rewrite Hsame.
  rewrite (device_lookup_after_append (DeviceRegistration.device_id first) db
             (registered_row env db first) Hnone eq_refl).
  reflexivity.
Qed.

End RegistrationRuns.

Lemma threshold_raises_attribute_error (thresholds : Py.value)
    (reading_type key : string) (d : Z) (e : exn) :
  threshold thresholds reading_type key d = Raise e -> e = AttributeError.
Proof.
  unfold threshold, Py.get_or.
  destruct thresholds; cbn [rbind]; try congruence.
  match goal with
  | |- context [match ?x with Some _ => _ | None => _ end] => destruct x
  end; [ | discriminate].
  match goal with
  | |- (match ?x with Dict _ => _ | _ => _ end) = _ -> _ => destruct x
  end; congruence.
Qed.

Lemma comparison_raises_type_error (v : Py.num) (x : Py.value) (e : exn) :
  Py.gt v x = Raise e \/ Py.lt v x = Raise e -> e = TypeError.
Proof.
  unfold Py.gt, Py.lt. destruct (Py.as_num x); intros [H | H]; congruence.
Qed.

Lemma classification_raises_python_errors (float_repr : Py.float -> string)
    (thresholds : Py.value) (reading_type : string) (value : option Py.num)
    (e : exn) :
  analyze_against float_repr thresholds reading_type value = Raise e ->
  e = AttributeError \/ e = TypeError.
Proof.
  unfold analyze_against.
  destruct value as [v | ]; [ | discriminate].
  repeat match goal with
         | |- context [if ?c && Py.num_truthy v then _ else _] =>
             destruct (c && Py.num_truthy v)
         | |- rbind (threshold ?t ?r ?k ?d) _ = _ -> _ =>
             let E := fresh "E" in
             destruct (threshold t r k d) eqn:E; cbn [rbind];
             [ | intros [= <-]; left;
                 now apply threshold_raises_attribute_error in E ]
         | |- rbind (Py.gt ?a ?b) _ = _ -> _ =>
             let E := fresh "E" in
             destruct (Py.gt a b) eqn:E; cbn [rbind];
             [ | intros [= <-]; right;
                 apply (comparison_raises_type_error a b); now left ]
         | |- rbind (Py.lt ?a ?b) _ = _ -> _ =>
             let E := fresh "E" in
             destruct (Py.lt a b) eqn:E; cbn [rbind];
             [ | intros [= <-]; right;
                 apply (comparison_raises_type_error a b); now right ]
         | |- (if ?c then _ else _) = _ -> _ => destruct c
         end; discriminate.
Qed.

Section AnswerCodes.

Variable float_repr : Py.float -> string.
Variable exn_str : exn -> string.
Variable env : Env.

Local Abbreviation post := (post_readings float_repr exn_str env).

(** The answers an active device can get: 200, or 500. *)
Lemma active_device_answers_200_or_500 (reading : SensorReadingCreate.t)
    (db : Database) (device : SensorDevice.t) :
  device_by_device_id (SensorReadingCreate.device_id reading) db
    = Some device ->
  SensorDevice.is_active device = true ->
  (exists body, snd (post reading db) = Response 200 body) \/
  (exists detail, snd (post reading db) = ErrorResponse 500 detail).
Proof.
  intros Hd Ha.
  destruct (store_fails env QueryDevice) eqn:Hq.
  { right. rewrite lookup_failure_leaves_store by assumption. now eexists. }
  destruct (extract_numeric_value reading) as [nv | e] eqn:He.
  2: { right. rewrite (extraction_failure_leaves_store float_repr exn_str env
                         reading db device Hq Hd Ha e He).
       apply extraction_raises_overflow_only in He as ->. now eexists. }
  destruct (store_fails env QueryProfile) eqn:Hp.
  { right. rewrite (profile_failure_leaves_store float_repr exn_str env
                      reading db device Hq Hd Ha nv He Hp). now eexists. }
  destruct (analyze_against float_repr
              (thresholds_of (profile_of (SensorDevice.patient_id device) db))
              (SensorReadingCreate.reading_type reading) nv)
    as [a | e] eqn:Han.
  2: { right. rewrite (analysis_failure_leaves_store float_repr exn_str env
                         reading db device Hq Hd Ha nv e He Hp Han).
       apply classification_raises_python_errors in Han as [-> | ->];
         now eexists. }
  destruct (store_fails env (Commit 0)) eqn:Hc.
  { right. rewrite (commit_failure_leaves_store float_repr exn_str env
                      reading db device Hq Hd Ha nv a He Hp Han Hc).
    now eexists. }
  destruct (kept env reading nv) as [[x u] | e] eqn:Hk.
  2: { right. rewrite (binding_failure_leaves_store float_repr exn_str env
                         reading db device Hq Hd Ha nv a e He Hp Han Hc Hk).
       apply kept_raises in Hk as [-> | ->]; now eexists. }
  rewrite (accepted_request_commits float_repr exn_str env reading db
             device Hq Hd Ha nv a x u He Hp Han Hc Hk).
  cbn [snd].
  destruct (store_fails env Refresh); [right; now eexists | ].
  destruct (summary device _) as [body | e] eqn:Hs; [left; now eexists | ].
  right. unfold summary, SensorReadingResponse.validate in Hs.
  repeat match type of Hs with
         | match ?x with _ => _ end = _ => destruct x
         end; try discriminate; injection Hs as <-; now eexists.
Qed.

(** X11. A registered device is accepted at once. After a registration
    that succeeded, a reading sent under the new [device_id] is never
    answered 404 or 400: the device is found and active, so the answer is
    200 or, on a failure, 500. *)
Theorem registered_device_accepts_readings (device : DeviceRegistration.t)
    (reading : SensorReadingCreate.t) (db : Database) (env1 : Env) :
  store_up env1 ->
  device_by_device_id (DeviceRegistration.device_id device) db = None ->
  In (DeviceRegistration.patient_id device) (patients db) ->
  SensorReadingCreate.device_id reading
    = DeviceRegistration.device_id device ->
  let db1 := fst (post_devices env1 device db) in
  (exists row,
     device_by_device_id (SensorReadingCreate.device_id reading) db1
       = Some row /\
     SensorDevice.is_active row = true /\
     SensorDevice.patient_id row = DeviceRegistration.patient_id device) /\
  ((exists body, snd (post reading db1) = Response 200 body) \/
   (exists detail, snd (post reading db1) = ErrorResponse 500 detail)).
Proof.
  intros Hup Hnone Hin Hsame. cbv zeta.
  assert (Hf : exists k, find (Z.eqb (DeviceRegistration.patient_id device))
                           (patients db) = Some k).
  { destruct (find _ (patients db)) as [k | ] eqn:Hf; [now exists k | ].
    apply (find_none _ _ Hf) in Hin. rewrite Z.eqb_refl in Hin.
    discriminate. }
  destruct Hf as [k Hf].
  destruct (registration_succeeds env1 device db k Hup Hnone Hf)
    as (body & _ & Hrun).
  rewrite Hrun. cbn [fst]. rewrite Hsame.
  pose proof (device_lookup_after_append (DeviceRegistration.device_id device)
                db (registered_row env1 db device) Hnone eq_refl) as Hfound.
  split.
  - exists (registered_row env1 db device). repeat split. exact Hfound.
  - apply active_device_answers_200_or_500
      with (device := registered_row env1 db device);
      [now rewrite Hsame | reflexivity].
Qed.

End AnswerCodes.

(* ================================================================= *)
(** ** Ordering, limits and collected lists *)

Lemma in_firstn {A : Type} (n : nat) (l : list A) (x : A) :
  In x (firstn n l) -> In x l.
Proof.
  revert n. induction l as [ | y l IH]; intros [ | n]; cbn [firstn];
    try contradiction.
  intros [-> | Hin]; [now left | right; now apply (IH n)].
Qed.

Section Ordering.

Context {A : Type}.
Variable key : A -> Z.

(** [y] is not newer than [x]. *)
Local Abbreviation not_newer := (fun x y : A => key y <= key x).

Lemma insert_desc_perm (x : A) (l : list A) :
  Permutation (insert_desc key x l) (x :: l).
Proof.
  induction l as [ | y l IH]; cbn [insert_desc]; [reflexivity | ].
  destruct (Z.ltb (key x) (key y)); [ | reflexivity].
  rewrite IH. apply perm_swap.
Qed.

Lemma table_order_desc_perm (l : list A) :
  Permutation (table_order_desc A key l) l.
Proof.
  induction l as [ | x l IH]; cbn [table_order_desc]; [reflexivity | ].
  rewrite insert_desc_perm. now constructor.
Qed.

Lemma insert_desc_sorted (x : A) (l : list A) :
  StronglySorted not_newer l ->
  StronglySorted not_newer (insert_desc key x l).
Proof.
  induction 1 as [ | y l Hs IH Hall]; cbn [insert_desc].
  - repeat constructor.
  - destruct (Z.ltb_spec (key x) (key y)) as [Hlt | Hge].
    + constructor; [exact IH | ].
      eapply Permutation_Forall.
      * symmetry. apply insert_desc_perm.
      * constructor; [lia | exact Hall].
    + constructor; [now constructor | ].
      constructor; [exact Hge | ].
      eapply Forall_impl; [ | exact Hall]. cbn. intros; lia.
Qed.

Lemma table_order_desc_sorted (l : list A) :
  StronglySorted not_newer (table_order_desc A key l).
Proof.
  induction l as [ | x l IH]; cbn [table_order_desc]; [constructor | ].
  now apply insert_desc_sorted.
Qed.

Lemma firstn_sorted (n : nat) (l : list A) :
  StronglySorted not_newer l -> StronglySorted not_newer (firstn n l).
Proof.
  intros Hs. revert n.
  induction Hs as [ | x l Hs IH Hall]; intros [ | n]; cbn [firstn];
    try constructor.
  - apply IH.
  - apply Forall_forall. intros y Hy. apply in_firstn in Hy.
    now apply (proj1 (Forall_forall _ _) Hall).
Qed.

(** What a limit cuts off is not newer than anything it keeps. *)
Lemma limit_keeps_newest (n : nat) (l : list A) (x y : A) :
  StronglySorted not_newer l ->
  In x (firstn n l) -> In y l -> ~ In y (firstn n l) -> key y <= key x.
Proof.
  intros Hs. revert n.
  induction Hs as [ | z l Hs IH Hall]; intros n Hx Hy Hout;
    [destruct Hy | ].
  destruct n as [ | n]; [destruct Hx | ]. cbn [firstn] in *.
  destruct Hy as [-> | Hy]; [elim Hout; now left | ].
  destruct Hx as [-> | Hx].
  - now apply (proj1 (Forall_forall _ _) Hall).
  - apply (IH n); try assumption. intros H. apply Hout. now right.
Qed.

Lemma limit_is_everything (n : nat) (l : list A) :
  (List.length l <= n)%nat -> firstn n l = l.
Proof. apply firstn_all2. Qed.

End Ordering.

(** Keeping ties in table order is one way of ordering newest first. *)
Lemma table_order_orders_desc : orders_desc table_order_desc.
Proof.
  intros A key l.
  split; [apply table_order_desc_perm | apply table_order_desc_sorted].
Qed.

(** A single matching row is listed as it is, whatever the store does with
    ties. *)
Lemma order_of_one (order_by_desc : ordering) {A : Type} (key : A -> Z)
    (x : A) :
  orders_desc order_by_desc -> order_by_desc A key [x] = [x].
Proof.
  intros H. destruct (H A key [x]) as [Hperm _].
  now apply Permutation_length_1_inv, Permutation_sym.
Qed.

Lemma collect_forall2 {A B : Type} (f : A -> result B) (l : list A)
    (ys : list B) :
  collect f l = Ok ys <-> Forall2 (fun x y => f x = Ok y) l ys.
Proof.
  revert ys. induction l as [ | x l IH]; intros ys; cbn [collect].
  - split; [intros [= <-]; constructor | now inversion 1].
  - split.
    + destruct (f x) as [y | ] eqn:Hx; cbn [rbind]; [ | discriminate].
      destruct (collect f l) as [ys' | ] eqn:Hl; cbn [rbind];
        [ | discriminate].
      intros [= <-]. constructor; [assumption | now apply IH].
    + inversion 1 as [ | ? y ? ys' Hx Hl]; subst.
      rewrite Hx. cbn [rbind]. apply IH in Hl. now rewrite Hl.
Qed.

Lemma collect_app {A B : Type} (f : A -> result B) (l1 l2 : list A)
    (ys1 ys2 : list B) :
  collect f l1 = Ok ys1 -> collect f l2 = Ok ys2 ->
  collect f (l1 ++ l2) = Ok (ys1 ++ ys2)%list.
Proof.
  rewrite !collect_forall2. apply Forall2_app.
Qed.

Lemma forall2_in_left {A B : Type} (R : A -> B -> Prop) (l : list A)
    (ys : list B) (x : A) :
  Forall2 R l ys -> In x l -> exists y, In y ys /\ R x y.
Proof.
  induction 1 as [ | a b l ys Hab Hl IH]; [intros [] | ].
  intros [-> | Hin]; [exists b; split; [now left | assumption] | ].
  destruct (IH Hin) as (y & Hy & Hxy). exists y. split; [now right | assumption].
Qed.

Lemma forall2_in_right {A B : Type} (R : A -> B -> Prop) (l : list A)
    (ys : list B) (y : B) :
  Forall2 R l ys -> In y ys -> exists x, In x l /\ R x y.
Proof.
  induction 1 as [ | a b l ys Hab Hl IH]; [intros [] | ].
  intros [-> | Hin]; [exists a; split; [now left | assumption] | ].
  destruct (IH Hin) as (x & Hx & Hxy). exists x. split; [now right | assumption].
Qed.

(** An order carried through an element-wise translation that keeps keys. *)
Lemma forall2_sorted {A B : Type} (R : A -> B -> Prop) (ka : A -> Z)
    (kb : B -> Z) (l : list A) (ys : list B) :
  (forall x y, R x y -> kb y = ka x) ->
  Forall2 R l ys ->
  StronglySorted (fun x x' => ka x' <= ka x) l ->
  StronglySorted (fun y y' => kb y' <= kb y) ys.
Proof.
  intros Hkey H2. induction H2 as [ | a b l ys Hab Hl IH];
    intros Hs; [constructor | ].
  inversion Hs as [ | ? ? Hs' Hall]; subst.
  constructor; [now apply IH | ].
  apply Forall_forall. intros y Hy.
  destruct (forall2_in_right _ _ _ _ Hl Hy) as (x & Hx & Hxy).
  rewrite (Hkey _ _ Hab), (Hkey _ _ Hxy).
  now apply (proj1 (Forall_forall _ _) Hall).
Qed.

(* ================================================================= *)
(** ** The listing endpoints *)

Lemma collect_raises {A B : Type} (f : A -> result B) (l : list A) (e : exn) :
  collect f l = Raise e -> exists x, In x l /\ f x = Raise e.
Proof.
  induction l as [ | x l IH]; cbn [collect]; [discriminate | ].
  destruct (f x) as [y | e'] eqn:Hx; cbn [rbind].
  - destruct (collect f l) as [ys | e'']; cbn [rbind]; [discriminate | ].
    intros [= <-]. destruct (IH eq_refl) as (x' & Hin & Hx').
    exists x'. split; [now right | assumption].
  - intros [= <-]. exists x. split; [now left | assumption].
Qed.

Lemma collect_fails_on {A B : Type} (f : A -> result B) (l : list A) (x : A) :
  In x l -> (forall y, f x <> Ok y) -> forall ys, collect f l <> Ok ys.
Proof.
  intros Hin Hbad ys Hok. apply collect_forall2 in Hok.
  destruct (forall2_in_left _ _ _ _ Hok Hin) as (y & _ & Hy).
  now apply (Hbad y).
Qed.

Lemma reading_response_raises (device : option SensorDevice.t)
    (r : SensorReading.t) (e : exn) :
  reading_response device r = Raise e -> e = ValidationError.
Proof.
  unfold reading_response, SensorReadingResponse.validate.
  repeat match goal with
         | |- match ?x with _ => _ end = _ -> _ => destruct x
         end; congruence.
Qed.

Lemma alert_response_raises (a : AlertLog.t) (e : exn) :
  AlertResponse.validate a = Raise e -> e = ValidationError.
Proof.
  unfold AlertResponse.validate.
  repeat match goal with
         | |- match ?x with _ => _ end = _ -> _ => destruct x
         end; congruence.
Qed.

Lemma device_response_raises (d : SensorDevice.t) (e : exn) :
  device_response d = Raise e -> e = ValidationError.
Proof.
  unfold device_response, DeviceResponse.validate.
  destruct (SensorDevice.id d); congruence.
Qed.

Section ListingRuns.

Variable env : Env.
Variable select_fails : select_call -> bool.

Local Abbreviation loop := (summarize select_fails).

(** The loop leaves the state alone and yields, reading by reading, the
    summary built with the device its lookup returns; it stops at the first
    failing lookup or summary. *)
Lemma summarize_run (readings : list SensorReading.t) (position : nat)
    (s : State) :
  exists r,
    loop position readings s = (s, r) /\
    (forall items,
       r = Ok items ->
       collect (fun rd => reading_response
                            (device_by_pk (SensorReading.device_id rd)
                               (store s)) rd) readings = Ok items) /\
    (forall e, r = Raise e -> e = SQLAlchemyError \/ e = ValidationError) /\
    (selects_up select_fails ->
     r = collect (fun rd => reading_response
                              (device_by_pk (SensorReading.device_id rd)
                                 (store s)) rd) readings).
Proof.
  revert position. induction readings as [ | rd l IH]; intros position.
  - eexists. split; [reflexivity | ].
    split; [intros items [= <-]; reflexivity | ].
    split; [discriminate | reflexivity].
  - destruct (IH (S position)) as (r & Hrun & Hok & Hraise & Hup).
    cbn [summarize collect]. unfold bind at 1. unfold select at 1.
    destruct (select_fails (SelectDeviceOf position)) eqn:Hsel.
    { eexists. split; [reflexivity | ].
      split; [discriminate | ].
      split; [intros e [= <-]; now left | ].
      intros Hall. rewrite Hall in Hsel. discriminate. }
    unfold bind at 1. unfold lift at 1.
    destruct (reading_response
                (device_by_pk (SensorReading.device_id rd) (store s)) rd)
      as [item | e] eqn:Hitem; cbn [rbind].
    2: { eexists. split; [reflexivity | ].
         split; [discriminate | ].
         split; [intros e' [= <-]; right;
                 now apply reading_response_raises in Hitem | ].
         reflexivity. }
    unfold bind at 1. rewrite Hrun.
    destruct r as [items | e]; cbn [rbind].
    + eexists. split; [reflexivity | ].
      split; [intros items' [= <-]; now rewrite (Hok items eq_refl) | ].
      split; [discriminate | ].
      intros Hall. now rewrite <- (Hup Hall).
    + eexists. split; [reflexivity | ].
      split; [discriminate | ].
      split; [intros e' [= <-]; now apply Hraise | ].
      intros Hall. now rewrite <- (Hup Hall).
Qed.

End ListingRuns.

Lemma window_start_raises (env : Env) (hours : Z) (e : exn) :
  window_start env hours = Raise e -> e = OverflowError.
Proof.
  unfold window_start, timedelta_hours, datetime_minus.
  repeat match goal with
         | |- context [if ?c then _ else _] => destruct c; cbn [rbind]
         end; congruence.
Qed.

Section ListingAnswers.

Variable env : Env.
Variable select_fails : select_call -> bool.
Variable order_by_desc : ordering.

Local Abbreviation GET_readings := (get_readings env select_fails order_by_desc).
Local Abbreviation GET_alerts := (get_alerts select_fails order_by_desc).
Local Abbreviation GET_devices := (get_devices select_fails).

(** The summaries of the selected readings, each with the name of the
    device its lookup finds. *)
Local Abbreviation summaries :=
  (fun (db : Database) (rows : list SensorReading.t) =>
     collect (fun rd => reading_response
                          (device_by_pk (SensorReading.device_id rd) db) rd)
             rows).

Lemma get_readings_run (patient_id : Z) (hours : option Z)
    (reading_type : option string) (db : Database) :
  let h := match hours with Some h => h | None => 24 end in
  exists answer,
    GET_readings patient_id hours reading_type db = (db, answer) /\
    (forall c body,
       answer = Response c body ->
       c = 200 /\
       exists since,
         window_start env h = Ok since /\
         summaries db
           (select_readings order_by_desc patient_id since reading_type
              db)
           = Ok body) /\
    (forall c detail,
       answer = ErrorResponse c detail -> answer = internal_server_error) /\
    (forall e, window_start env h = Raise e ->
               answer = internal_server_error) /\
    (selects_up select_fails ->
     forall since,
       window_start env h = Ok since ->
       answer
       = match summaries db
                 (select_readings order_by_desc patient_id since
                    reading_type db) with
         | Ok body => Response 200 body
         | Raise _ => internal_server_error
         end).
Proof.
  cbv zeta.
  unfold get_readings, serve, get_patient_readings, begin.
  unfold bind at 1. unfold utcnow. cbn [store pending clock_reads commits].
  unfold bind at 1. unfold lift at 1.
  change (delta <-? timedelta_hours
                      match hours with Some h => h | None => 24 end ;;
          datetime_minus (utcnow_at env 0) delta)
    with (window_start env match hours with Some h => h | None => 24 end).
  destruct (window_start env match hours with Some h => h | None => 24 end)
    as [since | e] eqn:Hw.
  2: { apply window_start_raises in Hw as ->.
       eexists. split; [reflexivity | ].
       repeat split; try discriminate; reflexivity. }
  unfold bind at 1. unfold select at 1.
  destruct (select_fails SelectReadings) eqn:Hsel.
  { eexists. split; [reflexivity | ].
    split; [discriminate | ]. split; [reflexivity | ].
    split; [discriminate | ].
    intros Hup. rewrite Hup in Hsel. discriminate. }
  cbn [store].
  destruct (summarize_run select_fails
              (select_readings order_by_desc patient_id since reading_type db) 0
              (mkState db [] 1 0)) as (r & Hrun & Hok & Hraise & Hup).
  rewrite Hrun. cbn [store fst snd] in *.
  destruct r as [items | e].
  - eexists. split; [reflexivity | ].
    split.
    { intros c body [= <- <-]. split; [reflexivity | ].
      exists since. split; [reflexivity | now apply Hok]. }
    split; [discriminate | ]. split; [discriminate | ].
    intros Hall since' [= <-]. now rewrite <- (Hup Hall).
  - assert (He : respond (Raise e : result (list SensorReadingResponse.t))
                 = internal_server_error).
    { destruct (Hraise e eq_refl) as [-> | ->]; reflexivity. }
    eexists. split; [reflexivity | ]. rewrite He.
    split; [discriminate | ]. split; [reflexivity | ].
    split; [discriminate | ].
    intros Hall since' [= <-]. now rewrite <- (Hup Hall).
Qed.

Lemma get_alerts_run (patient_id : Z) (unread_only : option bool)
    (db : Database) :
  let u := match unread_only with Some b => b | None => false end in
  GET_alerts patient_id unread_only db
  = (db, if select_fails SelectAlerts then internal_server_error
         else match collect AlertResponse.validate
                      (select_alerts order_by_desc patient_id u db) with
              | Ok body => Response 200 body
              | Raise _ => internal_server_error
              end).
Proof.
  cbv zeta. unfold get_alerts, serve, get_patient_alerts, begin, bind, select,
              lift.
  destruct (select_fails SelectAlerts); [reflexivity | ]. cbn [store].
  destruct (collect AlertResponse.validate _) as [body | e] eqn:Hc;
    [reflexivity | ].
  apply collect_raises in Hc as (a & _ & Ha).
  apply alert_response_raises in Ha as ->. reflexivity.
Qed.

Lemma get_devices_run (patient_id : Z) (db : Database) :
  GET_devices patient_id db
  = (db, if select_fails SelectDevices then internal_server_error
         else match collect device_response (select_devices patient_id db)
              with
              | Ok body => Response 200 body
              | Raise _ => internal_server_error
              end).
Proof.
  unfold get_devices, serve, get_patient_devices, begin, bind, select, lift.
  destruct (select_fails SelectDevices); [reflexivity | ]. cbn [store].
  destruct (collect device_response _) as [body | e] eqn:Hc;
    [reflexivity | ].
  apply collect_raises in Hc as (d & _ & Hd).
  apply device_response_raises in Hd as ->. reflexivity.
Qed.

End ListingAnswers.

(** What [filter], [ORDER BY ... DESC] and [LIMIT n] select together. *)
Lemma selection_facts (order_by_desc : ordering) {A : Type} (key : A -> Z)
    (p : A -> bool) (n : nat) (l : list A) :
  orders_desc order_by_desc ->
  let rows := firstn n (order_by_desc A key (filter p l)) in
  (List.length rows <= n)%nat /\
  StronglySorted (fun x y => key y <= key x) rows /\
  (forall a, In a rows -> In a l /\ p a = true) /\
  (forall a x, In a l -> p a = true -> ~ In a rows -> In x rows ->
               key a <= key x) /\
  ((List.length (filter p l) <= n)%nat ->
   forall a, In a l -> p a = true -> In a rows).
Proof.
  intros Horder. cbv zeta.
  destruct (Horder A key (filter p l)) as [Hperm Hsorted].
  split; [apply firstn_le_length | ].
  split; [now apply firstn_sorted | ].
  split.
  { intros a Ha. apply in_firstn in Ha.
    apply (Permutation_in _ Hperm) in Ha. now apply filter_In in Ha. }
  split.
  { intros a x Ha Hp Hout Hx.
    apply (limit_keeps_newest key n (order_by_desc A key (filter p l)));
      try assumption.
    apply (Permutation_in _ (Permutation_sym Hperm)). now apply filter_In. }
  intros Hlen a Ha Hp.
  rewrite firstn_all2 by now rewrite (Permutation_length Hperm).
  apply (Permutation_in _ (Permutation_sym Hperm)). now apply filter_In.
Qed.

Lemma alert_response_fields (a : AlertLog.t) (x : AlertResponse.t) :
  AlertResponse.validate a = Ok x ->
  AlertResponse.id x = match AlertLog.id a with Some k => k | None => 0 end /\
  AlertResponse.patient_id x = AlertLog.patient_id a /\
  AlertResponse.alert_type x = AlertLog.alert_type a /\
  Some (AlertResponse.severity x) = AlertLog.severity a /\
  Some (AlertResponse.alert_message x) = AlertLog.alert_message a /\
  AlertResponse.alert_timestamp x = AlertLog.alert_timestamp a /\
  AlertResponse.is_read x = AlertLog.is_read a.
Proof.
  unfold AlertResponse.validate.
  destruct (AlertLog.id a), (AlertLog.severity a), (AlertLog.alert_message a);
    try discriminate.
  intros [= <-]. repeat split.
Qed.

Lemma reading_response_fields (device : option SensorDevice.t)
    (r : SensorReading.t) (x : SensorReadingResponse.t) :
  reading_response device r = Ok x ->
  SensorReadingResponse.reading_timestamp x
    = SensorReading.reading_timestamp r /\
  SensorReadingResponse.reading_type x = SensorReading.reading_type r /\
  SensorReadingResponse.quality x = SensorReading.quality r /\
  SensorReadingResponse.is_alert x = SensorReading.is_alert r /\
  SensorReadingResponse.alert_message x = SensorReading.alert_message r /\
  SensorReading.unit r = Str (SensorReadingResponse.unit x) /\
  SensorReading.id r = Some (SensorReadingResponse.id x) /\
  SensorReadingResponse.device_name x
    = match device with
      | Some d => SensorDevice.device_name d
      | None => "Unknown"
      end /\
  exists n, SensorReading.numeric_value r = Some n /\
            Py.to_float n = Ok (SensorReadingResponse.numeric_value x).
Proof.
  unfold reading_response, SensorReadingResponse.validate.
  destruct (SensorReading.id r) as [pk | ]; [ | discriminate].
  destruct (SensorReading.numeric_value r) as [n | ]; [ | discriminate].
  destruct (SensorReading.unit r); try discriminate.
  destruct (Py.to_float n) as [f | ] eqn:Hf; [ | discriminate].
  intros [= <-]. repeat split. now exists n.
Qed.

Section ListingProperties.

Variable env : Env.
Variable select_fails : select_call -> bool.
Variable order_by_desc : ordering.

Local Abbreviation GET_readings := (get_readings env select_fails order_by_desc).
Local Abbreviation GET_alerts := (get_alerts select_fails order_by_desc).
Local Abbreviation GET_devices := (get_devices select_fails).

(** X12. The listing endpoints never write and never reject. Whatever the
    parameters, the tables and the failing queries, each of the three GET
    routes leaves the tables exactly as they were, and its answer is either
    200 with a list or the plain 500 "Internal Server Error"; there is no
    404, not even for a patient that does not exist. *)
Theorem listings_never_write_nor_reject (patient_id : Z) (hours : option Z)
    (reading_type : option string) (unread_only : option bool)
    (db : Database) :
  (fst (GET_readings patient_id hours reading_type db) = db /\
   ((exists body,
       snd (GET_readings patient_id hours reading_type db)
         = Response 200 body) \/
    snd (GET_readings patient_id hours reading_type db)
      = internal_server_error)) /\
  (fst (GET_alerts patient_id unread_only db) = db /\
   ((exists body,
       snd (GET_alerts patient_id unread_only db) = Response 200 body) \/
    snd (GET_alerts patient_id unread_only db) = internal_server_error)) /\
  (fst (GET_devices patient_id db) = db /\
   ((exists body, snd (GET_devices patient_id db) = Response 200 body) \/
    snd (GET_devices patient_id db) = internal_server_error)).
Proof.
  split; [ | split ].
  - destruct (get_readings_run env select_fails order_by_desc patient_id
                hours reading_type
                db) as (answer & Hrun & Hok & Herr & _).
    rewrite Hrun. cbn [fst snd]. split; [reflexivity | ].
    destruct answer as [c body | c detail].
    + destruct (Hok c body eq_refl) as [-> _]. left. now exists body.
    + right. now apply (Herr c detail).
  - rewrite get_alerts_run. cbn [fst snd]. split; [reflexivity | ].
    destruct (select_fails SelectAlerts); [now right | ].
    destruct (collect _ _) as [body | e]; [left; now exists body | now right].
  - rewrite get_devices_run. cbn [fst snd]. split; [reflexivity | ].
    destruct (select_fails SelectDevices); [now right | ].
    destruct (collect _ _) as [body | e]; [left; now exists body | now right].
Qed.

(** X13. What a successful alert listing contains, whatever order the
    store gives to alerts with equal timestamps. The listed alerts are the
    responses of the rows the store returned, at most 100 of them, newest
    first; every one belongs to the patient and, with [unread_only], is
    unread; a matching alert that was left out is not newer than any listed
    one; and when at most 100 alerts match, none is left out. *)
Theorem listed_alerts_are_the_newest_matching (patient_id : Z)
    (unread_only : option bool) (db : Database) (c : Z)
    (body : list AlertResponse.t) :
  let u := match unread_only with Some b => b | None => false end in
  let rows := select_alerts order_by_desc patient_id u db in
  orders_desc order_by_desc ->
  snd (GET_alerts patient_id unread_only db) = Response c body ->
  c = 200 /\
  Forall2 (fun a x => AlertResponse.validate a = Ok x) rows body /\
  (List.length body <= 100)%nat /\
  StronglySorted
    (fun x y => AlertResponse.alert_timestamp y
                <= AlertResponse.alert_timestamp x) body /\
  (forall x, In x body ->
             AlertResponse.patient_id x = patient_id /\
             (u = true -> AlertResponse.is_read x = false)) /\
  (forall a x, In a (alert_logs db) ->
               alert_selected patient_id u a = true ->
               ~ In a rows -> In x body ->
               AlertLog.alert_timestamp a
               <= AlertResponse.alert_timestamp x) /\
  ((List.length (filter (alert_selected patient_id u) (alert_logs db))
    <= 100)%nat ->
   forall a, In a (alert_logs db) ->
             alert_selected patient_id u a = true -> In a rows).
Proof.
  cbv zeta. intros Horder. rewrite get_alerts_run. cbn [snd].
  destruct (select_fails SelectAlerts); [discriminate | ].
  destruct (collect AlertResponse.validate _) as [body' | e] eqn:Hc;
    [ | discriminate].
  intros [= <- <-]. apply collect_forall2 in Hc.
  destruct (selection_facts order_by_desc AlertLog.alert_timestamp
              (alert_selected patient_id
                 match unread_only with Some b => b | None => false end)
              100 (alert_logs db) Horder)
    as (Hlen & Hsorted & Hsound & Hnewest & Hall).
  fold (select_alerts order_by_desc patient_id
          match unread_only with Some b => b | None => false end db) in *.
  split; [reflexivity | ]. split; [exact Hc | ].
  split; [now rewrite <- (Forall2_length Hc) | ].
  split.
  { apply (forall2_sorted _ AlertLog.alert_timestamp _ _ _
             (fun a x H => proj1 (proj2 (proj2 (proj2 (proj2 (proj2
                             (alert_response_fields a x H))))))) Hc Hsorted). }
  split.
  { intros x Hx.
    destruct (forall2_in_right _ _ _ _ Hc Hx) as (a & Ha & Hax).
    apply alert_response_fields in Hax
      as (_ & Hpid & _ & _ & _ & _ & Hread).
    destruct (Hsound a Ha) as [_ Hsel].
    unfold alert_selected in Hsel. apply andb_true_iff in Hsel as [Hp Hu].
    apply Z.eqb_eq in Hp. split; [congruence | ].
    intros Htrue. rewrite Htrue in Hu. apply negb_true_iff in Hu. congruence. }
  split; [ | exact Hall].
  intros a x Ha Hsel Hout Hx.
  destruct (forall2_in_right _ _ _ _ Hc Hx) as (a' & Ha' & Hax).
  apply alert_response_fields in Hax as (_ & _ & _ & _ & _ & Hts & _).
  rewrite Hts. now apply (Hnewest a a').
Qed.

End ListingProperties.

Lemma window_start_value (env : Env) (hours : Z) (since : datetime) :
  window_start env hours = Ok since ->
  since = utcnow_at env 0 - hours * 3600000000.
Proof.
  unfold window_start, timedelta_hours, datetime_minus.
  repeat match goal with
         | |- context [if ?c then _ else _] => destruct c; cbn [rbind]
         end; congruence.
Qed.

Section ReadingListing.

Variable env : Env.
Variable select_fails : select_call -> bool.
Variable order_by_desc : ordering.

Local Abbreviation GET_readings := (get_readings env select_fails order_by_desc).

(** X14. What a successful reading listing contains, whatever order the
    store gives to readings with equal timestamps. The window starts [hours]
    hours before the first clock read; the listed summaries are those of the
    rows the store returned, at most 1000 of them, newest first, each of the
    patient, inside the window and of the requested type if one was given;
    each carries the name of the device found under the reading's device
    key, or "Unknown"; a matching reading that was left out is not newer
    than any listed one. *)
Theorem listed_readings_are_the_newest_in_window (patient_id : Z)
    (hours : option Z) (reading_type : option string) (db : Database)
    (c : Z) (body : list SensorReadingResponse.t) :
  let h := match hours with Some h => h | None => 24 end in
  let since := utcnow_at env 0 - h * 3600000000 in
  let rows :=
    select_readings order_by_desc patient_id since reading_type db in
  orders_desc order_by_desc ->
  snd (GET_readings patient_id hours reading_type db) = Response c body ->
  c = 200 /\
  Forall2 (fun r x =>
             reading_response
               (device_by_pk (SensorReading.device_id r) db) r = Ok x)
          rows body /\
  (List.length body <= 1000)%nat /\
  StronglySorted
    (fun x y => SensorReadingResponse.reading_timestamp y
                <= SensorReadingResponse.reading_timestamp x) body /\
  (forall r, In r rows ->
             In r (sensor_readings db) /\
             SensorReading.patient_id r = patient_id /\
             since <= SensorReading.reading_timestamp r /\
             (given reading_type = true ->
              Some (SensorReading.reading_type r) = reading_type)) /\
  (forall r x, In r (sensor_readings db) ->
               reading_selected patient_id since reading_type r = true ->
               ~ In r rows -> In x body ->
               SensorReading.reading_timestamp r
               <= SensorReadingResponse.reading_timestamp x).
Proof.
  cbv zeta. intros Horder.
  destruct (get_readings_run env select_fails order_by_desc patient_id hours
              reading_type db) as (answer & Hrun & Hok & _).
  rewrite Hrun. cbn [snd]. intros ->.
  destruct (Hok c body eq_refl) as (-> & since & Hw & Hc).
  apply window_start_value in Hw as ->.
  apply collect_forall2 in Hc.
  set (since := utcnow_at env 0
                - match hours with Some h => h | None => 24 end * 3600000000)
    in *.
  destruct (selection_facts order_by_desc SensorReading.reading_timestamp
              (reading_selected patient_id since reading_type)
              1000 (sensor_readings db) Horder)
    as (Hlen & Hsorted & Hsound & Hnewest & _).
  fold (select_readings order_by_desc patient_id since reading_type db) in *.
  split; [reflexivity | ]. split; [exact Hc | ].
  split; [now rewrite <- (Forall2_length Hc) | ].
  split.
  { apply (forall2_sorted _ SensorReading.reading_timestamp _ _ _
             (fun r x H => proj1 (reading_response_fields _ r x H))
             Hc Hsorted). }
  split.
  { intros r Hr. destruct (Hsound r Hr) as [Hin Hsel]. split; [exact Hin | ].
    unfold reading_selected in Hsel.
    apply andb_true_iff in Hsel as [Hsel Hty].
    apply andb_true_iff in Hsel as [Hp Hts].
    apply Z.eqb_eq in Hp. apply Z.leb_le in Hts.
    split; [exact Hp | ]. split; [exact Hts | ].
    intros Hgiven. rewrite Hgiven in Hty.
    destruct reading_type as [ty | ]; [ | discriminate].
    apply String.eqb_eq in Hty. now rewrite Hty. }
  intros r x Hr Hsel Hout Hx.
  destruct (forall2_in_right _ _ _ _ Hc Hx) as (r' & Hr' & Hrx).
  apply reading_response_fields in Hrx as (Hts & _).
  rewrite Hts. now apply (Hnewest r r').
Qed.

(** X15. One reading that cannot be summarised fails the whole listing. If
    the selection for a request contains a reading without a numeric value,
    or whose unit is not a string, the request is answered 500 and none of
    the patient's readings is returned. *)
Theorem one_unreadable_reading_fails_the_listing (patient_id : Z)
    (hours : option Z) (reading_type : option string) (db : Database)
    (r : SensorReading.t) :
  let h := match hours with Some h => h | None => 24 end in
  In r (select_readings order_by_desc patient_id
          (utcnow_at env 0 - h * 3600000000)
          reading_type db) ->
  SensorReading.numeric_value r = None \/
  (forall u, SensorReading.unit r <> Str u) ->
  GET_readings patient_id hours reading_type db
    = (db, internal_server_error).
Proof.
  cbv zeta. intros Hin Hbad.
  destruct (get_readings_run env select_fails order_by_desc patient_id
              hours reading_type
              db) as (answer & Hrun & Hok & Herr & _).
  rewrite Hrun. f_equal.
  destruct answer as [c body | c detail]; [ | now apply (Herr c detail)].
  exfalso.
  destruct (Hok c body eq_refl) as (_ & since & Hw & Hc).
  apply window_start_value in Hw as ->.
  revert Hc. apply (collect_fails_on _ _ r Hin).
  intros x Hx. apply reading_response_fields in Hx
    as (_ & _ & _ & _ & _ & Hunit & _ & _ & n & Hn & _).
  destruct Hbad as [Hnone | Hnostr]; [congruence | ].
  now apply (Hnostr _ Hunit).
Qed.

(** X16. The window has bounds. A listing asked for 24,000,000,000 hours or
    more, or for fewer than -23,999,999,976, exceeds what a [timedelta] can
    hold; one whose window would start before year 1 or after year 9999
    exceeds what a [datetime] can hold. Either way the request is answered
    500, whatever the tables contain. *)
Theorem listing_window_out_of_range (patient_id : Z) (hours : Z)
    (reading_type : option string) (db : Database) :
  24000000000 <= hours \/ hours < -23999999976 \/
  utcnow_at env 0 - hours * 3600000000 < datetime_min \/
  datetime_max < utcnow_at env 0 - hours * 3600000000 ->
  GET_readings patient_id (Some hours) reading_type db
    = (db, internal_server_error).
Proof.
  intros Hout.
  destruct (get_readings_run env select_fails order_by_desc patient_id
              (Some hours)
              reading_type db) as (answer & Hrun & _ & _ & Hraise & _).
  rewrite Hrun. f_equal.
  assert (Hw : window_start env hours = Raise OverflowError).
  { unfold window_start, timedelta_hours, datetime_minus.
    destruct (Z.leb_spec (-999999999) (hours / 24)) as [L1 | L1];
      cbn [andb rbind]; [ | reflexivity].
    destruct (Z.leb_spec (hours / 24) 999999999) as [L2 | L2];
      cbn [andb rbind]; [ | reflexivity].
    destruct (Z.leb_spec datetime_min (utcnow_at env 0 - hours * 3600000000))
      as [L3 | L3]; cbn [andb]; [ | reflexivity].
    destruct (Z.leb_spec (utcnow_at env 0 - hours * 3600000000) datetime_max)
      as [L4 | L4]; [ | reflexivity].
    exfalso.
    pose proof (Z.div_mod hours 24 ltac:(lia)) as Hdm.
    pose proof (Z.mod_pos_bound hours 24 ltac:(lia)) as Hmb.
    lia. }
  exact (Hraise _ Hw).
Qed.

End ReadingListing.

(* ================================================================= *)
(** ** Writing, then listing *)

Lemma filter_none {A : Type} (p : A -> bool) (l : list A) :
  (forall x, In x l -> p x = false) -> filter p l = [].
Proof.
  induction l as [ | x l IH]; [reflexivity | ]. intros H. cbn [filter].
  rewrite (H x) by now left. apply IH. intros y Hy. apply H. now right.
Qed.

Lemma touch_keeps_name (pk : option Z) (ts : datetime) (d : SensorDevice.t) :
  SensorDevice.device_name (SensorDevice.touch pk ts d)
    = SensorDevice.device_name d.
Proof.
  change (SensorDevice.device_name
            (device_identity (SensorDevice.touch pk ts d))
          = SensorDevice.device_name (device_identity d)).
  now rewrite touch_keeps_identity.
Qed.

Lemma touch_keeps_key (pk : option Z) (ts : datetime) (d : SensorDevice.t) :
  SensorDevice.id (SensorDevice.touch pk ts d) = SensorDevice.id d.
Proof.
  change (SensorDevice.id (device_identity (SensorDevice.touch pk ts d))
          = SensorDevice.id (device_identity d)).
  now rewrite touch_keeps_identity.
Qed.

Section RoundTrips.

Variable float_repr : Py.float -> string.
Variable exn_str : exn -> string.
Variable env : Env.
Variable select_fails : select_call -> bool.
Variable order_by_desc : ordering.

Local Abbreviation post := (post_readings float_repr exn_str env).
Local Abbreviation classify := (analyze_against float_repr).
Local Abbreviation GET_alerts := (get_alerts select_fails order_by_desc).
Local Abbreviation GET_devices := (get_devices select_fails).

(** X17. A registered device shows up in its patient's list, and only
    there. After a registration that succeeded, the device list of the
    patient holds the body the registration returned together with what was
    listed before, nothing else, and the list of every other patient is what
    it was. *)
Theorem registered_device_is_listed (device : DeviceRegistration.t)
    (db : Database) (before : list DeviceResponse.t) :
  let pid := DeviceRegistration.patient_id device in
  let db1 := fst (post_devices env device db) in
  store_up env ->
  device_by_device_id (DeviceRegistration.device_id device) db = None ->
  In pid (patients db) ->
  snd (GET_devices pid db) = Response 200 before ->
  (exists body after,
     snd (post_devices env device db) = Response 200 body /\
     GET_devices pid db1 = (db1, Response 200 after) /\
     Permutation after (body :: before)) /\
  (forall other, other <> pid ->
                 snd (GET_devices other db1) = snd (GET_devices other db)).
Proof.
  cbv zeta. intros Hup Hnone Hin Hbefore.
  assert (Hf : exists k, find (Z.eqb (DeviceRegistration.patient_id device))
                           (patients db) = Some k).
  { destruct (find _ (patients db)) as [k | ] eqn:Hf; [now exists k | ].
    apply (find_none _ _ Hf) in Hin. rewrite Z.eqb_refl in Hin.
    discriminate. }
  destruct Hf as [k Hf].
  destruct (registration_succeeds env device db k Hup Hnone Hf)
    as (body & Hbody & Hrun).
  rewrite Hrun. cbn [fst snd].
  rewrite get_devices_run in Hbefore. cbn [snd] in Hbefore.
  split.
  - exists body, (before ++ [body])%list. split; [reflexivity | ].
    split; [ | symmetry; apply Permutation_cons_append].
    rewrite get_devices_run.
    destruct (select_fails SelectDevices); [discriminate | ].
    destruct (collect device_response (select_devices _ db))
      as [l | ] eqn:Hl; [ | discriminate].
    injection Hbefore as <-.
    assert (Hone : collect device_response [registered_row env db device]
                   = Ok [body]).
    { cbn [collect]. now rewrite Hbody. }
    unfold select_devices, after_registration in *. cbn [sensor_devices].
    rewrite filter_app. cbn [filter].
    replace (Z.eqb (SensorDevice.patient_id (registered_row env db device))
               (DeviceRegistration.patient_id device))
      with true by (symmetry; apply Z.eqb_refl).
    now rewrite (collect_app _ _ _ _ _ Hl Hone).
  - intros other Hother. rewrite !get_devices_run. cbn [snd].
    unfold select_devices, after_registration. cbn [sensor_devices].
    rewrite filter_app. cbn [filter].
    replace (Z.eqb (SensorDevice.patient_id (registered_row env db device))
               other)
      with false; [now rewrite app_nil_r | ].
    symmetry. apply Z.eqb_neq. cbn. congruence.
Qed.

(** X18. An alerting reading shows up as one unread alert. For a patient
    without earlier alerts, once an alerting reading has been committed the
    alert listing (with or without [unread_only]) answers 200 with exactly
    one alert: unread, tagged by [_get_alert_type], carrying the reading's
    severity and message and the clock read taken for it. *)
Theorem alerting_reading_is_listed_unread (reading : SensorReadingCreate.t)
    (db : Database) (device : SensorDevice.t) (nv kv : option Py.num)
    (ku : Py.value) (a : analysis) (unread_only : option bool) :
  let pid := SensorDevice.patient_id device in
  let db' := fst (post reading db) in
  store_fails env QueryDevice = false ->
  device_by_device_id (SensorReadingCreate.device_id reading) db
    = Some device ->
  SensorDevice.is_active device = true ->
  extract_numeric_value reading = Ok nv ->
  store_fails env QueryProfile = false ->
  classify (thresholds_of (profile_of pid db))
    (SensorReadingCreate.reading_type reading) nv = Ok a ->
  store_fails env (Commit 0) = false ->
  kept env reading nv = Ok (kv, ku) ->
  is_alert_of a = true ->
  (forall x, In x (alert_logs db) -> AlertLog.patient_id x <> pid) ->
  select_fails SelectAlerts = false ->
  orders_desc order_by_desc ->
  exists x,
    GET_alerts pid unread_only db' = (db', Response 200 [x]) /\
    AlertResponse.is_read x = false /\
    AlertResponse.alert_type x
      = _get_alert_type (SensorReadingCreate.reading_type reading) nv /\
    Some (AlertResponse.severity x) = snd (fst a) /\
    Some (AlertResponse.alert_message x) = snd a /\
    AlertResponse.alert_timestamp x = alert_instant env reading.
Proof.
  cbv zeta. intros Hq Hd Ha He Hp Han Hc Hk Halert Hnone Hsel Horder.
  rewrite (accepted_request_commits float_repr exn_str env reading db
             device Hq Hd Ha nv a kv ku He Hp Han Hc Hk).
  cbn [fst]. rewrite get_alerts_run, Hsel.
  destruct (analyze_one_branch float_repr _ _ _ _ Han)
    as [-> | (b & v & -> & ->)]; [discriminate | ].
  unfold select_alerts, after_ingest, stored_reading, stored_alert, alerting.
  cbn [alert_logs SensorReading.is_alert].
  rewrite filter_app, filter_none.
  2: { intros x Hx. unfold alert_selected.
       destruct (Z.eqb_spec (AlertLog.patient_id x)
                   (SensorDevice.patient_id device)) as [E | _];
         [now elim (Hnone x Hx) | reflexivity]. }
  unfold alert_selected.
  cbn [app filter AlertLog.patient_id AlertLog.is_read negb].
  rewrite Z.eqb_refl.
  destruct unread_only as [[ | ] | ];
    cbn [andb]; rewrite (order_of_one order_by_desc _ _ Horder);
    cbn [firstn collect AlertResponse.validate AlertLog.id AlertLog.severity
         AlertLog.alert_message rbind];
    (eexists; split; [reflexivity | repeat split]).
Qed.

End RoundTrips.

Section ReadingRoundTrip.

Variable float_repr : Py.float -> string.
Variable exn_str : exn -> string.
Variable env env2 : Env.
Variable select_fails : select_call -> bool.
Variable order_by_desc : ordering.

Local Abbreviation post := (post_readings float_repr exn_str env).
Local Abbreviation classify := (analyze_against float_repr).
Local Abbreviation GET_readings :=
  (get_readings env2 select_fails order_by_desc).

(** X19. A reading answered 200 is what a later listing returns. For a
    patient without earlier readings, after a reading whose numeric value
    the store keeps as a finite real number and whose unit it keeps as text
    has been accepted, a listing whose window reaches back to the reading's
    timestamp (with no type filter, or the reading's own type) answers 200
    with exactly the summary the ingestion returned. *)
Theorem accepted_reading_is_listed (reading : SensorReadingCreate.t)
    (db : Database) (device : SensorDevice.t) (k : Z) (n : Py.num)
    (f : Py.float) (u : string) (a : analysis) (hours : Z)
    (reading_type : option string) (since : datetime) :
  let pid := SensorDevice.patient_id device in
  let db' := fst (post reading db) in
  store_up env ->
  device_by_device_id (SensorReadingCreate.device_id reading) db
    = Some device ->
  SensorDevice.is_active device = true ->
  SensorDevice.id device = Some k ->
  device_by_pk (Some k) db = Some device ->
  extract_numeric_value reading = Ok (Some n) ->
  kept env reading (Some n) = Ok (Some (NFloat f), Str u) ->
  Py.is_finite f = true ->
  classify (thresholds_of (profile_of pid db))
    (SensorReadingCreate.reading_type reading) (Some n) = Ok a ->
  (forall r, In r (sensor_readings db) -> SensorReading.patient_id r <> pid) ->
  selects_up select_fails ->
  orders_desc order_by_desc ->
  window_start env2 hours = Ok since ->
  since <= effective_timestamp env reading ->
  given reading_type = false \/
  reading_type = Some (SensorReadingCreate.reading_type reading) ->
  exists body,
    snd (post reading db) = Response 200 body /\
    GET_readings pid (Some hours) reading_type db'
      = (db', Response 200 [body]).
Proof.
  cbv zeta.
  intros Hup Hd Ha Hk Hpk He Hkept Hfin Han Hnone Hsel Horder Hw Hsince Hty.
  rewrite (accepted_request_commits float_repr exn_str env reading db
             device (Hup QueryDevice) Hd Ha (Some n) a _ _ He
             (Hup QueryProfile) Han (Hup (Commit 0)) Hkept).
  rewrite (Hup Refresh). cbn [fst snd].
  set (r := stored_reading db device reading (Some (NFloat f)) (Str u) a
              (effective_timestamp env reading)).
  set (db' := after_ingest db device r _ _).
  assert (Hsum : exists body, summary device r = Ok body).
  { destruct a as [[[q ia] sev] msg]. now eexists. }
  destruct Hsum as [body Hbody]. rewrite Hbody.
  exists body. split; [reflexivity | ].
  destruct (get_readings_run env2 select_fails order_by_desc
              (SensorDevice.patient_id device) (Some hours) reading_type db')
    as (answer & Hrun & _ & _ & _ & Hall).
  rewrite Hrun. f_equal. rewrite (Hall Hsel since Hw).
  assert (Hrows : select_readings order_by_desc
                    (SensorDevice.patient_id device) since reading_type db'
                  = [r]).
  { unfold select_readings, db', after_ingest. cbn [sensor_readings].
    rewrite filter_app, filter_none.
    2: { intros x Hx. unfold reading_selected.
         destruct (Z.eqb_spec (SensorReading.patient_id x)
                     (SensorDevice.patient_id device)) as [E | _];
           [now elim (Hnone x Hx) | reflexivity]. }
    cbn [app filter].
    replace (reading_selected (SensorDevice.patient_id device) since
               reading_type r) with true;
      [now rewrite (order_of_one order_by_desc _ _ Horder) | ].
    symmetry. unfold reading_selected.
    replace (SensorReading.patient_id r) with (SensorDevice.patient_id device)
      by (unfold r; now destruct a as [[[q ia] sev] msg]).
    replace (SensorReading.reading_timestamp r)
      with (effective_timestamp env reading)
      by (unfold r; now destruct a as [[[q ia] sev] msg]).
    replace (SensorReading.reading_type r)
      with (SensorReadingCreate.reading_type reading)
      by (unfold r; now destruct a as [[[q ia] sev] msg]).
    rewrite Z.eqb_refl. cbn [andb].
    apply andb_true_iff. split; [now apply Z.leb_le | ].
    destruct Hty as [-> | ->]; [reflexivity | ].
    destruct (given _); [apply String.eqb_refl | reflexivity]. }
  rewrite Hrows. cbn [collect].
  replace (SensorReading.device_id r) with (Some k)
    by (unfold r; rewrite <- Hk; now destruct a as [[[q ia] sev] msg]).
  assert (Hdev : device_by_pk (Some k) db'
                 = Some (SensorDevice.touch (SensorDevice.id device)
                           (sync_instant env reading (is_alert_of a))
                           device)).
  { unfold device_by_pk, db', after_ingest in *. cbn [sensor_devices].
    rewrite find_map_invariant
      by (intros d; now rewrite touch_keeps_key).
    now rewrite Hpk. }
  rewrite Hdev.
  unfold reading_response. rewrite touch_keeps_name.
  fold (summary device r). rewrite Hbody. reflexivity.
Qed.

End ReadingRoundTrip.

(* ================================================================= *)
(** ** The client in front of the backend *)

Section ClientProperties.

Variable env : Env.
Variable select_fails : select_call -> bool.
Variable order_by_desc : ordering.
Variable render : APIClient.json -> string.

Local Abbreviation wire := (delivered env select_fails order_by_desc render).

(** The reading listing fails as soon as its selection holds a reading that
    cannot be summarised. *)
Lemma unreadable_selection_fails (patient_id : Z) (hours : option Z)
    (reading_type : option string) (db : Database) (r : SensorReading.t) :
  let h := match hours with Some h => h | None => 24 end in
  In r (select_readings order_by_desc patient_id
          (utcnow_at env 0 - h * 3600000000)
          reading_type db) ->
  SensorReading.numeric_value r = None \/
  (forall u, SensorReading.unit r <> Str u) ->
  snd (get_readings env select_fails order_by_desc patient_id hours
         reading_type db)
    = internal_server_error.
Proof.
  cbv zeta. intros Hin Hbad.
  destruct (get_readings_run env select_fails order_by_desc patient_id
              hours reading_type
              db) as (answer & Hrun & Hok & Herr & _).
  rewrite Hrun. cbn [snd].
  destruct answer as [c body | c detail]; [ | now apply (Herr c detail)].
  exfalso.
  destruct (Hok c body eq_refl) as (_ & since & Hw & Hc).
  apply window_start_value in Hw as ->.
  revert Hc. apply (collect_fails_on _ _ r Hin).
  intros x Hx. apply reading_response_fields in Hx
    as (_ & _ & _ & _ & _ & Hunit & _ & _ & n & Hn & _).
  destruct Hbad as [Hnone | Hnostr]; [congruence | ].
  now apply (Hnostr _ Hunit).
Qed.

(** X20. Through the client, a failed listing looks like an empty one. In
    front of this backend each list method returns the backend's list when
    the route answers 200 and the empty list in every other case: the caller
    cannot tell a store failure, or a listing that failed on one unreadable
    row, from a patient without data. *)
Theorem client_lists_are_empty_on_failure (patient_id : Z) (hours : Z)
    (reading_type : option string) (unread_only : bool) (db : Database) :
  APIClient.get_iot_devices (wire db) patient_id
    = match snd (get_devices select_fails patient_id db) with
      | Response _ body => map APIClient.Device body
      | ErrorResponse _ _ => []
      end /\
  APIClient.get_iot_readings (wire db) patient_id hours reading_type
    = match snd (get_readings env select_fails order_by_desc patient_id
                   (Some hours)
                   (if given reading_type then reading_type else None) db)
      with
      | Response _ body => map APIClient.Reading body
      | ErrorResponse _ _ => []
      end /\
  APIClient.get_iot_alerts (wire db) patient_id unread_only
    = match snd (get_alerts select_fails order_by_desc patient_id
                   (Some unread_only) db)
      with
      | Response _ body => map APIClient.Alert body
      | ErrorResponse _ _ => []
      end.
Proof.
  unfold APIClient.get_iot_devices, APIClient.get_iot_readings,
    APIClient.get_iot_alerts, delivered, dispatch.
  split; [ | split ].
  - rewrite get_devices_run. cbn [snd].
    destruct (select_fails SelectDevices); [reflexivity | ].
    destruct (collect _ _); reflexivity.
  - destruct (get_readings_run env select_fails order_by_desc patient_id
                (Some hours)
                (if given reading_type then reading_type else None) db)
      as (answer & Hrun & Hok & Herr & _).
    rewrite Hrun. cbn [snd].
    destruct answer as [c body | c detail].
    + destruct (Hok c body eq_refl) as [-> _]. reflexivity.
    + rewrite (Herr c detail eq_refl). reflexivity.
  - rewrite get_alerts_run. cbn [snd].
    destruct (select_fails SelectAlerts); [reflexivity | ].
    destruct (collect _ _); reflexivity.
Qed.

(** X21. One unreadable reading empties the dashboard's reading list. If
    the selection for the client's request contains a reading without a
    numeric value, or whose unit is not a string, the client returns the
    empty list, however many readable readings the patient has. *)
Theorem client_sees_no_readings_when_one_is_unreadable (patient_id : Z)
    (hours : Z) (reading_type : option string) (db : Database)
    (r : SensorReading.t) :
  In r (select_readings order_by_desc patient_id
          (utcnow_at env 0 - hours * 3600000000)
          (if given reading_type then reading_type else None) db) ->
  SensorReading.numeric_value r = None \/
  (forall u, SensorReading.unit r <> Str u) ->
  APIClient.get_iot_readings (wire db) patient_id hours reading_type = [].
Proof.
  intros Hin Hbad.
  pose proof (unreadable_selection_fails patient_id (Some hours)
                (if given reading_type then reading_type else None) db r
                Hin Hbad) as Hfail.
  unfold APIClient.get_iot_readings, delivered, dispatch.
  destruct (get_readings env select_fails order_by_desc patient_id
              (Some hours) _ db)
    as [db' answer].
  cbn [snd] in *. rewrite Hfail. reflexivity.
Qed.

(** X22. What the client reports for a registration. In front of this
    backend, with the store working: a device id already registered is
    reported as the error text "HTTP 400: " followed by the body text; a new
    device id for a patient that does not exist is reported as "Resource not
    found", the backend's own detail being dropped; otherwise the client
    returns the registered device, active, with the manufacturer and model it
    sent. *)
Theorem client_registration_outcomes (patient_id : Z)
    (device_type device_name manufacturer model device_id : string)
    (mac_address : option string) (db : Database) :
  store_up env ->
  let outcome :=
    APIClient.register_iot_device (wire db) patient_id device_type
      device_name manufacturer model device_id mac_address in
  (device_by_device_id device_id db <> None ->
   outcome
   = APIClient.Error
       ("HTTP 400: "
        ++ render (APIClient.JDetail "Device already registered"))) /\
  (device_by_device_id device_id db = None ->
   ~ In patient_id (patients db) ->
   outcome = APIClient.Error "Resource not found") /\
  (device_by_device_id device_id db = None ->
   In patient_id (patients db) ->
   exists body,
     outcome = APIClient.Json (APIClient.JObject (APIClient.Device body)) /\
     DeviceResponse.device_id body = device_id /\
     DeviceResponse.is_active body = true /\
     DeviceResponse.manufacturer body = manufacturer /\
     DeviceResponse.model body = model).
Proof.
  intros Hup. cbv zeta.
  unfold APIClient.register_iot_device, delivered, dispatch.
  split; [ | split ].
  - intros Hknown.
    unfold post_devices, serve, register_device, bind, query, raise, begin.
    cbv beta iota zeta. cbn [store DeviceRegistration.device_id].
    rewrite (Hup QueryDevice). cbv beta iota zeta. cbn [store].
    destruct (device_by_device_id device_id db);
      [reflexivity | contradiction].
  - intros Hnone Hmissing.
    unfold post_devices, serve, register_device, bind, query, raise, begin.
    cbv beta iota zeta.
    cbn [store DeviceRegistration.device_id DeviceRegistration.patient_id].
    rewrite (Hup QueryDevice). cbv beta iota zeta. cbn [store].
    rewrite Hnone. cbv beta iota zeta. cbn [store].
    rewrite (Hup QueryPatient). cbv beta iota zeta. cbn [store].
    destruct (find (Z.eqb patient_id) (patients db)) as [k | ] eqn:Hf;
      [ | reflexivity].
    apply find_some in Hf as [Hin Heq]. apply Z.eqb_eq in Heq. subst k.
    contradiction.
  - intros Hnone Hin.
    assert (Hf : exists k, find (Z.eqb patient_id) (patients db) = Some k).
    { destruct (find _ (patients db)) as [k | ] eqn:Hf; [now exists k | ].
      apply (find_none _ _ Hf) in Hin. rewrite Z.eqb_refl in Hin.
      discriminate. }
    destruct Hf as [k Hf].
    destruct (registration_succeeds env
                (DeviceRegistration.mk patient_id device_type device_name
                   (Some manufacturer) (Some model) device_id
                   (if given mac_address then mac_address else None))
                db k Hup Hnone Hf) as (body & Hbody & Hrun).
    rewrite Hrun. cbn.
    exists body. split; [reflexivity | ].
    injection Hbody as <-. repeat split.
Qed.

End ClientProperties.

(* ================================================================= *)
(** ** What classification never reads *)

(** X23. Diastolic pressure is never evaluated. The number kept for a
    reading depends only on the payload's [value] and [systolic] entries,
    and its classification only on the five bounds the classifier looks up:
    two payloads that agree on those two entries, and two thresholds
    documents that resolve to the same five bounds, give the same number and
    the same classification, whatever they hold under [diastolic],
    [diastolic_max] or [weight]. *)
Theorem only_value_systolic_and_five_bounds_matter
    (float_repr : Py.float -> string) (device_id reading_type : string)
    (data data' : list (string * Py.value)) (ts ts' : option datetime)
    (thresholds thresholds' : Py.value) (t : Spec.ThresholdSet) :
  Py.get data "value" = Py.get data' "value" ->
  Py.get data "systolic" = Py.get data' "systolic" ->
  resolves_to thresholds t ->
  resolves_to thresholds' t ->
  extract_numeric_value
    (SensorReadingCreate.mk device_id reading_type data ts)
  = extract_numeric_value
      (SensorReadingCreate.mk device_id reading_type data' ts') /\
  forall value,
    analyze_against float_repr thresholds reading_type value
    = analyze_against float_repr thresholds' reading_type value.
Proof.
  intros Hvalue Hsystolic Hres Hres'. split.
  - unfold extract_numeric_value.
    cbn [SensorReadingCreate.reading_data SensorReadingCreate.reading_type].
    now rewrite Hvalue, Hsystolic.
  - intros [v | ]; [ | reflexivity].
    destruct (Py.num_truthy v) eqn:Hv.
    + now rewrite (analyze_truthy_matches_table float_repr _ t _ _ Hres Hv),
        (analyze_truthy_matches_table float_repr _ t _ _ Hres' Hv).
    + now rewrite !analyze_falsy_value.
Qed.

Lemma only_value_systolic_and_five_bounds_matter_witness :
  extract_numeric_value
    (SensorReadingCreate.mk "D2" "blood_pressure"
       [("systolic", Int 150); ("diastolic", Int 120)] None)
  = extract_numeric_value
      (SensorReadingCreate.mk "D2" "blood_pressure"
         [("systolic", Int 150); ("diastolic", Int 60)] None).
Proof.
  apply (only_value_systolic_and_five_bounds_matter Sample.float_repr "D2"
           "blood_pressure"
           [("systolic", Int 150); ("diastolic", Int 120)]
           [("systolic", Int 150); ("diastolic", Int 60)] None None
           default_thresholds default_thresholds Spec.defaults
           eq_refl eq_refl default_thresholds_resolve
           default_thresholds_resolve).
Defined.

(* ================================================================= *)
(** ** The theorems at work *)

Lemma malformed_profile_fails_evaluated_readings_witness :
  Sample.post_readings Sample.high_glucose Scenario.db_null_profile
    = (Scenario.db_null_profile,
       ErrorResponse 500 "Error creating reading: AttributeError").
Proof.
  apply (proj2 (malformed_profile_fails_evaluated_readings Sample.float_repr
                  Sample.exn_str Sample.env Sample.high_glucose
                  Scenario.db_null_profile Sample.glucometer
                  Scenario.null_profile (Some (NInt 180))
                  ltac:(discriminate) eq_refl));
    reflexivity.
Defined.

Lemma non_numeric_bound_fails_reading_witness :
  Sample.post_readings Sample.high_glucose Scenario.db_worded_profile
    = (Scenario.db_worded_profile,
       ErrorResponse 500 "Error creating reading: TypeError").
Proof.
  apply (non_numeric_bound_fails_reading Sample.float_repr Sample.exn_str
           Sample.env Sample.high_glucose Scenario.db_worded_profile
           Sample.glucometer (NInt 180) (Str "high"));
    reflexivity.
Defined.

Lemma accepted_ingestion_stamps_witness :
  device_by_device_id "D1"
    (fst (Sample.post_readings Sample.high_glucose Sample.db))
  = Some (SensorDevice.with_last_sync 1002 Sample.glucometer).
Proof.
  apply (accepted_ingestion_stamps Sample.float_repr Sample.exn_str
           Sample.env Sample.high_glucose Sample.db Sample.glucometer
           (Some (NInt 180))
           (Some (NFloat (S754_finite false 6333186975989760 (-45))))
           (Str "mg/dL")
           (alerting "critical" "High glucose level: 180 mg/dL") 1);
    reflexivity.
Defined.

Lemma unsummarisable_reading_is_committed_then_500_witness :
  snd (Sample.post_readings Sample.no_value Sample.db)
    = ErrorResponse 500 "Error creating reading: ValidationError".
Proof.
  apply (unsummarisable_reading_is_committed_then_500 Sample.float_repr
           Sample.exn_str Sample.env Sample.no_value Sample.db
           Sample.glucometer None None (Str "mg/dL") good).
  - intros c. reflexivity.
  - reflexivity.
  - reflexivity.
  - reflexivity.
  - reflexivity.
  - reflexivity.
  - now left.
Defined.

Lemma oversized_systolic_is_refused_witness :
  Sample.post_readings Scenario.oversized Sample.db
    = (Sample.db, ErrorResponse 500 "Error creating reading: OverflowError").
Proof.
  apply (oversized_systolic_is_refused Sample.float_repr Sample.exn_str
           Sample.env Scenario.oversized Sample.db Sample.cuff (2 ^ 1024));
    reflexivity.
Defined.

Lemma unbindable_reading_is_refused_witness :
  exists e,
    Sample.post_readings Scenario.listed_unit Sample.db
      = (Sample.db,
         ErrorResponse 500 ("Error creating reading: " ++ Sample.exn_str e)).
Proof.
  destruct (unbindable_reading_is_refused Sample.float_repr Sample.exn_str
              Sample.env Scenario.listed_unit Sample.db Sample.glucometer
              (Some (NInt 100)) good eq_refl eq_refl eq_refl eq_refl eq_refl
              eq_refl eq_refl
              (or_intror (or_introl (ex_intro _ [Str "mg"; Str "dL"]
                                       eq_refl))))
    as (e & _ & Hrun).
  exists e. exact Hrun.
Defined.

Lemma sample_device_ids_unique : device_ids_unique Sample.db.
Proof.
  unfold device_ids_unique. cbn.
  repeat (constructor; [cbn; intuition discriminate | ]). constructor.
Qed.

Lemma registration_keeps_device_ids_unique_witness :
  device_ids_unique (fst (post_devices Sample.env Sample.newcomer Sample.db)).
Proof.
  apply (registration_keeps_device_ids_unique Sample.env Sample.newcomer
           Sample.db sample_device_ids_unique).
Defined.

Lemma second_registration_is_refused_witness :
  let db1 := fst (post_devices Sample.env Sample.newcomer Sample.db) in
  post_devices Scenario.later Sample.orphan db1
    = (db1, ErrorResponse 400 "Device already registered").
Proof.
  apply (second_registration_is_refused Sample.env Sample.newcomer
           Sample.orphan Sample.db Scenario.later).
  - intros c. reflexivity.
  - reflexivity.
  - cbn. now left.
  - reflexivity.
  - reflexivity.
Defined.

Lemma registered_device_accepts_readings_witness :
  exists row,
    device_by_device_id "D5"
      (fst (post_devices Sample.env Sample.newcomer Sample.db)) = Some row /\
    SensorDevice.is_active row = true /\
    SensorDevice.patient_id row = 7.
Proof.
  apply (registered_device_accepts_readings Sample.float_repr Sample.exn_str
           Scenario.later Sample.newcomer
           (SensorReadingCreate.mk "D5" "glucose"
              [("value", Int 100); ("unit", Str "mg/dL")] None)
           Sample.db Sample.env).
  - intros c. reflexivity.
  - reflexivity.
  - cbn. now left.
  - reflexivity.
Defined.

Lemma listed_alerts_are_the_newest_matching_witness :
  Forall2 (fun a x => AlertResponse.validate a = Ok x)
    (select_alerts Scenario.order_by 7 true Sample.db_alerted)
    [AlertResponse.mk 1 7 "high_glucose" "critical"
       "High glucose level: 180 mg/dL" 1001 false].
Proof.
  apply (listed_alerts_are_the_newest_matching Scenario.selects
           Scenario.order_by 7 (Some true) Sample.db_alerted 200 _
           table_order_orders_desc).
  reflexivity.
Defined.

Lemma listed_readings_are_the_newest_in_window_witness :
  exists body,
    snd (get_readings Scenario.later Scenario.selects Scenario.order_by 7
           (Some 1) None Scenario.db_after_glucose) = Response 200 body /\
    (List.length body <= 1000)%nat.
Proof.
  eexists. split; [vm_compute; reflexivity | ].
  apply (listed_readings_are_the_newest_in_window Scenario.later
           Scenario.selects Scenario.order_by 7 (Some 1) None
           Scenario.db_after_glucose 200 _ table_order_orders_desc).
  vm_compute. reflexivity.
Defined.

Lemma one_unreadable_reading_fails_the_listing_witness :
  get_readings Scenario.later Scenario.selects Scenario.order_by 7 (Some 1)
    None Scenario.db_after_no_value
  = (Scenario.db_after_no_value, internal_server_error).
Proof.
  apply (one_unreadable_reading_fails_the_listing Scenario.later
           Scenario.selects Scenario.order_by 7 (Some 1) None
           Scenario.db_after_no_value
           (last (sensor_readings Scenario.db_after_no_value)
              (SensorReading.mk None None 0 "" 0 [] None None_ "" false
                 None None))).
  - vm_compute. now left.
  - now left.
Defined.

Lemma listing_window_out_of_range_witness :
  get_readings Scenario.later Scenario.selects Scenario.order_by 7
    (Some 24000000000) None Sample.db
  = (Sample.db, internal_server_error).
Proof.
  apply (listing_window_out_of_range Scenario.later Scenario.selects
           Scenario.order_by 7 24000000000 None Sample.db).
  left. lia.
Defined.

Lemma registered_device_is_listed_witness :
  exists before body after,
    snd (get_devices Scenario.selects 7 Sample.db) = Response 200 before /\
    snd (get_devices Scenario.selects 7
           (fst (post_devices Sample.env Sample.newcomer Sample.db)))
      = Response 200 after /\
    Permutation after (body :: before).
Proof.
  eexists.
  destruct (registered_device_is_listed Sample.env Scenario.selects
              Sample.newcomer Sample.db _ (fun _ => eq_refl) eq_refl
              (or_introl eq_refl) eq_refl)
    as [(body & after & _ & Hlist & Hperm) _].
  exists body, after.
  split; [reflexivity | split; [exact (f_equal snd Hlist) | exact Hperm]].
Defined.

Lemma alerting_reading_is_listed_unread_witness :
  exists x,
    snd (get_alerts Scenario.selects Scenario.order_by 7 (Some true)
           Scenario.db_after_glucose)
      = Response 200 [x] /\
    AlertResponse.alert_type x = "high_glucose".
Proof.
  destruct (alerting_reading_is_listed_unread Sample.float_repr
              Sample.exn_str Sample.env Scenario.selects Scenario.order_by
              Sample.high_glucose Sample.db Sample.glucometer
              (Some (NInt 180))
              (Some (NFloat (S754_finite false 6333186975989760 (-45))))
              (Str "mg/dL")
              (alerting "critical" "High glucose level: 180 mg/dL")
              (Some true) eq_refl eq_refl eq_refl eq_refl eq_refl eq_refl
              eq_refl eq_refl eq_refl (fun _ H => match H with end) eq_refl
              table_order_orders_desc)
    as (x & Hlist & _ & Htype & _).
  exists x. split; [exact (f_equal snd Hlist) | exact Htype].
Defined.

Lemma accepted_reading_is_listed_witness :
  exists body,
    snd (Sample.post_readings Sample.high_glucose Sample.db)
      = Response 200 body /\
    snd (get_readings Scenario.later Scenario.selects Scenario.order_by 7
           (Some 1) None Scenario.db_after_glucose) = Response 200 [body].
Proof.
  destruct (accepted_reading_is_listed Sample.float_repr Sample.exn_str
              Sample.env Scenario.later Scenario.selects Scenario.order_by
              Sample.high_glucose Sample.db Sample.glucometer 1 (NInt 180)
              (S754_finite false 6333186975989760 (-45)) "mg/dL"
              (alerting "critical" "High glucose level: 180 mg/dL")
              1 None (5000 - 3600000000))
    as (body & Hpost & Hlist);
    try reflexivity.
  - intros c. reflexivity.
  - intros r [].
  - intros c. reflexivity.
  - exact table_order_orders_desc.
  - vm_compute. discriminate.
  - now left.
  - exists body. split; [exact Hpost | exact (f_equal snd Hlist)].
Defined.

Lemma client_sees_no_readings_when_one_is_unreadable_witness :
  APIClient.get_iot_readings
    (delivered Scenario.later Scenario.selects Scenario.order_by
       Scenario.render Scenario.db_after_no_value) 7 1 None = [].
Proof.
  apply (client_sees_no_readings_when_one_is_unreadable Scenario.later
           Scenario.selects Scenario.order_by Scenario.render 7 1 None
           Scenario.db_after_no_value
           (last (sensor_readings Scenario.db_after_no_value)
              (SensorReading.mk None None 0 "" 0 [] None None_ "" false
                 None None))).
  - vm_compute. now left.
  - now left.
Defined.

Lemma client_registration_outcomes_witness :
  APIClient.register_iot_device
    (delivered Sample.env Scenario.selects Scenario.order_by
       Scenario.render Sample.db)
    99 "glucose" "Spare" "Acme" "G1" "D5" None
  = APIClient.Error "Resource not found".
Proof.
  apply (client_registration_outcomes Sample.env Scenario.selects
           Scenario.order_by Scenario.render 99 "glucose" "Spare" "Acme"
           "G1" "D5" None
           Sample.db (fun _ => eq_refl)).
  - reflexivity.
  - cbn. intros [H | []]. discriminate.
Defined.
